(** * ADUI: schema adapter, providers, import pipeline, connection monitor

    A shallow embedding of the TypeScript sources

      - [MetadataAdapter.ts]            (module [MetadataAdapter])
      - [JSONFileDataProvider.ts]       (module [JSONFileDataProvider])
      - [ExternalMetadataProvider.ts]   (module [ExternalMetadataProvider])
      - [useConnectionMonitor.ts]       (module [ConnectionMonitor])
      - [useJSONImport.ts]              (module [JSONImport])
      - [DataConfig.ts], [DataContext.tsx]  (module [DataConfig])
      - the fallback effect of [App.tsx]    (module [App])

    together with the part of the JavaScript semantics those files rely on
    (module [JS]): JSON values, truthiness, property reads, [||], template
    literals, exceptions.

    Conventions.
    - A JavaScript computation that may throw and mutates state is a function
      [S -> result A * S]: the state reached is kept when an exception is
      thrown, exactly as mutations made before a [throw] stay visible.
    - [console.log]/[console.warn]/[console.error] calls are not modelled,
      except where evaluating their arguments can throw.
    - Wall-clock readings ([Date.now()], [new Date().toISOString()]) and the
      outcome of I/O ([fetch], [FileSystem.readAsStringAsync], [JSON.parse])
      are inputs of the function that performs them. *)

From stdpp Require Import base option list strings gmap fin_maps pretty.
From Stdlib Require Import Ascii String ZArith Lia.

Set Warnings "-register-all".

Local Open Scope string_scope.
Local Open Scope list_scope.

(* ===================================================================== *)
(** * JavaScript values and the operations the sources use               *)
(* ===================================================================== *)

Module JS.

(** A value obtained from [JSON.parse] / [response.json()], a missing
    property ([undefined]), or a built-in method reached through a prototype
    ([VFun]).  A number is represented by the text [Number.prototype.toString]
    prints for it (["10"], ["0.1"], ["-3"]); the sources never do arithmetic
    on document values, they only test, copy and print them.  A string is a
    sequence of code units below 256; for a string with a code unit above
    127, [toUpperCase] below takes the engine's case tables as a
    parameter. *)
Inductive value : Type :=
| VUndef
| VNull
| VBool (b : bool)
| VNum (lit : string)
| VStr (s : string)
| VArr (items : list value)
| VObj (props : list (string * value))
| VFun (name : string).

(** Thrown objects.  The sources only ever read [.message] of what they
    catch.  The message of an engine-raised [TypeError] is engine text; the
    model records the cause and prints it with V8's wording, which for a
    call of something that is not a function quotes the callee expression
    as written in the source. *)
Inductive js_error : Type :=
| TypeError_read (base : value) (prop : string)   (* property read on undefined / null *)
| TypeError_call (callee : string)                (* [callee(...)] where [callee], an
                                                     expression of the source, is not callable *)
| TypeError_keys                                  (* [Object.keys(null)] *)
| TypeError_primitive                             (* ToPrimitive on an object that cannot print *)
| TypeError_iterable (v : value)                  (* [for (... of v)] on a non-iterable *)
| SyntaxError (msg : string)                      (* JSON.parse *)
| Error (msg : string).                           (* [new Error(msg)] *)

Inductive result (A : Type) : Type :=
| Ok (a : A)
| Throw (e : js_error).
Arguments Ok {A} a.
Arguments Throw {A} e.

Definition is_ok {A} (r : result A) : bool :=
  match r with Ok _ => true | Throw _ => false end.

(** ** Stateful, throwing computations *)

Definition M (S A : Type) : Type := S -> result A * S.

Definition ret {S A} (a : A) : M S A := fun s => (Ok a, s).
Definition throw {S A} (e : js_error) : M S A := fun s => (Throw e, s).
Definition bind {S A B} (c : M S A) (k : A -> M S B) : M S B :=
  fun s => match c s with
           | (Ok a, s') => k a s'
           | (Throw e, s') => (Throw e, s')
           end.
Definition lift {S A} (r : result A) : M S A := fun s => (r, s).
Definition modify {S} (f : S -> S) : M S unit := fun s => (Ok tt, f s).
Definition gets {S A} (f : S -> A) : M S A := fun s => (Ok (f s), s).

(** [try { c } catch (error) { h error }] *)
Definition try_catch {S A} (c : M S A) (h : js_error -> M S A) : M S A :=
  fun s => match c s with
           | (Ok a, s') => (Ok a, s')
           | (Throw e, s') => h e s'
           end.

Notation "'do' x <- c ; k" := (bind c (fun x => k))
  (at level 10, x name, c at level 100, k at level 200).
Notation "'run' c ; k" := (bind c (fun _ => k))
  (at level 10, c at level 100, k at level 200).

(** [xs.map(f)] on a real array: the callback runs on the elements in index
    order; an exception stops the traversal. *)
Fixpoint mapM {S A B} (f : A -> M S B) (xs : list A) : M S (list B) :=
  match xs with
  | [] => ret []
  | x :: r => do y <- f x; do ys <- mapM f r; ret (y :: ys)
  end.

(** ** Truthiness, [||], strict equality with a literal *)

Definition truthy (v : value) : bool :=
  match v with
  | VUndef | VNull => false
  | VBool b => b
  | VNum lit => negb (String.eqb lit "0" || String.eqb lit "NaN")
  | VStr s => negb (String.eqb s "")
  | VArr _ | VObj _ | VFun _ => true
  end.

Definition nullish (v : value) : bool :=
  match v with VUndef | VNull => true | _ => false end.

(** [a || b] where both operands are already evaluated. *)
Definition or_else (a b : value) : value := if truthy a then a else b.

(** [v !== false] *)
Definition not_false (v : value) : bool :=
  match v with VBool false => false | _ => true end.

(** [v === 'lit'] *)
Definition is_str (v : value) (lit : string) : bool :=
  match v with VStr s => String.eqb s lit | _ => false end.

Definition isArray (v : value) : bool :=
  match v with VArr _ => true | _ => false end.

(** ** Property reads *)

Fixpoint lookup_prop (p : string) (props : list (string * value)) : option value :=
  match props with
  | [] => None
  | (k, v) :: r => if String.eqb k p then Some v else lookup_prop p r
  end.

Definition mem (p : string) (l : list string) : bool :=
  existsb (String.eqb p) l.

Definition object_prototype_members : list string :=
  ["constructor"; "__proto__"; "hasOwnProperty"; "isPrototypeOf";
   "propertyIsEnumerable"; "toLocaleString"; "toString"; "valueOf";
   "__defineGetter__"; "__defineSetter__"; "__lookupGetter__";
   "__lookupSetter__"].

Definition array_prototype_members : list string :=
  ["at"; "concat"; "copyWithin"; "entries"; "every"; "fill"; "filter";
   "find"; "findIndex"; "findLast"; "findLastIndex"; "flat"; "flatMap";
   "forEach"; "includes"; "indexOf"; "join"; "keys"; "lastIndexOf"; "map";
   "pop"; "push"; "reduce"; "reduceRight"; "reverse"; "shift"; "slice";
   "some"; "sort"; "splice"; "unshift"; "values"].

(** The value of [v.p] for [v] other than [undefined]/[null]: own
    properties first, then the prototype chain.  Besides [length] the
    prototypes hold only methods; among the names the sources read, the
    only one found on a prototype of a JSON value is [values] (and [map])
    on arrays.  Indexed reads and the own properties of functions and of
    string wrappers other than [length] are not read by the sources. *)
Definition prop (v : value) (p : string) : value :=
  match v with
  | VObj props =>
      match lookup_prop p props with
      | Some x => x
      | None => if mem p object_prototype_members then VFun p else VUndef
      end
  | VArr items =>
      if String.eqb p "length" then VNum (pretty (List.length items))
      else if mem p array_prototype_members then VFun p
      else if mem p object_prototype_members then VFun p
      else VUndef
  | VStr s =>
      if String.eqb p "length" then VNum (pretty (String.length s))
      else if mem p object_prototype_members then VFun p
      else VUndef
  | _ => if mem p object_prototype_members then VFun p else VUndef
  end.

(** [v.p] *)
Definition get_r (v : value) (p : string) : result value :=
  if nullish v then Throw (TypeError_read v p) else Ok (prop v p).

(** [v?.p] *)
Definition get_opt_r (v : value) (p : string) : result value :=
  if nullish v then Ok VUndef else Ok (prop v p).

Definition get {S} (v : value) (p : string) : M S value := lift (get_r v p).
Definition get_opt {S} (v : value) (p : string) : M S value := lift (get_opt_r v p).

(** [v.p || v.q]: the second read happens only when the first is falsy. *)
Definition get_or {S} (v : value) (p q : string) : M S value :=
  do a <- get v p; if truthy a then ret a else get v q.

(** ** ToString, as applied by template literals and property keys *)

(** An object whose own [toString] (a JSON value, hence not callable) hides
    [Object.prototype.toString] falls back on [valueOf]; the inherited
    [valueOf] returns the object itself and an own one is not callable: in
    both cases ToPrimitive throws a TypeError. *)
Fixpoint to_string_r (v : value) : result string :=
  match v with
  | VUndef => Ok "undefined"
  | VNull => Ok "null"
  | VBool true => Ok "true"
  | VBool false => Ok "false"
  | VNum lit => Ok lit
  | VStr s => Ok s
  | VArr items =>
      (fix join (l : list value) : result string :=
         match l with
         | [] => Ok ""
         | x :: r =>
             match (match x with
                    | VUndef | VNull => Ok ""
                    | _ => to_string_r x
                    end) with
             | Throw e => Throw e
             | Ok sx =>
                 match r with
                 | [] => Ok sx
                 | _ => match join r with
                        | Throw e => Throw e
                        | Ok sr => Ok (sx +:+ "," +:+ sr)
                        end
                 end
             end
         end) items
  | VObj props =>
      match lookup_prop "toString" props with
      | Some _ => Throw TypeError_primitive
      | None => Ok "[object Object]"
      end
  | VFun name => Ok ("function " +:+ name +:+ "() { [native code] }")
  end.

Definition to_string {S} (v : value) : M S string := lift (to_string_r v).

(** ** [error.message] *)

Definition message (e : js_error) : string :=
  match e with
  | TypeError_read base p =>
      "Cannot read properties of "
        +:+ (match base with VNull => "null" | _ => "undefined" end)
        +:+ " (reading '" +:+ p +:+ "')"
  | TypeError_call p => p +:+ " is not a function"
  | TypeError_keys => "Cannot convert undefined or null to object"
  | TypeError_primitive => "Cannot convert object to primitive value"
  | TypeError_iterable v =>
      (match v with VNull => "null" | VUndef => "undefined" | _ => "object" end)
        +:+ " is not iterable"
  | SyntaxError msg => msg
  | Error msg => msg
  end.

(** ** Strings *)

(** [s.endsWith(suffix)] *)
Fixpoint endsWith (s suffix : string) : bool :=
  if String.eqb s suffix then true
  else match s with
       | EmptyString => false
       | String _ s' => endsWith s' suffix
       end.

Definition in_range (lo hi : nat) (c : ascii) : bool :=
  (lo <=? nat_of_ascii c)%nat && (nat_of_ascii c <=? hi)%nat.

(** [toUpperCase] on one code unit below 128. *)
Definition upper_char (c : ascii) : ascii :=
  if in_range 97 122 c then ascii_of_nat (nat_of_ascii c - 32) else c.

Fixpoint map_string (f : ascii -> ascii) (s : string) : string :=
  match s with
  | EmptyString => EmptyString
  | String c r => String (f c) (map_string f r)
  end.

(** A string all of whose code units are below 128. *)
Definition ascii_only (s : string) : bool :=
  forallb (fun c => (nat_of_ascii c <? 128)%nat) (list_ascii_of_string s).

(** [s.toUpperCase()].  On a string of code units below 128 the method maps
    [a]-[z] to [A]-[Z] and keeps every other code unit.  On any other string
    the result is read off the engine's Unicode case tables and need not
    have the length of [s] (the sharp s becomes [SS]); [unicode] stands for
    those tables. *)
Definition toUpperCase (unicode : string -> string) (s : string) : string :=
  if ascii_only s then map_string upper_char s else unicode s.

(** ** [Map.prototype.set] on a map keyed by arbitrary values *)

(** SameValueZero on the values that can be [Map] keys here.  Objects and
    arrays are compared by identity in JavaScript; every such key in these
    sources is a freshly parsed object compared with a key from another
    parse or with a string, so the comparison is always false. *)
Definition same_value_zero (a b : value) : bool :=
  match a, b with
  | VUndef, VUndef => true
  | VNull, VNull => true
  | VBool x, VBool y => Bool.eqb x y
  | VNum x, VNum y => String.eqb x y
  | VStr x, VStr y => String.eqb x y
  | _, _ => false
  end.

Fixpoint map_set {V} (k : value) (v : V) (m : list (value * V)) : list (value * V) :=
  match m with
  | [] => [(k, v)]
  | (k', v') :: r =>
      if same_value_zero k' k then (k', v) :: r else (k', v') :: map_set k v r
  end.

(** [m.get(k)] on the same maps. *)
Fixpoint map_get {V} (k : value) (m : list (value * V)) : option V :=
  match m with
  | [] => None
  | (k', v') :: r => if same_value_zero k' k then Some v' else map_get k r
  end.

(** [xs.join(sep)]: [undefined] and [null] print as the empty string, every
    other element by ToString. *)
Fixpoint join_r (sep : string) (xs : list value) : result string :=
  match xs with
  | [] => Ok ""
  | x :: r =>
      match (match x with
             | VUndef | VNull => Ok ""
             | _ => to_string_r x
             end) with
      | Throw e => Throw e
      | Ok sx =>
          match r with
          | [] => Ok sx
          | _ => match join_r sep r with
                 | Throw e => Throw e
                 | Ok sr => Ok (sx +:+ sep +:+ sr)
                 end
          end
      end
  end.

End JS.

Import JS.

(* ===================================================================== *)
(** * MetadataAdapter.ts                                                 *)
(* ===================================================================== *)

Module MetadataAdapter.

(** [private static embeddedReferences: Map<string, any[]>]: one store for
    the whole process, shared by every caller of the adapter. *)
Abbreviation store := (gmap string (list value)).

Definition EMBEDDED_SUFFIX : string := "_EMBEDDED_REF".

Definition componentTypeMap : list (string * value) :=
  [("QRCollectorField", VStr "QRCollector");
   ("MultiPhotoField", VStr "MultiPhoto");
   ("QRCodeField", VStr "QRCode");
   ("QRChecklistField", VStr "QRChecklist");
   ("FlippableQRChecklistField", VStr "FlippableQRChecklist");
   ("TaskListField", VStr "TaskList");
   ("TextField", VStr "String");
   ("TextAreaField", VStr "Text");
   ("SelectField", VStr "List");
   ("YesNoField", VStr "YesNo");
   ("CameraField", VStr "Camera");
   ("NumberField", VStr "Integer")].

(** [xs.map(f)] where [xs] is whatever the document holds at that place. *)
Definition array_map {S} (callee : string) (xs : value) (f : value -> M S value)
  : M S value :=
  match xs with
  | VArr items => do ys <- mapM f items; ret (VArr ys)
  | VUndef | VNull => throw (TypeError_read xs "map")
  | _ => throw (TypeError_call callee)
  end.

(** The callback of both [reference.values.map(...)] calls. *)
Definition convertValue {S} (v : value) : M S value :=
  do key <- get v "key";
  do display <- get v "display";
  do val <- get v "value";
  do description <- get v "description";
  do color <- get v "color";
  do icon <- get v "icon";
  do sortOrder <- get v "sortOrder";
  ret (VObj [("key", key);
             ("value", or_else display val);
             ("description", description);
             ("color", color);
             ("icon", icon);
             ("sortOrder", sortOrder)]).

Definition array_items (v : value) : list value :=
  match v with VArr items => items | _ => [] end.

Definition adaptReference (reference fieldId : value) : M store value :=
  if negb (truthy reference) then ret VUndef
  else
    do values <- get reference "values";
    if negb (truthy values) then ret VUndef
    else
      do rid <- get reference "id";
      do referenceId <-
        (if truthy rid then ret rid
         else
           do fid <- to_string fieldId;
           let referenceId := fid +:+ EMBEDDED_SUFFIX in
           do convertedValues <- array_map "reference.values.map" values convertValue;
           run modify (fun m : store => <[referenceId := array_items convertedValues]> m);
           ret (VStr referenceId));
      do name <- get reference "name";
      do validationType <- get reference "validationType";
      do converted <- array_map "reference.values.map" values convertValue;
      ret (VObj [("id", referenceId);
                 ("name", or_else name (VStr "Reference"));
                 ("validationType", or_else validationType (VStr "LIST"));
                 ("values", converted)]).

Definition getEmbeddedReferenceValues (referenceId : string) (m : store)
  : option (list value) := m !! referenceId.

Definition isEmbeddedReference (referenceId : string) : bool :=
  endsWith referenceId EMBEDDED_SUFFIX.

Definition clearEmbeddedReferences : M store unit :=
  modify (fun _ : store => ∅).

(** Display logic is dropped whatever it is. *)
Definition adaptDisplayLogic (displayLogic : value) : value := VUndef.

Definition adaptFieldData (data componentType : value) : value :=
  if negb (truthy data) then VUndef
  else if is_str componentType "TaskListField" then
    VObj [("tasks", or_else (prop data "tasks") (VArr []));
          ("relationships", or_else (prop data "relationships") (VArr []));
          ("layout", or_else (prop data "layout") (VObj []));
          ("projectInfo", or_else (prop data "projectInfo") (VObj []))]
  else if is_str componentType "QRChecklistField"
       || is_str componentType "FlippableQRChecklistField" then
    VObj [("items", or_else (prop data "items") (VArr []));
          ("scanSettings", or_else (prop data "scanSettings") (VObj []))]
  else if is_str componentType "QRCollectorField" then
    VObj [("maxCodes", or_else (prop data "maxCodes") (VNum "10"));
          ("allowDuplicates", or_else (prop data "allowDuplicates") (VBool false));
          ("scanSettings", or_else (prop data "scanSettings") (VObj []))]
  else if is_str componentType "MultiPhotoField" then
    VObj [("maxPhotos", or_else (prop data "maxPhotos") (VNum "5"));
          ("requireLocation", VBool (not_false (prop data "requireLocation")));
          ("photoSettings", or_else (prop data "photoSettings") (VObj []))]
  else data.

Definition defaultPriorityColors : value :=
  VObj [("critical", VStr "#E53E3E"); ("high", VStr "#FF9800");
        ("normal", VStr "#3182CE"); ("low", VStr "#38A169")].

Definition defaultStatusColors : value :=
  VObj [("completed", VStr "#48BB78"); ("in_progress", VStr "#ED8936");
        ("blocked", VStr "#F56565"); ("not_started", VStr "#90CDF4")].

Definition defaultGraphTransition : value :=
  VObj [("enabled", VBool true); ("minZoom", VNum "0.1"); ("maxZoom", VNum "1");
        ("snapLevels", VArr [VNum "0.1"; VNum "0.3"; VNum "0.5"; VNum "1"])].

Definition adaptUIConfig (ui componentType : value) : value :=
  if negb (truthy ui) then VUndef
  else if is_str componentType "TaskListField" then
    VObj [("allowZoomGraph", VBool (not_false (prop ui "allowZoomGraph")));
          ("priorityColors", or_else (prop ui "priorityColors") defaultPriorityColors);
          ("statusColors", or_else (prop ui "statusColors") defaultStatusColors);
          ("graphTransition", or_else (prop ui "graphTransition") defaultGraphTransition);
          ("helpText", prop ui "helpText")]
  else ui.

(** [componentTypeMap[component] || 'String']: the table is a plain object,
    so a key it does not own is looked up on [Object.prototype]. *)
Definition displayTypeOf (component : value) : M store value :=
  do key <- to_string component;
  ret (or_else (prop (VObj componentTypeMap) key) (VStr "String")).

Definition adaptField (externalField : value) : M store value :=
  do name <- get externalField "name";
  do component <- get externalField "component";
  do displayType <- displayTypeOf component;
  do id <- get_or externalField "fieldId" "id";
  do sequence <- get externalField "sequence";
  do validation <- get externalField "validation";
  do required <- get_opt validation "required";
  do isReadOnly <- get externalField "isReadOnly";
  do isDisplayed <- get externalField "isDisplayed";
  do maxLength <- get_opt validation "maxLength";
  do ui <- get externalField "ui";
  do helpText <- get_opt ui "helpText";
  do help <- get externalField "help";
  do description <- get externalField "description";
  do displayLogic <- get externalField "displayLogic";
  do reference <- get externalField "reference";
  do adaptedReference <- adaptReference reference id;
  do data <- get externalField "data";
  ret (VObj [("id", id);
             ("fieldId", id);
             ("name", name);
             ("displayType", displayType);
             ("sequence", or_else sequence (VNum "10"));
             ("isMandatory", or_else required (VBool false));
             ("isReadOnly", or_else isReadOnly (VBool false));
             ("isDisplayed", VBool (not_false isDisplayed));
             ("fieldLength", or_else maxLength (VNum "0"));
             ("help", or_else helpText help);
             ("description", description);
             ("displayLogic", adaptDisplayLogic displayLogic);
             ("reference", adaptedReference);
             ("data", adaptFieldData data component);
             ("ui", adaptUIConfig ui component);
             ("_originalComponent", component);
             ("_originalValidation", validation);
             ("_originalUI", ui)]).

Definition adaptTab (externalTab : value) : M store value :=
  do name <- get externalTab "name";
  do id <- get_or externalTab "tabId" "id";
  do description <- get externalTab "description";
  do sequence <- get externalTab "sequence";
  do tabLevel <- get externalTab "tabLevel";
  do isReadOnly <- get externalTab "isReadOnly";
  do isSingleRow <- get externalTab "isSingleRow";
  do externalFields <- get externalTab "fields";
  do fields <- array_map "externalTab.fields.map" externalFields adaptField;
  ret (VObj [("id", id);
             ("tabId", id);
             ("name", name);
             ("description", description);
             ("sequence", or_else sequence (VNum "10"));
             ("tabLevel", or_else tabLevel (VNum "0"));
             ("isReadOnly", or_else isReadOnly (VBool false));
             ("isSingleRow", VBool (not_false isSingleRow));
             ("fields", fields)]).

(** Object spread [{...v}]: the own enumerable properties of [v]. *)
Fixpoint indexed {A} (f : A -> value) (i : nat) (l : list A) : list (string * value) :=
  match l with
  | [] => []
  | x :: r => (pretty i, f x) :: indexed f (S i) r
  end.

Definition spread (v : value) : list (string * value) :=
  match v with
  | VObj props => props
  | VArr items => indexed (fun x => x) 0 items
  | VStr s => indexed (fun c => VStr (String c EmptyString)) 0 (list_ascii_of_string s)
  | _ => []
  end.

Fixpoint set_prop (k : string) (v : value) (props : list (string * value))
  : list (string * value) :=
  match props with
  | [] => [(k, v)]
  | (k', v') :: r =>
      if String.eqb k' k then (k', v) :: r else (k', v') :: set_prop k v r
  end.

(** The two readings of [new Date().toISOString()] that
    [adaptWindowDefinition] makes, one for each stamp, in the order of the
    object literal. *)
Record dates : Type := mkDates {
  fetchedAt : string;
  adaptedAt : string
}.

Definition adaptMetadata (now : dates) (metadata : value) : value :=
  let source := or_else (if nullish metadata then VUndef else prop metadata "source")
                        (VStr "external-metadata-server") in
  VObj (set_prop "internalFormat" (VStr "adui-v1.3")
       (set_prop "originalFormat" (VStr "external-json")
       (set_prop "adaptedAt" (VStr (adaptedAt now))
       (set_prop "fetchedAt" (VStr (fetchedAt now))
       (set_prop "source" source (spread metadata)))))).

(** [v?.p] and [v?.[i]] as values. *)
Definition opt_prop (v : value) (p : string) : value :=
  if nullish v then VUndef else prop v p.

Definition opt_index (v : value) (i : nat) : value :=
  match v with
  | VArr items => nth i items VUndef
  | VStr s => match String.get i s with
              | Some c => VStr (String c EmptyString)
              | None => VUndef
              end
  | _ => VUndef
  end.

Fixpoint forEachIndexed {St A} (f : A -> nat -> M St unit) (i : nat) (xs : list A)
  : M St unit :=
  match xs with
  | [] => ret tt
  | x :: r => run f x i; forEachIndexed f (S i) r
  end.

(** [v?.forEach(f)] *)
Definition opt_forEach {S} (callee : string) (v : value) (f : value -> nat -> M S unit)
  : M S unit :=
  match v with
  | VUndef | VNull => ret tt
  | VArr items => forEachIndexed f 0 items
  | _ => throw (TypeError_call callee)
  end.

(** [debugConversion] only logs, but most of its lines are template
    literals: they apply ToString to document values, which throws on an
    object that owns a [toString] property.  The model keeps exactly the
    reads and conversions that can throw. *)
Definition debugField {S} (adaptedTab extField : value) (fieldIndex : nat) : M S unit :=
  let adaptedField := opt_index (opt_prop adaptedTab "fields") fieldIndex in
  do name <- get extField "name";
  run to_string name;
  do component <- get extField "component";
  run to_string component;
  run to_string (opt_prop adaptedField "displayType");
  do reference <- get extField "reference";
  if truthy reference then
    do rid <- get reference "id";
    do refId <-
      (if truthy rid then ret rid
       else
         do fieldId <- get extField "fieldId";
         do fid <- to_string fieldId;
         ret (VStr (fid +:+ EMBEDDED_SUFFIX)));
    run to_string refId;
    ret tt
  else ret tt.

Definition debugTab {S} (adaptedWindow extTab : value) (tabIndex : nat) : M S unit :=
  let adaptedTab := opt_index (opt_prop adaptedWindow "tabs") tabIndex in
  do name <- get extTab "name";
  run to_string name;
  run to_string (opt_prop adaptedTab "name");
  do fields <- get extTab "fields";
  run to_string (or_else (opt_prop fields "length") (VNum "0"));
  run to_string (or_else (opt_prop (opt_prop adaptedTab "fields") "length") (VNum "0"));
  opt_forEach "extTab.fields?.forEach" fields (debugField adaptedTab).

Definition debugConversion {S} (externalWindow adaptedWindow : value) : M S unit :=
  run get_or externalWindow "windowId" "id";
  run get adaptedWindow "id";
  do tabs <- get externalWindow "tabs";
  opt_forEach "externalWindow.tabs?.forEach" tabs (debugTab adaptedWindow).

(** [now] holds the two readings of [new Date().toISOString()].  The first line is
    the entry [console.log], whose argument reads [externalWindow.windowId]
    and so throws on [undefined]/[null] before anything else happens. *)
Definition adaptWindowDefinition (now : dates) (externalWindow : value) : M store value :=
  run get_or externalWindow "windowId" "id";
  run clearEmbeddedReferences;
  do id <- get_or externalWindow "windowId" "id";
  do name <- get externalWindow "name";
  do description <- get externalWindow "description";
  do windowType <- get externalWindow "windowType";
  do externalTabs <- get externalWindow "tabs";
  do tabs <- array_map "externalWindow.tabs.map" externalTabs adaptTab;
  do metadata <- get externalWindow "metadata";
  let adaptedWindow :=
    VObj [("id", id);
          ("name", name);
          ("description", description);
          ("windowType", or_else windowType (VStr "Transaction"));
          ("tabs", tabs);
          ("metadata", adaptMetadata now metadata)] in
  run debugConversion externalWindow adaptedWindow;
  ret adaptedWindow.

(** [componentType in this.componentTypeMap]: the [in] operator also finds
    what the table inherits from [Object.prototype]. *)
Definition isComponentSupported (componentType : string) : bool :=
  match lookup_prop componentType componentTypeMap with
  | Some _ => true
  | None => mem componentType object_prototype_members
  end.

End MetadataAdapter.

(* ===================================================================== *)
(** * JSONFileDataProvider.ts                                            *)
(* ===================================================================== *)

Module JSONFileDataProvider.

(** One entry of the session log.  The [timestamp] and the pretty-printed
    [data] payload of an entry are not modelled: nothing reads them back.
    Where building a payload can throw ([Object.keys] in the parsing stage,
    the template literal of the final entry) the throw is modelled. *)
Record ImportDiagnostics : Type := diag {
  stage : string;
  success : bool;
  details : string
}.

(** The private fields of one provider instance. *)
Record provider : Type := mkProvider {
  windowData : list (value * value);
  referenceData : list (value * value);
  formData : list (value * value);
  importedTemplate : value;
  importTimestamp : option string;
  importDiagnostics : list ImportDiagnostics
}.

(** What an import can touch: the instance and the adapter's static map. *)
Record process : Type := mkProcess {
  this : provider;
  embeddedReferences : MetadataAdapter.store
}.

(** What an import takes from outside the sources: the file system, the
    engine's JSON parser and case tables, and the clock. *)
Record io : Type := mkIo {
  readAsStringAsync : string -> result string;   (* expo-file-system *)
  JSON_parse : string -> result value;
  String_toUpperCase : string -> string;         (* the engine's case tables, see
                                                    [JS.toUpperCase] *)
  adapterDates : MetadataAdapter.dates;          (* the adapter's two [new Date()] *)
  clock : string                                 (* [new Date().toISOString()] of the
                                                    storage stage ([importTimestamp]) *)
}.

Definition with_diagnostics (f : list ImportDiagnostics -> list ImportDiagnostics)
  (p : process) : process :=
  let t := this p in
  mkProcess (mkProvider (windowData t) (referenceData t) (formData t)
               (importedTemplate t) (importTimestamp t) (f (importDiagnostics t)))
            (embeddedReferences p).

Definition logDiagnostic (stage : string) (success : bool) (details : string)
  : M process unit :=
  modify (with_diagnostics (fun log => log ++ [diag stage success details])).

Definition logError (stage : string) (error : js_error) : M process unit :=
  let m := message error in
  logDiagnostic stage false ("Error: " +:+ (if String.eqb m "" then "Unknown error" else m)).

(** [new JSONFileDataProvider()] *)
Definition constructor : provider :=
  mkProvider [] [] [] VNull None
    [diag "initialization" true "JSONFileDataProvider v2.0 initialized"].

(** ** The stages *)

Definition validateFileAccess (fileUri : string) : M process unit :=
  logDiagnostic "file_access_check" true ("Checking file accessibility: " +:+ fileUri).

Definition readFromFileSystem (env : io) (fileUri : string) : M process string :=
  run logDiagnostic "content_reading" true "Reading JSON content from file system";
  try_catch
    (do rawJson <- lift (readAsStringAsync env fileUri);
     run logDiagnostic "content_reading" true "Successfully read file content";
     ret rawJson)
    (fun error =>
       run logError "content_reading" error;
       throw (Error ("Cannot read JSON file: " +:+ message error))).

(** [jsonContent?: string]: [None] is an omitted argument; an empty string
    is falsy and also sends the import to the file system. *)
Definition readFileContent (env : io) (fileUri : string) (providedContent : option string)
  : M process string :=
  match providedContent with
  | Some content =>
      if negb (String.eqb content "") then
        run logDiagnostic "content_reading" true "Using provided JSON content";
        ret content
      else readFromFileSystem env fileUri
  | None => readFromFileSystem env fileUri
  end.

(** [Object.keys(v)] throws on [undefined]/[null]; its result only goes to
    the log payload. *)
Definition Object_keys_check {S} (v : value) : M S unit :=
  if nullish v then throw TypeError_keys else ret tt.

Definition parseJSONContent (env : io) (rawJson : string) : M process value :=
  run logDiagnostic "json_parsing" true "Starting JSON parsing";
  try_catch
    (do templateData <- lift (JSON_parse env rawJson);
     run Object_keys_check templateData;
     run logDiagnostic "json_parsing" true "JSON parsing successful";
     ret templateData)
    (fun error =>
       run logError "json_parsing" error;
       throw (Error ("Invalid JSON format: " +:+ message error))).

(** The per-tab record pushed on [validationResults.invalidTabs]. *)
Record tabValidation : Type := mkTabValidation {
  index : nat;
  hasId : bool;
  hasFields : bool
}.

(** The [for] loop over [template.tabs]: reads [tab.tabId] (which throws on
    a [null] tab) and collects the tabs failing the check. *)
Fixpoint validateTabs (i : nat) (tabs : list value) : M process (list tabValidation) :=
  match tabs with
  | [] => ret []
  | tab :: rest =>
      do id <- get_or tab "tabId" "id";
      do fields <- get tab "fields";
      let tv := mkTabValidation i (truthy id) (truthy fields && isArray fields) in
      do invalid <- validateTabs (S i) rest;
      ret (if negb (hasId tv) || negb (hasFields tv) then tv :: invalid else invalid)
  end.

Definition validateTemplateStructure (template : value) : M process unit :=
  run logDiagnostic "structure_validation" true "Starting template structure validation";
  do id <- get_or template "windowId" "id";
  do name <- get template "name";
  do tabs <- get template "tabs";
  if negb (truthy id) then
    run logDiagnostic "structure_validation" false "Missing required windowId or id field";
    throw (Error "Template missing required windowId or id field")
  else if negb (truthy name) then
    run logDiagnostic "structure_validation" false "Missing required name field";
    throw (Error "Template missing required name field")
  else if negb (truthy tabs && isArray tabs) then
    run logDiagnostic "structure_validation" false "Missing or invalid tabs array";
    throw (Error "Template missing required tabs array")
  else
    do invalidTabs <- validateTabs 0 (MetadataAdapter.array_items tabs);
    if (0 <? List.length invalidTabs)%nat then
      run logDiagnostic "structure_validation" false "Invalid tab structures found";
      throw (Error (pretty (List.length invalidTabs) +:+ " tabs have invalid structure"))
    else
      logDiagnostic "structure_validation" true "Template structure validation successful".

(** [s.replace(/[^A-Z0-9]/g, '_')] *)
Definition keep_upper_digit (c : ascii) : ascii :=
  if in_range 65 90 c || in_range 48 57 c then c else "_"%char.

Definition replace_non_upper_digit (s : string) : string :=
  map_string keep_upper_digit s.

(** [name.toUpperCase()]: only strings have the method. *)
Definition call_toUpperCase {S} (unicode : string -> string) (v : value) : M S string :=
  match v with
  | VStr s => ret (toUpperCase unicode s)
  | _ => throw (TypeError_call "template.name.toUpperCase")
  end.

Definition extractAndAnalyzeWindowId (env : io) (template : value) : M process value :=
  run logDiagnostic "windowid_extraction" true "Starting windowId extraction and analysis";
  do rawWindowId <- get template "windowId";
  do rawId <- get template "id";
  do templateName <- get template "name";
  do extractedWindowId <-
    (if truthy rawWindowId then ret rawWindowId
     else if truthy rawId then ret rawId
     else if truthy templateName then
       do upper <- call_toUpperCase (String_toUpperCase env) templateName;
       ret (VStr (replace_non_upper_digit upper))
     else ret VNull);
  if negb (truthy extractedWindowId) then
    run logDiagnostic "windowid_extraction" false "Unable to extract or generate windowId";
    throw (Error "Cannot determine windowId from template")
  else
    run logDiagnostic "windowid_extraction" true "WindowId extraction successful";
    run logDiagnostic "windowid_analysis" true "WindowId compatibility analysis";
    ret extractedWindowId.

(** Runs the adapter on the static map of the process. *)
Definition call_adapter (now : MetadataAdapter.dates) (template : value) : M process value :=
  fun p =>
    let (r, m) := MetadataAdapter.adaptWindowDefinition now template (embeddedReferences p) in
    (r, mkProcess (this p) m).

Definition adaptTemplateToADFormat (env : io) (template windowId : value)
  : M process value :=
  run logDiagnostic "metadata_adaptation" true "Starting MetadataAdapter conversion";
  try_catch
    (do adaptedWindow <- call_adapter (adapterDates env) template;
     run logDiagnostic "metadata_adaptation" true "MetadataAdapter conversion successful";
     ret adaptedWindow)
    (fun error =>
       run logError "metadata_adaptation" error;
       throw (Error ("MetadataAdapter failed: " +:+ message error))).

Definition storeImportedData (env : io) (template adaptedWindow : value) : M process unit :=
  run logDiagnostic "data_storage" true "Storing imported template data";
  do id <- get adaptedWindow "id";
  run modify (fun p =>
    let t := this p in
    mkProcess (mkProvider (map_set id adaptedWindow (windowData t)) (referenceData t)
                 (formData t) template (Some (clock env)) (importDiagnostics t))
              (embeddedReferences p));
  logDiagnostic "data_storage" true "Data storage successful".

(** [for (const x of v)]: arrays and strings are iterable. *)
Definition iterate {S} (v : value) : M S (list value) :=
  match v with
  | VArr items => ret items
  | VStr s => ret (List.map (fun c => VStr (String c EmptyString)) (list_ascii_of_string s))
  | _ => throw (TypeError_iterable v)
  end.

Definition storeReference (refId values : value) : M process unit :=
  modify (fun p =>
    let t := this p in
    mkProcess (mkProvider (windowData t) (map_set refId values (referenceData t))
                 (formData t) (importedTemplate t) (importTimestamp t)
                 (importDiagnostics t))
              (embeddedReferences p)).

Definition extractFieldReference (field : value) : M process unit :=
  do reference <- get field "reference";
  if negb (truthy reference) then ret tt
  else
    do values <- get reference "values";
    if negb (truthy values) then ret tt
    else
      do rid <- get reference "id";
      do refId <-
        (if truthy rid then ret rid
         else
           do fieldId <- get field "fieldId";
           do fid <- to_string fieldId;
           ret (VStr ("REF_" +:+ fid)));
      run storeReference refId values;
      run to_string refId;           (* the template literal of the console line *)
      run to_string (prop values "length");
      ret tt.

Fixpoint forEach {S A} (f : A -> M S unit) (xs : list A) : M S unit :=
  match xs with
  | [] => ret tt
  | x :: r => run f x; forEach f r
  end.

Definition extractReferenceData (template : value) : M process unit :=
  run logDiagnostic "reference_extraction" true "Starting reference data extraction";
  do tabsv <- get template "tabs";
  do tabs <- iterate tabsv;
  run forEach (fun tab =>
         do fieldsv <- get tab "fields";
         do fields <- iterate fieldsv;
         forEach extractFieldReference fields) tabs;
  logDiagnostic "reference_extraction" true "Reference data extraction complete".

(** ** The pipeline *)

Definition stages (env : io) (fileUri : string) (jsonContent : option string)
  : M process bool :=
  run validateFileAccess fileUri;
  do rawJson <- readFileContent env fileUri jsonContent;
  do templateData <- parseJSONContent env rawJson;
  run validateTemplateStructure templateData;
  do extractedWindowId <- extractAndAnalyzeWindowId env templateData;
  do adaptedWindow <- adaptTemplateToADFormat env templateData extractedWindowId;
  run storeImportedData env templateData adaptedWindow;
  run extractReferenceData templateData;
  do shown <- to_string extractedWindowId;
  run logDiagnostic "import_complete" true ("Successfully imported template: " +:+ shown);
  ret true.

Definition importJSONTemplate (env : io) (fileUri : string) (jsonContent : option string)
  : M process bool :=
  run modify (with_diagnostics (fun _ => []));
  run logDiagnostic "import_start" true ("Starting JSON template import from: " +:+ fileUri);
  try_catch (stages env fileUri jsonContent)
    (fun error =>
       run logError "import_failed" error;
       throw (Error ("Failed to import JSON template: " +:+ message error))).

(** ** The rest of the instance *)

Definition getImportDiagnostics (t : provider) : list ImportDiagnostics :=
  importDiagnostics t.

(** [isConnected] reads [this.windowData.size] and nothing else. *)
Definition isConnected (t : provider) : result bool :=
  Ok (0 <? List.length (windowData t))%nat.

Definition clearImportedData (t : provider) : provider :=
  mkProvider [] [] [] VNull None [].

(** [saveFormData]: [now] is the reading of [Date.now()], printed. *)
Definition saveFormData (windowId : string) (record : value) (now : string)
  (t : provider) : provider :=
  let recordId := "IMPORT_" +:+ now in
  mkProvider (windowData t) (referenceData t)
    (map_set (VStr (windowId +:+ "_" +:+ recordId)) record (formData t))
    (importedTemplate t) (importTimestamp t) (importDiagnostics t).

(** ** The reading side of the instance *)

(** The callback of [availableWindowIds.filter(...)] in the not-found branch
    calls [id.toLowerCase()] on every key. *)
Fixpoint lowercase_keys (ids : list value) : result unit :=
  match ids with
  | [] => Ok tt
  | VStr _ :: r => lowercase_keys r
  | (VUndef | VNull) as id :: _ => Throw (TypeError_read id "toLowerCase")
  | _ :: _ => Throw (TypeError_call "id.toLowerCase")
  end.

(** [getWindowDefinition]: the log line that lists the available ids is
    printed first, whatever the outcome. *)
Definition getWindowDefinition (windowId : string) (t : provider) : result value :=
  let availableWindowIds := List.map fst (windowData t) in
  match join_r ", " availableWindowIds with
  | Throw e => Throw e
  | Ok shown =>
      let notFound :=
        match lowercase_keys availableWindowIds with
        | Throw e => Throw e
        | Ok _ =>
            Throw (Error ("Window definition not found: " +:+ windowId
                          +:+ ". Available: [" +:+ shown
                          +:+ "]. Import a JSON template first."))
        end in
      match map_get (VStr windowId) (windowData t) with
      | Some windowDef => if truthy windowDef then Ok windowDef else notFound
      | None => notFound
      end
  end.

(** [getReferenceValues]: embedded ids are looked up in the adapter's static
    map first; everything else, and an embedded id the adapter does not
    know, in the local map.  The last log line prints [values.length]. *)
Definition localReferenceValues (referenceId : string) (t : provider) : result value :=
  let values :=
    match map_get (VStr referenceId) (referenceData t) with
    | Some v => or_else v (VArr [])
    | None => VArr []
    end in
  match to_string_r (prop values "length") with
  | Throw e => Throw e
  | Ok _ => Ok values
  end.

Definition getReferenceValues (referenceId : string) (p : process) : result value :=
  if MetadataAdapter.isEmbeddedReference referenceId then
    match MetadataAdapter.getEmbeddedReferenceValues referenceId (embeddedReferences p) with
    | Some embeddedValues => Ok (VArr embeddedValues)
    | None => localReferenceValues referenceId (this p)
    end
  else localReferenceValues referenceId (this p).

(** What [saveFormData] returns; [now] and [iso] are the readings of
    [Date.now()] (printed) and [new Date().toISOString()]. *)
Definition saveFormData_result (now iso : string) : value :=
  let recordId := "IMPORT_" +:+ now in
  VObj [("success", VBool true);
        ("recordId", VStr recordId);
        ("message",
         VStr ("Form data saved successfully from imported template. Record ID: "
               +:+ recordId));
        ("timestamp", VStr iso)].

(** [getFormData(windowId, recordId?)] *)
Definition getFormData (windowId : string) (recordId : option string) (t : provider)
  : value :=
  match recordId with
  | Some r =>
      if negb (String.eqb r "") then
        match map_get (VStr (windowId +:+ "_" +:+ r)) (formData t) with
        | Some data => or_else data (VObj [])
        | None => VObj []
        end
      else VObj []
  | None => VObj []
  end.

(** [getProviderStatus()] *)
Record providerStatus : Type := mkStatus {
  hasImportedData : bool;
  statusTimestamp : option string;
  windowCount : nat;
  referenceCount : nat;
  formDataCount : nat;
  diagnosticsCount : nat;
  lastImportSuccess : bool
}.

Definition getProviderStatus (t : provider) : providerStatus :=
  mkStatus
    (match importedTemplate t with VNull => false | _ => true end)
    (importTimestamp t)
    (List.length (windowData t))
    (List.length (referenceData t))
    (List.length (formData t))
    (List.length (importDiagnostics t))
    (match last (importDiagnostics t) with
     | Some lastDiagnostic => success lastDiagnostic
     | None => false
     end).

(** [getImportInfo()]: [lastWindowId] is the first key of the window
    table, [None] standing for [undefined]. *)
Record importInfo : Type := mkInfo {
  infoTemplate : value;
  infoTimestamp : option string;
  infoWindowCount : nat;
  infoDiagnostics : list ImportDiagnostics;
  lastWindowId : option value
}.

Definition getImportInfo (t : provider) : importInfo :=
  mkInfo (importedTemplate t) (importTimestamp t) (List.length (windowData t))
         (importDiagnostics t) (head (List.map fst (windowData t))).

End JSONFileDataProvider.

(* ===================================================================== *)
(** * useJSONImport.ts                                                   *)
(* ===================================================================== *)

Module JSONImport.

Import JSONFileDataProvider.

(** The two alerts of [handleJSONFileImport]: "Template Imported!" with
    the template name and the window count it prints, and "Import Failed"
    with the text after "Could not import JSON template:". *)
Inductive alert : Type :=
| TemplateImported (name : string) (windowCount : nat)
| ImportFailed (message : string).

(** What one run of [handleJSONFileImport] leaves behind: the provider
    handed to [switchProvider] (if any), the import info set (if any), the
    alert shown, and the adapter's static map. *)
Record handled : Type := mkHandled {
  switchedTo : option provider;
  importInfoSet : option importInfo;
  shown : alert;
  adapterStore : MetadataAdapter.store
}.

Definition handleJSONFileImport (env : io) (fileUri : string)
  (jsonContent : option string) (m : MetadataAdapter.store) : handled :=
  let fromFile :=
    match readAsStringAsync env fileUri with
    | Ok rawJson => Ok rawJson
    | Throw readError => Throw (Error ("Cannot read JSON file: " +:+ message readError))
    end in
  let read :=
    match jsonContent with
    | Some content => if negb (String.eqb content "") then Ok content else fromFile
    | None => fromFile
    end in
  match read with
  | Throw error => mkHandled None None (ImportFailed (message error)) m
  | Ok rawJson =>
      (* createJSONFileProvider() *)
      let jsonProvider := mkProcess constructor m in
      match importJSONTemplate env fileUri (Some rawJson) jsonProvider with
      | (Throw error, p) =>
          mkHandled None None (ImportFailed (message error)) (embeddedReferences p)
      | (Ok success, p) =>
          if success then
            let info := getImportInfo (this p) in
            match to_string_r (or_else (MetadataAdapter.opt_prop (infoTemplate info) "name")
                                       (VStr "Unknown")) with
            | Ok name =>
                mkHandled (Some (this p)) (Some info)
                  (TemplateImported name (infoWindowCount info)) (embeddedReferences p)
            | Throw error =>
                mkHandled (Some (this p)) (Some info) (ImportFailed (message error))
                  (embeddedReferences p)
            end
          else
            mkHandled None None (ImportFailed "Failed to import JSON template")
              (embeddedReferences p)
      end
  end.

End JSONImport.

(* ===================================================================== *)
(** * ExternalMetadataProvider.ts                                        *)
(* ===================================================================== *)

Module ExternalMetadataProvider.

(** [{ data, timestamp }] as stored by [this.cache.set]. *)
Record cacheEntry : Type := mkEntry {
  data : value;
  timestamp : Z
}.

Record provider : Type := mkProvider {
  baseUrl : string;
  cache : gmap string cacheEntry;
  cacheTimeout : Z
}.

(** The instance, the adapter's static map, and the requests sent so far
    (oldest first). *)
Record process : Type := mkProcess {
  this : provider;
  embeddedReferences : MetadataAdapter.store;
  requests : list string
}.

(** What [fetch] resolves to: [ok], [status], [statusText], and what
    [response.json()] gives. *)
Record response : Type := mkResponse {
  ok : bool;
  status : string;
  statusText : string;
  json : result value
}.

(** What one call reads from outside: the network, [Date.now()] on entry,
    [Date.now()] when the result is stored, and the two ISO times the
    adapter reads. *)
Record io : Type := mkIo {
  fetch : string -> result response;
  now : Z;
  later : Z;
  iso : MetadataAdapter.dates
}.

(** [new ExternalMetadataProvider()]: the base URL is
    [Constants.expoConfig?.extra?.metadataBaseUrl || 'http://localhost:3001'],
    so an unset or empty configured URL gives the default; five minutes of
    cache. *)
Definition constructor (configuredUrl : option string) : provider :=
  let baseUrl :=
    match configuredUrl with
    | Some url => if String.eqb url "" then "http://localhost:3001" else url
    | None => "http://localhost:3001"
    end in
  mkProvider baseUrl ∅ (5 * 60 * 1000).

(** [now - cached.timestamp < this.cacheTimeout] *)
Definition fresh (env : io) (t : provider) (e : cacheEntry) : bool :=
  (now env - timestamp e <? cacheTimeout t)%Z.

Definition do_fetch (env : io) (url : string) : M process response :=
  run modify (fun p => mkProcess (this p) (embeddedReferences p) (requests p ++ [url]));
  lift (fetch env url).

Definition cache_set (key : string) (e : cacheEntry) : M process unit :=
  modify (fun p =>
    let t := this p in
    mkProcess (mkProvider (baseUrl t) (<[key := e]> (cache t)) (cacheTimeout t))
              (embeddedReferences p) (requests p)).

Definition call_adapter (now : MetadataAdapter.dates) (externalWindow : value)
  : M process value :=
  fun p =>
    let (r, m) := MetadataAdapter.adaptWindowDefinition now externalWindow
                    (embeddedReferences p) in
    (r, mkProcess (this p) m (requests p)).

Definition fetchWindow (env : io) (windowId cacheKey : string) : M process value :=
  try_catch
    (do url <- gets (fun p => baseUrl (this p) +:+ "/windows/" +:+ windowId);
     do response <- do_fetch env url;
     if negb (ok response) then
       throw (Error ("HTTP " +:+ status response +:+ ": " +:+ statusText response))
     else
       do externalWindowDef <- lift (json response);
       run get externalWindowDef "name";
       do adaptedWindowDef <- call_adapter (iso env) externalWindowDef;
       run MetadataAdapter.debugConversion externalWindowDef adaptedWindowDef;
       run cache_set cacheKey (mkEntry adaptedWindowDef (later env));
       do name <- get adaptedWindowDef "name";
       run to_string name;            (* the template literal of the last log line *)
       ret adaptedWindowDef)
    (fun error =>
       throw (Error ("Failed to load window " +:+ windowId +:+ ": " +:+ message error))).

Definition getWindowDefinition (env : io) (windowId : string) : M process value :=
  let cacheKey := "window_" +:+ windowId in
  do t <- gets this;
  match cache t !! cacheKey with
  | Some cached =>
      if fresh env t cached then ret (data cached)
      else fetchWindow env windowId cacheKey
  | None => fetchWindow env windowId cacheKey
  end.

Definition resolveReference (env : io) (referenceId cacheKey : string) : M process value :=
  if MetadataAdapter.isEmbeddedReference referenceId then
    do found <- gets (fun p =>
                  MetadataAdapter.getEmbeddedReferenceValues referenceId (embeddedReferences p));
    match found with
    | Some embeddedValues =>
        run cache_set cacheKey (mkEntry (VArr embeddedValues) (later env));
        ret (VArr embeddedValues)
    | None => ret (VArr [])
    end
  else
    try_catch
      (do url <- gets (fun p => baseUrl (this p) +:+ "/references/" +:+ referenceId);
       do response <- do_fetch env url;
       if negb (ok response) then ret (VArr [])
       else
         do referenceData <- lift (json response);
         do found <- get referenceData "values";
         let values := or_else found (VArr []) in
         run cache_set cacheKey (mkEntry values (later env));
         do count <- get values "length";
         run to_string count;         (* the template literal of the last log line *)
         ret values)
      (fun error => ret (VArr [])).

Definition getReferenceValues (env : io) (referenceId : string) : M process value :=
  let cacheKey := "ref_" +:+ referenceId in
  do t <- gets this;
  match cache t !! cacheKey with
  | Some cached =>
      if fresh env t cached then ret (data cached)
      else resolveReference env referenceId cacheKey
  | None => resolveReference env referenceId cacheKey
  end.

(** [GET /health]; every failure is swallowed. *)
Definition isConnected (env : io) : M process bool :=
  try_catch
    (do url <- gets (fun p => baseUrl (this p) +:+ "/health");
     do response <- do_fetch env url;
     ret (ok response))
    (fun error => ret false).

(** ** Cache management and configuration *)

Definition clearCache (t : provider) : provider :=
  mkProvider (baseUrl t) ∅ (cacheTimeout t).

Definition clearCacheEntry (key : string) (t : provider) : provider :=
  mkProvider (baseUrl t) (delete key (cache t)) (cacheTimeout t).

Definition setCacheTimeout (timeoutMs : Z) (t : provider) : provider :=
  mkProvider (baseUrl t) (cache t) timeoutMs.

(** [setBaseUrl] stores the URL and then calls [clearCache]. *)
Definition setBaseUrl (newBaseUrl : string) (t : provider) : provider :=
  clearCache (mkProvider newBaseUrl (cache t) (cacheTimeout t)).

(** A method of the instance, run in a process. *)
Definition on_provider (f : provider -> provider) (p : process) : process :=
  mkProcess (f (this p)) (embeddedReferences p) (requests p).

End ExternalMetadataProvider.

(* ===================================================================== *)
(** * useConnectionMonitor.ts                                            *)
(* ===================================================================== *)

Module ConnectionMonitor.

Inductive status : Type := connected | cached | offline | error.

(** The two [useState] cells of the hook. *)
Record state : Type := mkState {
  connectionStatus : status;
  lastSuccessfulFetch : option string
}.

Definition initial : state := mkState offline None.

(** How [await provider.isConnected()] ends. *)
Inductive outcome : Type :=
| Resolves (isConnected : bool)
| Rejects.

(** What one check observes of the provider: the health check, the size of
    [provider.cache] ([None] when the provider has no such field), and the
    local time printed on success. *)
Record probe : Type := mkProbe {
  health : outcome;
  cache : option nat;
  time : string
}.

(** [provider.cache && provider.cache.size > 0] *)
Definition cacheNonEmpty (pr : probe) : bool :=
  match cache pr with
  | Some size => (0 <? size)%nat
  | None => false
  end.

Definition checkConnection (providerType : string) (pr : probe) (st : state) : state :=
  if String.eqb providerType "MockDataProvider" then
    mkState connected (Some "Demo Data")
  else if String.eqb providerType "JSONFileDataProvider" then
    mkState connected (Some "Imported Template")
  else if String.eqb providerType "ExternalMetadataProvider" then
    match health pr with
    | Resolves true => mkState connected (Some (time pr))
    | Resolves false =>
        if cacheNonEmpty pr then mkState cached (lastSuccessfulFetch st)
        else mkState offline (lastSuccessfulFetch st)
    | Rejects =>
        if cacheNonEmpty pr then mkState cached (lastSuccessfulFetch st)
        else mkState error (lastSuccessfulFetch st)
    end
  else mkState error (lastSuccessfulFetch st).


End ConnectionMonitor.

(* ===================================================================== *)
(** * DataConfig.ts and the provider chosen by DataContext.tsx            *)
(* ===================================================================== *)

Module DataConfig.

(** The classes [createDataProvider] can instantiate. *)
Inductive providerClass : Type :=
| MockDataProvider
| ExternalMetadataProvider
| JSONFileDataProvider.

(** [provider.constructor.name] *)
Definition constructor_name (c : providerClass) : string :=
  match c with
  | MockDataProvider => "MockDataProvider"
  | ExternalMetadataProvider => "ExternalMetadataProvider"
  | JSONFileDataProvider => "JSONFileDataProvider"
  end.

(** The part of [DataConfig] that decides the provider: [provider] and
    whether [apiConfig] is present. *)
Record config : Type := mkConfig {
  provider : string;
  apiConfig : bool;
  cacheEnabled : bool;
  ttl : Z
}.

(** [getDataConfig()]; [metadataSource] is what
    [Constants.expoConfig?.extra?.metadataSource] evaluates to. *)
Definition getDataConfig (metadataSource : value) : config :=
  let source := or_else metadataSource (VStr "external") in
  if is_str source "external" then mkConfig "external" false true (5 * 60 * 1000)
  else if is_str source "json-file" then mkConfig "json-file" false false 0
  else if is_str source "remote" || is_str source "api" then
    mkConfig "api" true true (10 * 60 * 1000)
  else mkConfig "mock" false true (5 * 60 * 1000).

(** [createDataProvider(config)]; [construct c] is how [new c()] ends. *)
Definition createDataProvider (construct : providerClass -> result unit) (c : config)
  : result providerClass :=
  let make (k : providerClass) : result providerClass :=
    match construct k with Ok _ => Ok k | Throw e => Throw e end in
  let orMock (k : providerClass) : result providerClass :=
    match construct k with Ok _ => Ok k | Throw _ => make MockDataProvider end in
  if String.eqb (provider c) "mock" then make MockDataProvider
  else if String.eqb (provider c) "external" then orMock ExternalMetadataProvider
  else if String.eqb (provider c) "json-file" then orMock JSONFileDataProvider
  else if String.eqb (provider c) "api" then
    if negb (apiConfig c) then Throw (Error "API configuration required for API provider")
    else Throw (Error "APIDataProvider not yet implemented")
  else Throw (Error ("Unknown provider type: " +:+ provider c)).

(** The initializer of the [provider] state of [DataContextProvider]. *)
Definition initialProviderClass (construct : providerClass -> result unit)
  (initialProvider : option providerClass) (metadataSource : value)
  : result providerClass :=
  match initialProvider with
  | Some k => Ok k
  | None =>
      match createDataProvider construct (getDataConfig metadataSource) with
      | Ok k => Ok k
      | Throw _ =>
          match construct MockDataProvider with
          | Ok _ => Ok MockDataProvider
          | Throw e => Throw e
          end
      end
  end.

End DataConfig.

(* ===================================================================== *)
(** * The monitor on a live provider, and the fallback of App.tsx         *)
(* ===================================================================== *)

Module App.

Import ConnectionMonitor.

(** [checkConnection] when the provider of the context is an
    [ExternalMetadataProvider]: the health check is the provider's own
    [isConnected()], the cache the provider's [cache]. *)
Definition externalProbe (env : ExternalMetadataProvider.io) (time : string)
  (p : ExternalMetadataProvider.process) : probe :=
  mkProbe
    (match fst (ExternalMetadataProvider.isConnected env p) with
     | Ok b => Resolves b
     | Throw _ => Rejects
     end)
    (Some (size (ExternalMetadataProvider.cache (ExternalMetadataProvider.this p))))
    time.

(** ... and when it is a [JSONFileDataProvider]: the hook returns before it
    calls anything, so no probe is observed. *)
Definition idleProbe (time : string) : probe := mkProbe (Resolves false) None time.

(** One run of [checkConnection], by the class of the provider in the
    context. *)
Inductive poll : Type :=
| PollMock (time : string)
| PollJSONFile (time : string)
| PollExternal (env : ExternalMetadataProvider.io) (time : string)
               (p : ExternalMetadataProvider.process).

Definition poll_class (e : poll) : DataConfig.providerClass :=
  match e with
  | PollMock _ => DataConfig.MockDataProvider
  | PollJSONFile _ => DataConfig.JSONFileDataProvider
  | PollExternal _ _ _ => DataConfig.ExternalMetadataProvider
  end.

Definition poll_probe (e : poll) : probe :=
  match e with
  | PollMock time | PollJSONFile time => idleProbe time
  | PollExternal env time p => externalProbe env time p
  end.

Definition run_poll (st : state) (e : poll) : state :=
  checkConnection (DataConfig.constructor_name (poll_class e)) (poll_probe e) st.

Definition run_polls (events : list poll) : state := foldl run_poll initial events.

(** The condition under which the auto-fallback effect arms its timer:
    [error && providerType === 'ExternalMetadataProvider' &&
     connectionStatus === 'error']. *)
Definition fallbackArmed (error : bool) (providerType : string) (st : state) : bool :=
  error
  && String.eqb providerType "ExternalMetadataProvider"
  && match connectionStatus st with ConnectionMonitor.error => true | _ => false end.

End App.

(* ===================================================================== *)
(** * Vocabulary of the properties                                        *)
(* ===================================================================== *)

Module Props.

Import MetadataAdapter.

(** The id the adapter gives a field: [externalField.fieldId || externalField.id]. *)
Definition field_id (f : value) : value := or_else (prop f "fieldId") (prop f "id").

(** The object literal returned by [adaptField], as a function of the
    external field, the property key of its component and its adapted
    reference. *)
Definition fieldObject (f : value) (key : string) (adaptedReference : value) : value :=
  let component := prop f "component" in
  let validation := prop f "validation" in
  let ui := prop f "ui" in
  VObj [("id", field_id f);
        ("fieldId", field_id f);
        ("name", prop f "name");
        ("displayType", or_else (prop (VObj componentTypeMap) key) (VStr "String"));
        ("sequence", or_else (prop f "sequence") (VNum "10"));
        ("isMandatory", or_else (opt_prop validation "required") (VBool false));
        ("isReadOnly", or_else (prop f "isReadOnly") (VBool false));
        ("isDisplayed", VBool (not_false (prop f "isDisplayed")));
        ("fieldLength", or_else (opt_prop validation "maxLength") (VNum "0"));
        ("help", or_else (opt_prop ui "helpText") (prop f "help"));
        ("description", prop f "description");
        ("displayLogic", VUndef);
        ("reference", adaptedReference);
        ("data", adaptFieldData (prop f "data") component);
        ("ui", adaptUIConfig ui component);
        ("_originalComponent", component);
        ("_originalValidation", validation);
        ("_originalUI", ui)].

(** The object literal returned by [adaptTab]. *)
Definition tabObject (t : value) (fields : value) : value :=
  let id := or_else (prop t "tabId") (prop t "id") in
  VObj [("id", id);
        ("tabId", id);
        ("name", prop t "name");
        ("description", prop t "description");
        ("sequence", or_else (prop t "sequence") (VNum "10"));
        ("tabLevel", or_else (prop t "tabLevel") (VNum "0"));
        ("isReadOnly", or_else (prop t "isReadOnly") (VBool false));
        ("isSingleRow", VBool (not_false (prop t "isSingleRow")));
        ("fields", fields)].

(** The object literal returned by [adaptWindowDefinition]. *)
Definition windowObject (now : MetadataAdapter.dates) (w : value) (tabs : value) : value :=
  VObj [("id", or_else (prop w "windowId") (prop w "id"));
        ("name", prop w "name");
        ("description", prop w "description");
        ("windowType", or_else (prop w "windowType") (VStr "Transaction"));
        ("tabs", tabs);
        ("metadata", adaptMetadata now (prop w "metadata"))].

(** The record [reference.values.map(...)] builds from one inline value. *)
Definition convert_r (v : value) : result value :=
  if nullish v then Throw (TypeError_read v "key")
  else Ok (VObj [("key", prop v "key");
                 ("value", or_else (prop v "display") (prop v "value"));
                 ("description", prop v "description");
                 ("color", prop v "color");
                 ("icon", prop v "icon");
                 ("sortOrder", prop v "sortOrder")]).

Fixpoint convert_all (vs : list value) : result (list value) :=
  match vs with
  | [] => Ok []
  | v :: r =>
      match convert_r v with
      | Throw e => Throw e
      | Ok y => match convert_all r with
                | Throw e => Throw e
                | Ok ys => Ok (y :: ys)
                end
      end
  end.

(** ** The adapter as a function that lists its writes

    Every adapter function either returns or throws, and on the way stores
    embedded references.  [W A] pairs the outcome with the entries written,
    oldest first; the lemmas of section "The adapter" show that running the
    source-shaped definitions from a store [m] gives exactly this outcome
    and [m] with the entries written in order. *)

Definition writes : Type := list (string * list value).
Definition W (A : Type) : Type := (result A * writes)%type.

Definition apply_writes (ws : writes) (m : store) : store :=
  foldl (fun acc kv => <[fst kv := snd kv]> acc) m ws.

Definition run_w {A} (x : W A) (m : store) : result A * store :=
  (fst x, apply_writes (snd x) m).

Definition referenceObject (reference referenceId : value) (converted : list value)
  : value :=
  VObj [("id", referenceId);
        ("name", or_else (prop reference "name") (VStr "Reference"));
        ("validationType", or_else (prop reference "validationType") (VStr "LIST"));
        ("values", VArr converted)].

(** [values.map(convert)] whatever [values] is. *)
Definition convert_values (values : value) : result (list value) :=
  match values with
  | VArr items => convert_all items
  | VUndef | VNull => Throw (TypeError_read values "map")
  | _ => Throw (TypeError_call "reference.values.map")
  end.

Definition adaptReference_w (reference fieldId : value) : W value :=
  if negb (truthy reference) then (Ok VUndef, [])
  else
    let values := prop reference "values" in
    if negb (truthy values) then (Ok VUndef, [])
    else if truthy (prop reference "id") then
      match convert_values values with
      | Throw e => (Throw e, [])
      | Ok conv => (Ok (referenceObject reference (prop reference "id") conv), [])
      end
    else
      match to_string_r fieldId with
      | Throw e => (Throw e, [])
      | Ok fid =>
          match convert_values values with
          | Throw e => (Throw e, [])
          | Ok conv =>
              (Ok (referenceObject reference (VStr (fid +:+ EMBEDDED_SUFFIX)) conv),
               [(fid +:+ EMBEDDED_SUFFIX, conv)])
          end
      end.

Definition adaptField_w (f : value) : W value :=
  if nullish f then (Throw (TypeError_read f "name"), [])
  else
    match to_string_r (prop f "component") with
    | Throw e => (Throw e, [])
    | Ok key =>
        match adaptReference_w (prop f "reference") (field_id f) with
        | (Ok r, ws) => (Ok (fieldObject f key r), ws)
        | (Throw e, ws) => (Throw e, ws)
        end
    end.

Fixpoint mapW (f : value -> W value) (xs : list value) : W (list value) :=
  match xs with
  | [] => (Ok [], [])
  | x :: r =>
      match f x with
      | (Throw e, ws) => (Throw e, ws)
      | (Ok y, ws) =>
          match mapW f r with
          | (Ok ys, ws') => (Ok (y :: ys), ws ++ ws')
          | (Throw e, ws') => (Throw e, ws ++ ws')
          end
      end
  end.

Definition array_map_w (callee : string) (xs : value) (f : value -> W value) : W value :=
  match xs with
  | VArr items =>
      match mapW f items with
      | (Ok ys, ws) => (Ok (VArr ys), ws)
      | (Throw e, ws) => (Throw e, ws)
      end
  | VUndef | VNull => (Throw (TypeError_read xs "map"), [])
  | _ => (Throw (TypeError_call callee), [])
  end.

Definition adaptTab_w (t : value) : W value :=
  if nullish t then (Throw (TypeError_read t "name"), [])
  else
    match array_map_w "externalTab.fields.map" (prop t "fields") adaptField_w with
    | (Ok fields, ws) => (Ok (tabObject t fields), ws)
    | (Throw e, ws) => (Throw e, ws)
    end.

(** The tabs of a document, and all its fields in document order. *)
Definition doc_tabs (w : value) : list value := array_items (prop w "tabs").
Definition tab_fields (t : value) : list value := array_items (prop t "fields").
Definition doc_fields (w : value) : list value := flat_map tab_fields (doc_tabs w).

(** A field "carries inline reference values and no explicit reference id". *)
Definition inline_values (f : value) : value := prop (prop f "reference") "values".
Definition embedded_field (f : value) : bool :=
  isArray (inline_values f) && negb (truthy (prop (prop f "reference") "id")).

(** ** Documents of the expected shape

    [scalar] values print without throwing.  A valid document is one in
    which the places the adapter reads have the shape of the wire format:
    [tabs] and [fields] are arrays of objects, names, components and ids are
    scalars (or absent), and inline reference values, when present, are an
    array of objects.  Ids are NOT required. *)
Definition scalar (v : value) : bool :=
  match v with VArr _ | VObj _ | VFun _ => false | _ => true end.

Definition valid_reference (r : value) : bool :=
  if truthy r then
    scalar (prop r "id")
    && (if truthy (prop r "values") then
          match prop r "values" with
          | VArr items => forallb (fun v => negb (nullish v)) items
          | _ => false
          end
        else true)
  else true.

Definition valid_field (f : value) : bool :=
  negb (nullish f)
  && scalar (prop f "name") && scalar (prop f "component")
  && scalar (prop f "fieldId") && scalar (prop f "id")
  && valid_reference (prop f "reference").

Definition valid_tab (t : value) : bool :=
  negb (nullish t) && scalar (prop t "name")
  && match prop t "fields" with
     | VArr fields => forallb valid_field fields
     | _ => false
     end.

Definition valid_doc (w : value) : bool :=
  negb (nullish w)
  && match prop w "tabs" with
     | VArr tabs => forallb valid_tab tabs
     | _ => false
     end.

(** A computation that does not touch the state: on every state it has the
    outcome it has on the trivial state. *)
Definition stateless {S A} (c : M S A) (cu : M unit A) : Prop :=
  forall s, c s = (fst (cu tt), s).

(** [debugConversion] leaves every state alone; its outcome is the one it
    has on the trivial state. *)
Definition debug_r (externalWindow adaptedWindow : value) : result unit :=
  fst (debugConversion (S := unit) externalWindow adaptedWindow tt).

(** [adaptWindowDefinition] on a document other than [undefined]/[null],
    with the writes made after the store was cleared. *)
Definition adaptWindow_w (now : MetadataAdapter.dates) (w : value) : W value :=
  match array_map_w "externalWindow.tabs.map" (prop w "tabs") adaptTab_w with
  | (Throw e, ws) => (Throw e, ws)
  | (Ok tabs, ws) =>
      match debug_r w (windowObject now w tabs) with
      | Throw e => (Throw e, ws)
      | Ok _ => (Ok (windowObject now w tabs), ws)
      end
  end.

(** "[af] is what the adapter returns for the external field [f]", and the
    same for tabs. *)
Definition field_rel (f af : value) : Prop := exists ws, adaptField_w f = (Ok af, ws).
Definition tab_rel (t at' : value) : Prop := exists ws, adaptTab_w t = (Ok at', ws).

(** [v] prints without throwing. *)
Definition printable (v : value) : Prop := is_ok (to_string_r v) = true.

(** What [debugConversion] prints of an adapted tab. *)
Definition printable_tab (at' : value) : Prop :=
  printable (opt_prop at' "name")
  /\ printable (or_else (opt_prop (opt_prop at' "fields") "length") (VNum "0"))
  /\ forall j, printable (opt_prop (opt_index (opt_prop at' "fields") j) "displayType").

(** "The adapted window has as many tabs as the document, and in each tab
    the adapted fields stand in the order of the external fields": the
    [j]-th adapted field of the [i]-th adapted tab is the adaptation of the
    [j]-th field of the [i]-th tab. *)
Definition tabs_and_order_preserved (w out : value) : Prop :=
  isArray (prop out "tabs") = true
  /\ List.length (doc_tabs out) = List.length (doc_tabs w)
  /\ forall i t, doc_tabs w !! i = Some t ->
       exists at', doc_tabs out !! i = Some at'
                   /\ List.length (tab_fields at') = List.length (tab_fields t)
                   /\ forall j f, tab_fields t !! j = Some f ->
                        exists af, tab_fields at' !! j = Some af
                                   /\ field_rel f af
                                   /\ prop af "id" = field_id f
                                   /\ prop af "name" = prop f "name"
                                   /\ prop af "_originalComponent" = prop f "component".

(** ** Sample documents *)

Definition sample_values : value :=
  VArr [VObj [("key", VStr "R"); ("display", VStr "Red")];
        VObj [("key", VStr "G"); ("value", VStr "Green")]].

(** A select field with inline values and no reference id. *)
Definition sample_embedded_field : value :=
  VObj [("fieldId", VStr "COLOR"); ("name", VStr "Color");
        ("component", VStr "SelectField");
        ("reference", VObj [("values", sample_values)])].

(** A select field whose reference has its own id and inline values. *)
Definition sample_external_field : value :=
  VObj [("fieldId", VStr "SIZE"); ("name", VStr "Size");
        ("component", VStr "SelectField");
        ("reference", VObj [("id", VStr "SIZES"); ("values", sample_values)])].

(** A select field that points at a server-side reference by id only. *)
Definition sample_idonly_field : value :=
  VObj [("fieldId", VStr "HAZARD_LEVEL"); ("name", VStr "Risk Level");
        ("component", VStr "SelectField");
        ("reference", VObj [("id", VStr "RISK_LEVELS")])].

(** A field with neither [fieldId] nor [id]. *)
Definition sample_anonymous_field : value :=
  VObj [("name", VStr "Notes"); ("component", VStr "TextAreaField")].

Definition sample_window (fields : list value) : value :=
  VObj [("windowId", VStr "SITE_AUDIT"); ("name", VStr "Site Audit");
        ("tabs", VArr [VObj [("tabId", VStr "TAB_MAIN"); ("name", VStr "Main");
                             ("fields", VArr fields)]])].

Definition sample_doc : value :=
  sample_window [sample_embedded_field; sample_external_field].

Definition other_doc : value :=
  VObj [("windowId", VStr "OTHER"); ("name", VStr "Other");
        ("tabs", VArr [VObj [("tabId", VStr "T"); ("name", VStr "T");
                             ("fields",
                              VArr [VObj [("fieldId", VStr "SHAPE");
                                          ("reference", VObj [("values", sample_values)])]])]])].

(** The sample document adapted from an empty store, and the store another
    document leaves behind. *)
Definition sample_dates : dates :=
  mkDates "2025-01-01T00:00:00.000Z" "2025-01-01T00:00:00.001Z".

Definition sample_run : result value * store :=
  adaptWindowDefinition sample_dates sample_doc ∅.

Definition stale_store : store :=
  snd (adaptWindowDefinition sample_dates other_doc ∅).

(** More sample documents: one whose only field has no id, one whose only
    field refers to a server-side reference by id, one without [tabs]. *)
Definition anonymous_doc : value := sample_window [sample_anonymous_field].
Definition idonly_doc : value := sample_window [sample_idonly_field].
Definition tabless_doc : value :=
  VObj [("windowId", VStr "SITE_AUDIT"); ("name", VStr "Site Audit")].

(** The adapted field at tab [i], position [j] of an adapted window. *)
Definition adapted_field (out : value) (i j : nat) : value :=
  opt_index (opt_prop (opt_index (opt_prop out "tabs") i) "fields") j.

End Props.

(* ===================================================================== *)
(** * Vocabulary of the import properties                                 *)
(* ===================================================================== *)

Module ImportProps.

Import JSONFileDataProvider.

(** The text the content-reading stage hands on: the provided content when
    it is a non-empty string, otherwise what the file system returns. *)
Definition raw_content (env : io) (fileUri : string) (jsonContent : option string)
  : result string :=
  match jsonContent with
  | Some content =>
      if negb (String.eqb content "") then Ok content
      else readAsStringAsync env fileUri
  | None => readAsStringAsync env fileUri
  end.

(** The process with [entries] pushed on the session log, and with the log
    emptied. *)
Definition log_append (entries : list ImportDiagnostics) (p : process) : process :=
  with_diagnostics (fun log => log ++ entries) p.

Definition reset_log (p : process) : process := with_diagnostics (fun _ => []) p.

(** The stages that precede structural validation, and those that follow
    it. *)
Definition early_stages : list string :=
  ["import_start"; "file_access_check"; "content_reading"; "json_parsing"].

Definition later_stages : list string :=
  ["windowid_extraction"; "windowid_analysis"; "metadata_adaptation";
   "data_storage"; "reference_extraction"; "import_complete"].

Definition early_entry (e : ImportDiagnostics) : bool :=
  success e && mem (stage e) early_stages.

Definition later_entry (e : ImportDiagnostics) : bool := mem (stage e) later_stages.

(** The three ways structural validation rejects a document before it
    looks at the tabs one by one. *)
Definition rejection (template : value) : string * string :=
  if negb (truthy (or_else (prop template "windowId") (prop template "id"))) then
    ("Missing required windowId or id field",
     "Template missing required windowId or id field")
  else if negb (truthy (prop template "name")) then
    ("Missing required name field", "Template missing required name field")
  else
    ("Missing or invalid tabs array", "Template missing required tabs array").

(** The session log of an import that is rejected with [rejection]. *)
Definition rejected_log (read : list ImportDiagnostics) (fileUri : string)
  (template : value) : list ImportDiagnostics :=
  [diag "import_start" true ("Starting JSON template import from: " +:+ fileUri);
   diag "file_access_check" true ("Checking file accessibility: " +:+ fileUri)]
  ++ read
  ++ [diag "json_parsing" true "Starting JSON parsing";
      diag "json_parsing" true "JSON parsing successful";
      diag "structure_validation" true "Starting template structure validation";
      diag "structure_validation" false (fst (rejection template));
      diag "import_failed" false ("Error: " +:+ snd (rejection template))].

(** "Uppercased, non-alphanumerics replaced by underscore", one code unit
    at a time, on code units below 128. *)
Definition slug_char (c : ascii) : ascii :=
  if in_range 97 122 c then upper_char c
  else if in_range 65 90 c || in_range 48 57 c then c
  else "_"%char.

Definition slug_spec (name : string) : string := map_string slug_char name.

(** The entry that records that a window was put in [windowData]. *)
Definition is_storage_mark (e : ImportDiagnostics) : bool :=
  String.eqb (stage e) "data_storage"
  && (success e && String.eqb (details e) "Data storage successful").

Definition stored_mark (p : process) : bool :=
  existsb is_storage_mark (importDiagnostics (this p)).

(** A computation that touches neither [windowData] nor the storage mark. *)
Definition quiet {A} (c : M process A) : Prop :=
  forall p, windowData (this (snd (c p))) = windowData (this p)
            /\ stored_mark (snd (c p)) = stored_mark p.

(** A computation that, started without the storage mark, either leaves
    [windowData] alone and sets no mark, or stores one window and sets the
    mark. *)
Definition tracked {A} (c : M process A) : Prop :=
  forall p, stored_mark p = false ->
    (windowData (this (snd (c p))) = windowData (this p)
     /\ stored_mark (snd (c p)) = false)
    \/ (exists id w, windowData (this (snd (c p))) = map_set id w (windowData (this p))
                     /\ stored_mark (snd (c p)) = true).

(** The operations that change a provider, as a client issues them. *)
Inductive op : Type :=
| Import (env : io) (fileUri : string) (jsonContent : option string)
| Clear
| Save (windowId : string) (record : value) (now : string).

Definition step (o : op) (p : process) : process :=
  match o with
  | Import env fileUri jsonContent => snd (importJSONTemplate env fileUri jsonContent p)
  | Clear => mkProcess (clearImportedData (this p)) (embeddedReferences p)
  | Save windowId record now =>
      mkProcess (saveFormData windowId record now (this p)) (embeddedReferences p)
  end.

Definition run_ops (ops : list op) (p : process) : process :=
  foldl (fun acc o => step o acc) p ops.

(** "A window definition has been stored by an import and not cleared
    since", read off the history: each import is judged by the session log
    it leaves. *)
Definition stored_since_clear (ops : list op) (p : process) : bool :=
  snd (foldl (fun acc o =>
                let '(q, flag) := acc in
                let q' := step o q in
                (q', match o with
                     | Import _ _ _ => flag || stored_mark q'
                     | Clear => false
                     | Save _ _ _ => flag
                     end))
             (p, false) ops).

Definition fresh_process (m : MetadataAdapter.store) : process :=
  mkProcess constructor m.

(** ** Sample imports *)

Definition name_only_doc : value := VObj [("name", VStr "Site Audit")].

Definition no_tabs_doc : value :=
  VObj [("windowId", VStr "SITE_AUDIT"); ("name", VStr "Site Audit")].

(** An environment whose parser returns [doc] and whose file system and
    case tables are not used. *)
Definition env_of (doc : value) : io :=
  mkIo (fun _ => Throw (Error "ENOENT")) (fun _ => Ok doc) (map_string upper_char)
       Props.sample_dates
       "2025-01-01T00:00:00.002Z".

Definition import_of (doc : value) (fileUri : string) : result bool * process :=
  importJSONTemplate (env_of doc) fileUri (Some "{...}") (fresh_process ∅).

End ImportProps.

(* ===================================================================== *)
(** * Vocabulary of the cache and monitor properties                      *)
(* ===================================================================== *)

Module CacheProps.

Import ExternalMetadataProvider.

Definition window_key (windowId : string) : string := "window_" +:+ windowId.
Definition reference_key (referenceId : string) : string := "ref_" +:+ referenceId.

Definition window_url (t : provider) (windowId : string) : string :=
  baseUrl t +:+ "/windows/" +:+ windowId.
Definition reference_url (t : provider) (referenceId : string) : string :=
  baseUrl t +:+ "/references/" +:+ referenceId.

(** A network that is down, read at time [now]. *)
Definition offline_env (now : Z) : io :=
  mkIo (fun _ => Throw (Error "Network request failed")) now (now + 1)
       Props.sample_dates.

(** A provider that cached the values of an embedded reference at time 0,
    in a process whose adapter still holds that reference. *)
Definition sample_cached : process :=
  mkProcess
    (mkProvider "http://localhost:3001"
       (<[reference_key "COLOR_EMBEDDED_REF" := mkEntry (VArr []) 0]>
          (<[window_key "SITE_AUDIT" := mkEntry Props.sample_doc 0]> ∅))
       (5 * 60 * 1000))
    (snd Props.sample_run)
    [].

(** The cache holds no entry under [key] that is valid at the time of
    [env]. *)
Definition no_valid_entry (env : io) (t : provider) (key : string) : bool :=
  match cache t !! key with
  | Some e => negb (fresh env t e)
  | None => true
  end.

(** A server that answers every request with [doc], read at time [now];
    and a new provider in a process whose adapter still holds the
    references of another window. *)
Definition online_env (doc : value) (now : Z) : io :=
  mkIo (fun _ => Ok (mkResponse true "200" "OK" (Ok doc))) now (now + 1)
       Props.sample_dates.

Definition sample_stale : process := mkProcess (constructor None) Props.stale_store [].

(** A reference request that yields no reference document. *)
Definition reference_unavailable (env : io) (url : string) : bool :=
  match fetch env url with
  | Throw _ => true
  | Ok r =>
      negb (ok r)
      || match json r with
         | Throw _ => true
         | Ok d => nullish d
         end
  end.

(** The process after one more request. *)
Definition sent (url : string) (p : process) : process :=
  mkProcess (this p) (embeddedReferences p) (requests p ++ [url]).

End CacheProps.

(* ===================================================================== *)
(** * Vocabulary of the further properties                                *)
(* ===================================================================== *)

Module ExtraProps.

Import MetadataAdapter Props.

(** The display type [adaptField] gives a component named [c]. *)
Definition displayType_of (c : string) : value :=
  match lookup_prop c componentTypeMap with
  | Some v => v
  | None => if mem c object_prototype_members then VFun c else VStr "String"
  end.


(** A field with display logic, and a document around it. *)
Definition sample_logic_field : value :=
  VObj [("fieldId", VStr "IMMEDIATE_ACTION"); ("name", VStr "Immediate Action Required");
        ("component", VStr "YesNoField");
        ("displayLogic", VStr "@HAZARD_LEVEL@='HIGH' || @HAZARD_LEVEL@='CRITICAL'")].

Definition logic_doc : value := sample_window [sample_logic_field].

Definition sample_reference : value := VObj [("values", sample_values)].

(** The keys [adaptWindowDefinition] writes into the window's metadata. *)
Definition stamped_keys : list string :=
  ["source"; "fetchedAt"; "adaptedAt"; "originalFormat"; "internalFormat"].

(** A document whose metadata claims to be in the internal format already. *)
Definition stamped_doc : value :=
  VObj [("windowId", VStr "SITE_AUDIT"); ("name", VStr "Site Audit");
        ("tabs", VArr []);
        ("metadata", VObj [("version", VStr "2.1"); ("internalFormat", VStr "adui-v0.9");
                           ("fetchedAt", VStr "1999-12-31T23:59:59.000Z")])].

(** ** The import pipeline *)

Import JSONFileDataProvider ImportProps.

(** The check the validation loop makes on one tab. *)
Definition tab_ok (t : value) : bool :=
  truthy (or_else (prop t "tabId") (prop t "id"))
  && (truthy (prop t "fields") && isArray (prop t "fields")).

Definition invalid_count (tabs : list value) : nat :=
  List.length (List.filter (fun t => negb (tab_ok t)) tabs).

(** [R] relates the process before a computation to the process after it. *)
Definition preserves {A} (R : process -> process -> Prop) (c : M process A) : Prop :=
  forall p, R p (snd (c p)).

(** The computation only pushed entries on the session log. *)
Definition log_grows (p q : process) : Prop := exists es, q = log_append es p.

(** The computation left alone what the storage stage writes, the saved
    forms and the adapter's store. *)
Definition same_stored (p q : process) : Prop :=
  windowData (this q) = windowData (this p)
  /\ formData (this q) = formData (this p)
  /\ importedTemplate (this q) = importedTemplate (this p)
  /\ importTimestamp (this q) = importTimestamp (this p)
  /\ embeddedReferences q = embeddedReferences p.

(** The key under which [extractReferenceData] files the inline values of a
    field. *)
Definition local_key (f : value) : result value :=
  let rid := prop (prop f "reference") "id" in
  if truthy rid then Ok rid
  else match to_string_r (prop f "fieldId") with
       | Ok fid => Ok (VStr ("REF_" +:+ fid))
       | Throw e => Throw e
       end.

Definition string_key {V} (kv : value * V) : Prop := exists s, fst kv = VStr s.

(** A document that passes structural validation and on which the adapter
    throws: the only field is [null]. *)
Definition null_field_doc : value := sample_window [VNull].

(** A field identified by [id] only, with inline reference values. *)
Definition sample_id_field : value :=
  VObj [("id", VStr "COLOR"); ("name", VStr "Colour"); ("component", VStr "SelectField");
        ("reference", VObj [("values", sample_values)])].

(** The key under which [saveFormData] files a record. *)
Definition form_key (windowId recordId : string) : string :=
  windowId +:+ "_" +:+ recordId.

End ExtraProps.

Module CacheExtraProps.

Import ExternalMetadataProvider CacheProps.

(** A request that fails before a document is there: the message of the
    failure, if any. *)
Definition network_failure (env : io) (url : string) : option string :=
  match fetch env url with
  | Throw e => Some (message e)
  | Ok r =>
      if negb (ok r) then Some ("HTTP " +:+ status r +:+ ": " +:+ statusText r)
      else match json r with
           | Throw e => Some (message e)
           | Ok _ => None
           end
  end.


(** What a check that finds the provider available records as the last
    successful fetch; [None] for a check that does not. *)
Definition success_label (e : App.poll) : option string :=
  match e with
  | App.PollMock _ => Some "Demo Data"
  | App.PollJSONFile _ => Some "Imported Template"
  | App.PollExternal env time p =>
      match fetch env (baseUrl (this p) +:+ "/health") with
      | Ok r => if ok r then Some time else None
      | Throw _ => None
      end
  end.

End CacheExtraProps.

(* ===================================================================== *)
(** * Basic facts: strings, the monad, property reads                     *)
(* ===================================================================== *)

Import Props.

Lemma endsWith_iff (s suffix : string) :
  endsWith s suffix = true <-> exists p, s = p +:+ suffix.
Proof.
  split.
  - induction s as [|c s IH]; cbn [endsWith].
    + destruct (String.eqb "" suffix) eqn:E; [|discriminate].
      apply String.eqb_eq in E. intros _. exists "". exact E.
    + destruct (String.eqb (String c s) suffix) eqn:E.
      * apply String.eqb_eq in E. intros _. exists "". exact E.
      * intros H. destruct (IH H) as [p Hp]. exists (String c p).
        rewrite Hp. reflexivity.
  - intros [p Hp]. subst s. induction p as [|c p IH].
    + change ("" +:+ suffix) with suffix.
      destruct suffix; cbn [endsWith]; rewrite String.eqb_refl; reflexivity.
    + change (String c p +:+ suffix) with (String c (p +:+ suffix)).
      cbn [endsWith]. rewrite IH. destruct (String.eqb _ _); reflexivity.
Qed.

Section Monad.
Context {S : Type}.

Lemma get_ok (v : value) (p : string) (s : S) :
  nullish v = false -> get v p s = (Ok (prop v p), s).
Proof. intros H. unfold get, lift, get_r. rewrite H. reflexivity. Qed.

Lemma get_or_ok (v : value) (p q : string) (s : S) :
  nullish v = false ->
  get_or v p q s = (Ok (or_else (prop v p) (prop v q)), s).
Proof.
  intros H. unfold get_or, bind. rewrite get_ok by assumption.
  unfold or_else. destruct (truthy (prop v p)); [reflexivity|].
  apply get_ok; assumption.
Qed.

Lemma bind_get {B} (v : value) (p : string) (k : value -> M S B) (s : S) :
  nullish v = false -> bind (get v p) k s = k (prop v p) s.
Proof. intros H. unfold bind. rewrite get_ok by assumption. reflexivity. Qed.

Lemma bind_get_or {B} (v : value) (p q : string) (k : value -> M S B) (s : S) :
  nullish v = false ->
  bind (get_or v p q) k s = k (or_else (prop v p) (prop v q)) s.
Proof. intros H. unfold bind. rewrite get_or_ok by assumption. reflexivity. Qed.

Lemma bind_get_opt {B} (v : value) (p : string) (k : value -> M S B) (s : S) :
  bind (get_opt v p) k s = k (MetadataAdapter.opt_prop v p) s.
Proof.
  unfold bind, get_opt, lift, get_opt_r, MetadataAdapter.opt_prop.
  destruct (nullish v); reflexivity.
Qed.

Lemma bind_ret {A B} (a : A) (k : A -> M S B) (s : S) : bind (ret a) k s = k a s.
Proof. reflexivity. Qed.

Lemma bind_lift {A B} (r : result A) (k : A -> M S B) (s : S) :
  bind (lift r) k s = match r with Ok a => k a s | Throw e => (Throw e, s) end.
Proof. unfold bind, lift. destruct r; reflexivity. Qed.

Lemma bind_throw {A B} (e : js_error) (k : A -> M S B) (s : S) :
  bind (throw e) k s = (Throw e, s).
Proof. reflexivity. Qed.

Lemma bind_modify {B} (f : S -> S) (k : unit -> M S B) (s : S) :
  bind (modify f) k s = k tt (f s).
Proof. reflexivity. Qed.

Lemma bind_get_nullish {B} (v : value) (p : string) (k : value -> M S B) (s : S) :
  nullish v = true -> bind (get v p) k s = (Throw (TypeError_read v p), s).
Proof. intros H. unfold bind, get, lift, get_r. rewrite H. reflexivity. Qed.

Lemma bind_get_or_nullish {B} (v : value) (p q : string) (k : value -> M S B) (s : S) :
  nullish v = true -> bind (get_or v p q) k s = (Throw (TypeError_read v p), s).
Proof.
  intros H. unfold get_or. unfold bind at 1.
  rewrite bind_get_nullish by assumption. reflexivity.
Qed.

Lemma bind_assoc {A B C} (c : M S A) (k : A -> M S B) (h : B -> M S C) (s : S) :
  bind (bind c k) h s = bind c (fun a => bind (k a) h) s.
Proof. unfold bind. destruct (c s) as [[a|e] s']; reflexivity. Qed.
End Monad.

(** One step of evaluation of a monadic program whose reads are on values
    known not to be [undefined]/[null]. *)
Ltac monad_step :=
  first [ rewrite bind_get by (assumption || reflexivity)
        | rewrite bind_get_or by (assumption || reflexivity)
        | rewrite bind_get_opt
        | rewrite bind_ret
        | rewrite bind_modify
        | rewrite bind_throw ];
  cbv beta.

Ltac monad_simpl := repeat monad_step.

(* ===================================================================== *)
(** * The adapter                                                         *)
(* ===================================================================== *)

Section Adapter.
Import MetadataAdapter.

Lemma truthy_not_nullish (v : value) : truthy v = true -> nullish v = false.
Proof. destruct v; simpl; congruence. Qed.

Lemma apply_writes_app (ws ws' : writes) (m : store) :
  apply_writes (ws ++ ws') m = apply_writes ws' (apply_writes ws m).
Proof. unfold apply_writes. apply foldl_app. Qed.

Lemma convertValue_eq {S} (v : value) (s : S) : convertValue v s = (convert_r v, s).
Proof.
  unfold convertValue, convert_r. destruct (nullish v) eqn:H.
  - apply bind_get_nullish; assumption.
  - monad_simpl. reflexivity.
Qed.

Lemma mapM_convertValue {S} (vs : list value) (s : S) :
  mapM convertValue vs s = (convert_all vs, s).
Proof.
  induction vs as [|v vs IH]; [reflexivity|].
  cbn [mapM convert_all]. unfold bind at 1. rewrite convertValue_eq.
  destruct (convert_r v); [|reflexivity].
  unfold bind at 1. rewrite IH. destruct (convert_all vs); reflexivity.
Qed.

Lemma array_map_convert {S} (values : value) (s : S) :
  array_map "reference.values.map" values convertValue s =
  (match convert_values values with Ok conv => Ok (VArr conv) | Throw e => Throw e end, s).
Proof.
  destruct values; try reflexivity.
  cbn [array_map convert_values]. unfold bind. rewrite mapM_convertValue.
  destruct (convert_all items); reflexivity.
Qed.

Lemma adaptReference_eq (reference fieldId : value) (m : store) :
  adaptReference reference fieldId m = run_w (adaptReference_w reference fieldId) m.
Proof.
  unfold adaptReference, adaptReference_w, run_w.
  destruct (truthy reference) eqn:Ht; cbn [negb]; [|reflexivity].
  pose proof (truthy_not_nullish _ Ht) as Hn.
  monad_simpl.
  destruct (truthy (prop reference "values")) eqn:Hv; cbn [negb]; [|reflexivity].
  monad_simpl.
  destruct (truthy (prop reference "id")) eqn:Hi.
  - monad_simpl. unfold bind. rewrite array_map_convert.
    destruct (convert_values _); reflexivity.
  - rewrite bind_assoc. unfold to_string. rewrite bind_lift.
    destruct (to_string_r fieldId) as [fid|e]; [|reflexivity].
    rewrite bind_assoc. unfold bind at 1. rewrite array_map_convert.
    destruct (convert_values _) as [conv|e] eqn:Ec; [|reflexivity].
    rewrite bind_assoc. monad_simpl.
    unfold bind. rewrite array_map_convert, Ec. reflexivity.
Qed.

Lemma adaptField_eq (f : value) (m : store) :
  adaptField f m = run_w (adaptField_w f) m.
Proof.
  unfold adaptField, adaptField_w, run_w. destruct (nullish f) eqn:H.
  - apply bind_get_nullish; assumption.
  - monad_simpl. unfold displayTypeOf. rewrite bind_assoc.
    unfold to_string. rewrite bind_lift.
    destruct (to_string_r (prop f "component")) as [key|e]; [|reflexivity].
    monad_simpl. fold (field_id f).
    unfold bind at 1. rewrite adaptReference_eq. unfold run_w.
    destruct (adaptReference_w _ _) as [[r|e] ws]; cbn [fst snd]; [|reflexivity].
    monad_simpl. reflexivity.
Qed.

(** [xs.map(f)] threads the store through the callbacks in order. *)
Lemma mapM_eq (f : value -> M store value) (fw : value -> W value) :
  (forall x m, f x m = run_w (fw x) m) ->
  forall xs m, mapM f xs m = run_w (mapW fw xs) m.
Proof.
  intros Hf xs. induction xs as [|x xs IH]; intros m; [reflexivity|].
  cbn [mapM mapW]. unfold bind at 1. rewrite Hf. unfold run_w at 1.
  destruct (fw x) as [[y|e] ws]; cbn [fst snd]; [|reflexivity].
  unfold bind at 1. rewrite IH. unfold run_w.
  destruct (mapW fw xs) as [[ys|e] ws']; cbn [fst snd];
    rewrite apply_writes_app; reflexivity.
Qed.

Lemma array_map_eq (f : value -> M store value) (fw : value -> W value) :
  (forall x m, f x m = run_w (fw x) m) ->
  forall callee xs m, array_map callee xs f m = run_w (array_map_w callee xs fw) m.
Proof.
  intros Hf callee xs m. destruct xs; try reflexivity.
  cbn [array_map array_map_w]. unfold bind. rewrite (mapM_eq f fw Hf).
  unfold run_w. destruct (mapW fw items) as [[ys|e] ws]; reflexivity.
Qed.

Lemma adaptTab_eq (t : value) (m : store) :
  adaptTab t m = run_w (adaptTab_w t) m.
Proof.
  unfold adaptTab, adaptTab_w, run_w. destruct (nullish t) eqn:H.
  - apply bind_get_nullish; assumption.
  - monad_simpl. unfold bind at 1.
    rewrite (array_map_eq adaptField adaptField_w adaptField_eq). unfold run_w.
    destruct (array_map_w _ _) as [[fields|e] ws]; cbn [fst snd]; reflexivity.
Qed.

(** *** Computations that do not touch the state *)

Lemma stateless_bind {S A B} (c : M S A) (cu : M unit A)
      (k : A -> M S B) (ku : A -> M unit B) :
  stateless c cu -> (forall a, stateless (k a) (ku a)) ->
  stateless (bind c k) (bind cu ku).
Proof.
  intros Hc Hk s. unfold bind. rewrite Hc.
  destruct (cu tt) as [[a|e] []]; cbn [fst]; [apply Hk | reflexivity].
Qed.

Lemma stateless_lift {S A} (r : result A) : stateless (S := S) (lift r) (lift r).
Proof. intros s. reflexivity. Qed.

Lemma stateless_ret {S A} (a : A) : stateless (S := S) (ret a) (ret a).
Proof. intros s. reflexivity. Qed.

Lemma stateless_throw {S A} (e : js_error) : stateless (S := S) (A := A) (throw e) (throw e).
Proof. intros s. reflexivity. Qed.

Lemma stateless_get_or {S} (v : value) (p q : string) :
  stateless (S := S) (get_or v p q) (get_or v p q).
Proof.
  unfold get_or. apply stateless_bind; [apply stateless_lift|].
  intros a. destruct (truthy a); [apply stateless_ret | apply stateless_lift].
Qed.

Ltac stateless_tac :=
  repeat first
    [ apply stateless_ret
    | apply stateless_throw
    | apply stateless_get_or
    | apply stateless_lift
    | apply stateless_bind; [|intros ?]
    | match goal with |- stateless (if ?b then _ else _) _ => destruct b end ].

Lemma stateless_debugField {S} (adaptedTab extField : value) (i : nat) :
  stateless (S := S) (debugField adaptedTab extField i) (debugField adaptedTab extField i).
Proof. unfold debugField, get, to_string. stateless_tac. Qed.

Lemma stateless_forEachIndexed {S} (f : value -> nat -> M S unit)
      (fu : value -> nat -> M unit unit) :
  (forall x i, stateless (f x i) (fu x i)) ->
  forall xs i, stateless (forEachIndexed f i xs) (forEachIndexed fu i xs).
Proof.
  intros Hf xs. induction xs as [|x xs IH]; intros i; cbn [forEachIndexed].
  - apply stateless_ret.
  - apply stateless_bind; [apply Hf | intros _; apply IH].
Qed.

Lemma stateless_opt_forEach {S} (callee : string) (v : value)
      (f : value -> nat -> M S unit) (fu : value -> nat -> M unit unit) :
  (forall x i, stateless (f x i) (fu x i)) ->
  stateless (opt_forEach callee v f) (opt_forEach callee v fu).
Proof.
  intros Hf. destruct v; cbn [opt_forEach];
    try apply stateless_ret; try apply stateless_throw.
  apply stateless_forEachIndexed; assumption.
Qed.

Lemma stateless_debugTab {S} (adaptedWindow extTab : value) (i : nat) :
  stateless (S := S) (debugTab adaptedWindow extTab i) (debugTab adaptedWindow extTab i).
Proof.
  unfold debugTab, get, to_string.
  repeat (apply stateless_bind; [apply stateless_lift | intros ?]).
  apply stateless_opt_forEach. intros x j. apply stateless_debugField.
Qed.

Lemma debugConversion_eq {S} (externalWindow adaptedWindow : value) (s : S) :
  debugConversion externalWindow adaptedWindow s =
  (debug_r externalWindow adaptedWindow, s).
Proof.
  unfold debug_r. revert s.
  change (stateless (S := S) (debugConversion externalWindow adaptedWindow)
                    (debugConversion externalWindow adaptedWindow)).
  unfold debugConversion.
  apply stateless_bind; [apply stateless_get_or | intros _].
  apply stateless_bind; [apply stateless_lift | intros _].
  apply stateless_bind; [apply stateless_lift | intros tabs].
  apply stateless_opt_forEach. intros x i. apply stateless_debugTab.
Qed.

(** The equation of [adaptWindowDefinition]: a failed entry read leaves the
    store alone; otherwise the outcome and the store are those computed
    from the empty store. *)
Lemma adaptWindowDefinition_eq (now : MetadataAdapter.dates) (w : value) (m : store) :
  adaptWindowDefinition now w m =
  if nullish w then (Throw (TypeError_read w "windowId"), m)
  else run_w (adaptWindow_w now w) ∅.
Proof.
  unfold adaptWindowDefinition. destruct (nullish w) eqn:H.
  - apply bind_get_or_nullish; assumption.
  - monad_simpl. unfold clearEmbeddedReferences. monad_simpl.
    unfold bind at 1.
    rewrite (array_map_eq adaptTab adaptTab_w adaptTab_eq).
    unfold adaptWindow_w, run_w.
    destruct (array_map_w _ _) as [[tabs|e] ws]; cbn [fst snd]; [|reflexivity].
    monad_simpl. unfold bind. rewrite debugConversion_eq.
    fold (windowObject now w tabs).
    destruct (debug_r _ _) as [[]|e]; reflexivity.
Qed.

(** *** What a successful traversal returns, and what any traversal writes *)

Lemma mapW_ok (f : value -> W value) (xs ys : list value) (ws : writes) :
  mapW f xs = (Ok ys, ws) ->
  Forall2 (fun x y => exists wx, f x = (Ok y, wx)) xs ys
  /\ ws = flat_map (fun x => snd (f x)) xs.
Proof.
  revert ys ws. induction xs as [|x xs IH]; intros ys ws H; cbn [mapW] in H.
  - inversion H; subst. split; [constructor | reflexivity].
  - destruct (f x) as [[y|e] wx] eqn:Ex; [|discriminate].
    destruct (mapW f xs) as [[ys'|e] ws'] eqn:Er; [|discriminate].
    inversion H; subst. destruct (IH _ _ eq_refl) as [HF Hw].
    split.
    + constructor; [exists wx; exact Ex | exact HF].
    + cbn [flat_map]. rewrite Ex, Hw. reflexivity.
Qed.

Lemma mapW_writes (f : value -> W value) (xs : list value) (kv : string * list value) :
  In kv (snd (mapW f xs)) -> exists x, In x xs /\ In kv (snd (f x)).
Proof.
  induction xs as [|x xs IH]; cbn [mapW]; [intros []|].
  destruct (f x) as [[y|e] wx] eqn:Ex.
  - destruct (mapW f xs) as [[ys|e] ws']; cbn [snd] in *; intros H;
      apply in_app_iff in H as [H|H].
    + exists x. rewrite Ex. split; [left; reflexivity | exact H].
    + destruct (IH H) as (x' & Hx' & Hkv). exists x'. split; [right|]; assumption.
    + exists x. rewrite Ex. split; [left; reflexivity | exact H].
    + destruct (IH H) as (x' & Hx' & Hkv). exists x'. split; [right|]; assumption.
  - cbn [snd]. intros H. exists x. rewrite Ex. split; [left; reflexivity | exact H].
Qed.

Lemma array_map_w_ok (callee : string) (f : value -> W value) (xs ys : value)
      (ws : writes) :
  array_map_w callee xs f = (Ok ys, ws) ->
  exists items out, xs = VArr items /\ ys = VArr out /\ mapW f items = (Ok out, ws).
Proof.
  destruct xs; cbn [array_map_w]; try discriminate.
  destruct (mapW f items) as [[out|e] ws'] eqn:E; [|discriminate].
  intros H; inversion H; subst. exists items, out. auto.
Qed.

Lemma array_map_w_writes (callee : string) (f : value -> W value) (xs : value)
      (kv : string * list value) :
  In kv (snd (array_map_w callee xs f)) ->
  exists x, In x (array_items xs) /\ In kv (snd (f x)).
Proof.
  destruct xs; cbn [array_map_w snd]; try (intros []).
  intros H. apply (mapW_writes f items kv).
  destruct (mapW f items) as [[out|e] ws']; exact H.
Qed.

(** *** One reference, one field, one tab *)

Lemma convert_values_array (values : value) (conv : list value) :
  convert_values values = Ok conv -> isArray values = true.
Proof. destruct values; cbn; congruence. Qed.

Lemma adaptReference_w_writes (reference fieldId : value) (k : string) (vs : list value) :
  In (k, vs) (snd (adaptReference_w reference fieldId)) ->
  isArray (prop reference "values") = true
  /\ truthy (prop reference "id") = false
  /\ exists fid, to_string_r fieldId = Ok fid
                 /\ k = fid +:+ EMBEDDED_SUFFIX
                 /\ convert_values (prop reference "values") = Ok vs.
Proof.
  unfold adaptReference_w.
  destruct (truthy reference); cbn [negb]; [|intros []].
  destruct (truthy (prop reference "values")); cbn [negb]; [|intros []].
  destruct (truthy (prop reference "id")).
  - destruct (convert_values _); intros [].
  - destruct (to_string_r fieldId) as [fid|e]; [|intros []].
    destruct (convert_values _) as [conv|e] eqn:Ec; [|intros []].
    cbn [snd]. intros [H|[]]. inversion H; subst.
    split; [eapply convert_values_array; eassumption|].
    split; [reflexivity|]. exists fid. auto.
Qed.

Lemma adaptField_w_writes (f : value) (k : string) (vs : list value) :
  In (k, vs) (snd (adaptField_w f)) ->
  embedded_field f = true
  /\ exists fid, to_string_r (field_id f) = Ok fid
                 /\ k = fid +:+ EMBEDDED_SUFFIX
                 /\ convert_values (inline_values f) = Ok vs.
Proof.
  unfold adaptField_w. destruct (nullish f); [intros []|].
  destruct (to_string_r (prop f "component")); [|intros []].
  destruct (adaptReference_w _ _) as [[r|e] ws] eqn:E; cbn [snd]; intros H;
    (assert (H' : In (k, vs) (snd (adaptReference_w (prop f "reference") (field_id f))))
       by (rewrite E; exact H));
    apply adaptReference_w_writes in H' as (Ha & Hi & fid & Hs & Hk & Hc);
    (split; [unfold embedded_field, inline_values; rewrite Ha, Hi; reflexivity|]);
    exists fid; auto.
Qed.

(** The adapted field, read back. *)
Lemma adaptField_w_ok (f af : value) (ws : writes) :
  adaptField_w f = (Ok af, ws) ->
  nullish f = false
  /\ exists key r, af = fieldObject f key r
                   /\ adaptReference_w (prop f "reference") (field_id f) = (Ok r, ws).
Proof.
  unfold adaptField_w. destruct (nullish f); [discriminate|].
  destruct (to_string_r (prop f "component")) as [key|e]; [|discriminate].
  destruct (adaptReference_w _ _) as [[r|e] ws'] eqn:E; [|discriminate].
  intros H; inversion H; subst. split; [reflexivity|]. exists key, r. auto.
Qed.

Lemma adaptReference_w_embedded (reference fieldId r : value) (ws : writes) :
  adaptReference_w reference fieldId = (Ok r, ws) ->
  isArray (prop reference "values") = true ->
  truthy (prop reference "id") = false ->
  exists fid conv,
    to_string_r fieldId = Ok fid
    /\ convert_values (prop reference "values") = Ok conv
    /\ r = referenceObject reference (VStr (fid +:+ EMBEDDED_SUFFIX)) conv
    /\ ws = [(fid +:+ EMBEDDED_SUFFIX, conv)].
Proof.
  unfold adaptReference_w. intros H Ha Hi.
  assert (Hv : truthy (prop reference "values") = true)
    by (destruct (prop reference "values"); cbn in Ha |- *; congruence).
  assert (Hr : truthy reference = true).
  { destruct reference; try reflexivity; cbn in Ha; discriminate. }
  rewrite Hr, Hv, Hi in H. cbn [negb] in H.
  destruct (to_string_r fieldId) as [fid|e]; [|discriminate].
  destruct (convert_values _) as [conv|e]; [|discriminate].
  inversion H; subst. exists fid, conv. auto.
Qed.

Lemma adaptTab_w_ok (t at' : value) (ws : writes) :
  adaptTab_w t = (Ok at', ws) ->
  nullish t = false
  /\ exists fs afs, prop t "fields" = VArr fs
                    /\ at' = tabObject t (VArr afs)
                    /\ Forall2 field_rel fs afs
                    /\ ws = flat_map (fun f => snd (adaptField_w f)) fs.
Proof.
  unfold adaptTab_w. destruct (nullish t); [discriminate|].
  destruct (array_map_w _ _) as [[fields|e] ws'] eqn:E; [|discriminate].
  intros H; inversion H; subst. split; [reflexivity|].
  apply array_map_w_ok in E as (fs & afs & Hf & -> & Hm).
  apply mapW_ok in Hm as [HF Hw]. exists fs, afs. auto.
Qed.

Lemma adaptWindow_w_ok (now : MetadataAdapter.dates) (w out : value) (ws : writes) :
  adaptWindow_w now w = (Ok out, ws) ->
  exists ts ats, prop w "tabs" = VArr ts
                 /\ out = windowObject now w (VArr ats)
                 /\ Forall2 tab_rel ts ats
                 /\ ws = flat_map (fun t => snd (adaptTab_w t)) ts.
Proof.
  unfold adaptWindow_w.
  destruct (array_map_w _ _) as [[tabs|e] ws'] eqn:E; [|discriminate].
  destruct (debug_r _ _); [|discriminate].
  intros H; inversion H; subst.
  apply array_map_w_ok in E as (ts & ats & Ht & -> & Hm).
  apply mapW_ok in Hm as [HF Hw]. exists ts, ats. auto.
Qed.

(** Whatever happens, every entry written comes from an embedded field of
    the document. *)
Lemma adaptWindow_w_writes (now : MetadataAdapter.dates) (w : value) (k : string) (vs : list value) :
  In (k, vs) (snd (adaptWindow_w now w)) ->
  exists f, In f (doc_fields w)
            /\ embedded_field f = true
            /\ exists fid, to_string_r (field_id f) = Ok fid
                           /\ k = fid +:+ EMBEDDED_SUFFIX
                           /\ convert_values (inline_values f) = Ok vs.
Proof.
  intros H.
  assert (H1 : In (k, vs) (snd (array_map_w "externalWindow.tabs.map" (prop w "tabs")
                                  adaptTab_w))).
  { unfold adaptWindow_w in H.
    destruct (array_map_w _ _) as [[tabs|e] ws']; [|exact H].
    destruct (debug_r _ _); exact H. }
  apply array_map_w_writes in H1 as (t & Ht & H2).
  assert (H3 : In (k, vs) (snd (array_map_w "externalTab.fields.map" (prop t "fields")
                                  adaptField_w))).
  { unfold adaptTab_w in H2. destruct (nullish t); [destruct H2|].
    destruct (array_map_w _ _) as [[fields|e] ws']; exact H2. }
  apply array_map_w_writes in H3 as (f & Hf & H4).
  exists f. split.
  - unfold doc_fields. apply in_flat_map. exists t. split; assumption.
  - apply adaptField_w_writes; assumption.
Qed.

(** *** Reading the store after a series of writes *)

Lemma apply_writes_lookup (ws : writes) (m : store) (k : string) (vs : list value) :
  apply_writes ws m !! k = Some vs -> In (k, vs) ws \/ m !! k = Some vs.
Proof.
  revert m. induction ws as [|[k' v'] ws IH]; intros m H; [right; exact H|].
  change (apply_writes ws (<[k' := v']> m) !! k = Some vs) in H.
  apply IH in H as [H|H]; [left; right; exact H|].
  destruct (decide (k' = k)) as [->|Hne].
  - rewrite lookup_insert_eq in H. inversion H; subst. left; left; reflexivity.
  - rewrite lookup_insert_ne in H by assumption. right; exact H.
Qed.

Lemma apply_writes_present (ws : writes) (m : store) (k : string) :
  is_Some (m !! k) \/ In k (List.map fst ws) -> is_Some (apply_writes ws m !! k).
Proof.
  revert m. induction ws as [|[k' v'] ws IH]; intros m H.
  - destruct H as [H|[]]. exact H.
  - change (is_Some (apply_writes ws (<[k' := v']> m) !! k)). apply IH.
    destruct H as [H|[H|H]].
    + left. destruct (decide (k' = k)) as [->|Hne].
      * rewrite lookup_insert_eq. eauto.
      * rewrite lookup_insert_ne by assumption. exact H.
    + cbn in H. subst k'. left. rewrite lookup_insert_eq. eauto.
    + right. exact H.
Qed.

(** *** Valid documents are adapted without an exception *)

Lemma scalar_printable (v : value) : scalar v = true -> printable v.
Proof. unfold printable. destruct v as [| |[]| | | | |]; cbn; congruence. Qed.

Lemma printable_ok (v : value) : printable v -> exists s, to_string_r v = Ok s.
Proof. unfold printable. destruct (to_string_r v) as [s|e]; cbn; [eauto|discriminate]. Qed.

Lemma bind_to_string {S B} (v : value) (k : string -> M S B) (s : S) (str : string) :
  to_string_r v = Ok str -> bind (to_string v) k s = k str s.
Proof. intros H. unfold to_string. rewrite bind_lift, H. reflexivity. Qed.

Lemma convert_all_ok (items : list value) :
  forallb (fun v => negb (nullish v)) items = true ->
  exists conv, convert_all items = Ok conv /\ List.length conv = List.length items.
Proof.
  induction items as [|v items IH]; cbn [forallb convert_all].
  - exists []. auto.
  - intros H. apply andb_prop in H as [Hv Hr]. destruct (IH Hr) as (conv & -> & Hl).
    unfold convert_r. destruct (nullish v); [discriminate|].
    eexists. split; [reflexivity|]. cbn. rewrite Hl. reflexivity.
Qed.

Lemma field_id_scalar (f : value) :
  scalar (prop f "fieldId") = true -> scalar (prop f "id") = true ->
  scalar (field_id f) = true.
Proof. unfold field_id, or_else. destruct (truthy _); auto. Qed.

Lemma valid_reference_ok (r fieldId : value) :
  valid_reference r = true -> scalar fieldId = true ->
  exists x ws, adaptReference_w r fieldId = (Ok x, ws).
Proof.
  unfold valid_reference, adaptReference_w. intros H Hs.
  destruct (truthy r); cbn [negb]; [|eauto].
  apply andb_prop in H as [_ H].
  destruct (truthy (prop r "values")); cbn [negb]; [|eauto].
  destruct (prop r "values") as [| | | | |items| |]; try discriminate.
  cbn [convert_values]. destruct (convert_all_ok _ H) as (conv & -> & _).
  destruct (truthy (prop r "id")); [eauto|].
  destruct (printable_ok _ (scalar_printable _ Hs)) as [fid ->]. eauto.
Qed.

Lemma valid_field_ok (f : value) :
  valid_field f = true -> exists af ws, adaptField_w f = (Ok af, ws).
Proof.
  unfold valid_field, adaptField_w. intros H.
  repeat (apply andb_prop in H as [H ?]).
  destruct (nullish f); [discriminate|].
  destruct (printable_ok (prop f "component")) as [key ->];
    [apply scalar_printable; assumption|].
  destruct (valid_reference_ok (prop f "reference") (field_id f)) as (r & ws & ->);
    [assumption | apply field_id_scalar; assumption |].
  eauto.
Qed.

Lemma mapW_total (f : value -> W value) (xs : list value) :
  (forall x, In x xs -> exists y ws, f x = (Ok y, ws)) ->
  exists ys ws, mapW f xs = (Ok ys, ws).
Proof.
  induction xs as [|x xs IH]; intros H; cbn [mapW]; [eauto|].
  destruct (H x) as (y & ws & ->); [left; reflexivity|].
  destruct IH as (ys & ws' & ->); [intros x' Hx'; apply H; right; exact Hx'|].
  eauto.
Qed.

Lemma forallb_In {A} (p : A -> bool) (xs : list A) (x : A) :
  forallb p xs = true -> In x xs -> p x = true.
Proof. intros H Hx. eapply forallb_forall in H; eassumption. Qed.

Lemma valid_tab_ok (t : value) :
  valid_tab t = true -> exists at' ws, adaptTab_w t = (Ok at', ws).
Proof.
  unfold valid_tab, adaptTab_w. intros H.
  repeat (apply andb_prop in H as [H ?]).
  destruct (nullish t); [discriminate|].
  destruct (prop t "fields") as [| | | | |fs| |]; try discriminate.
  cbn [array_map_w].
  destruct (mapW_total adaptField_w fs) as (afs & ws & ->); [|eauto].
  intros f Hf. apply valid_field_ok. eapply forallb_In; eassumption.
Qed.

(** *** ... and [debugConversion] prints them without an exception *)

Lemma displayType_printable (key : string) :
  printable (or_else (prop (VObj componentTypeMap) key) (VStr "String")).
Proof.
  unfold printable, prop, componentTypeMap, lookup_prop.
  repeat match goal with
         | |- context [String.eqb ?a key] => destruct (String.eqb a key); [reflexivity|]
         end.
  destruct (mem key object_prototype_members); reflexivity.
Qed.

Lemma printable_undefined_prop (p : string) : printable (opt_prop VUndef p).
Proof. reflexivity. Qed.

Lemma printable_tab_undefined : printable_tab VUndef.
Proof. split; [reflexivity|]. split; [reflexivity|]. intros j. reflexivity. Qed.

Lemma printable_length (items : list value) :
  printable (or_else (opt_prop (VArr items) "length") (VNum "0")).
Proof.
  change (opt_prop (VArr items) "length") with (VNum (pretty (List.length items))).
  unfold or_else. destruct (truthy _); reflexivity.
Qed.

Lemma nth_cases {A} (P : A -> Prop) (l : list A) (d : A) (n : nat) :
  P d -> (forall x, In x l -> P x) -> P (nth n l d).
Proof.
  intros Hd Hl. destruct (nth_in_or_default n l d) as [H|H]; [auto|].
  rewrite H. exact Hd.
Qed.

Lemma field_rel_displayType (f af : value) :
  field_rel f af -> printable (opt_prop af "displayType").
Proof.
  intros [ws H]. apply adaptField_w_ok in H as (_ & key & r & -> & _).
  apply displayType_printable.
Qed.

Lemma Forall2_In_r {A B} (R : A -> B -> Prop) (xs : list A) (ys : list B) (y : B) :
  Forall2 R xs ys -> In y ys -> exists x, In x xs /\ R x y.
Proof.
  induction 1 as [|x y' xs ys Hxy HF IH]; intros Hy; [destruct Hy|].
  destruct Hy as [->|Hy].
  - exists x. split; [left; reflexivity | exact Hxy].
  - destruct (IH Hy) as (x' & Hx' & HR). exists x'. split; [right|]; assumption.
Qed.

Lemma tab_rel_printable (t at' : value) :
  valid_tab t = true -> tab_rel t at' -> printable_tab at'.
Proof.
  intros Hv [ws H]. apply adaptTab_w_ok in H as (_ & fs & afs & Hf & -> & HF & _).
  unfold valid_tab in Hv. repeat (apply andb_prop in Hv as [Hv ?]).
  split; [|split].
  - apply scalar_printable. assumption.
  - change (opt_prop (tabObject t (VArr afs)) "fields") with (VArr afs).
    apply printable_length.
  - intros j. change (opt_prop (tabObject t (VArr afs)) "fields") with (VArr afs).
    cbn [opt_index]. apply nth_cases; [reflexivity|].
    intros af Haf. destruct (Forall2_In_r _ _ _ _ HF Haf) as (f & _ & Hr).
    eapply field_rel_displayType; eassumption.
Qed.

Lemma forEachIndexed_ok {A} (f : A -> nat -> M unit unit) (xs : list A) :
  (forall x i, In x xs -> f x i tt = (Ok tt, tt)) ->
  forall i, forEachIndexed f i xs tt = (Ok tt, tt).
Proof.
  induction xs as [|x xs IH]; intros H i; [reflexivity|].
  cbn [forEachIndexed]. unfold bind. rewrite H by (left; reflexivity).
  apply IH. intros x' i' Hx'. apply H. right; exact Hx'.
Qed.

Lemma debugField_ok (adaptedTab f : value) (j : nat) :
  valid_field f = true ->
  printable (opt_prop (opt_index (opt_prop adaptedTab "fields") j) "displayType") ->
  debugField adaptedTab f j tt = (Ok tt, tt).
Proof.
  unfold valid_field. intros H Hd.
  repeat (apply andb_prop in H as [H ?]).
  apply negb_true_iff in H.
  unfold debugField. monad_simpl.
  destruct (printable_ok (prop f "name")) as [s1 E1]; [apply scalar_printable; assumption|].
  rewrite (bind_to_string _ _ _ _ E1). monad_simpl.
  destruct (printable_ok (prop f "component")) as [s2 E2]; [apply scalar_printable; assumption|].
  rewrite (bind_to_string _ _ _ _ E2).
  destruct (printable_ok _ Hd) as [s3 E3]. rewrite (bind_to_string _ _ _ _ E3).
  monad_simpl.
  destruct (truthy (prop f "reference")) eqn:Ht; [|reflexivity].
  pose proof (truthy_not_nullish _ Ht) as Hn. monad_simpl.
  match goal with Hr : valid_reference _ = true |- _ =>
    unfold valid_reference in Hr; rewrite Ht in Hr; apply andb_prop in Hr as [Hr _] end.
  destruct (truthy (prop (prop f "reference") "id")).
  - monad_simpl.
    destruct (printable_ok (prop (prop f "reference") "id")) as [s4 E4];
      [apply scalar_printable; assumption|].
    rewrite (bind_to_string _ _ _ _ E4). reflexivity.
  - rewrite bind_assoc. monad_simpl. rewrite bind_assoc.
    destruct (printable_ok (prop f "fieldId")) as [s4 E4];
      [apply scalar_printable; assumption|].
    rewrite (bind_to_string _ _ _ _ E4). monad_simpl. reflexivity.
Qed.

Lemma debugTab_ok (adaptedWindow t : value) (i : nat) :
  valid_tab t = true ->
  printable_tab (opt_index (opt_prop adaptedWindow "tabs") i) ->
  debugTab adaptedWindow t i tt = (Ok tt, tt).
Proof.
  unfold valid_tab. intros H (Hn & Hl & Hd).
  repeat (apply andb_prop in H as [H ?]).
  apply negb_true_iff in H.
  unfold debugTab. monad_simpl.
  destruct (printable_ok (prop t "name")) as [s1 E1]; [apply scalar_printable; assumption|].
  rewrite (bind_to_string _ _ _ _ E1).
  destruct (printable_ok _ Hn) as [s2 E2]. rewrite (bind_to_string _ _ _ _ E2).
  monad_simpl.
  destruct (prop t "fields") as [| | | | |fs| |]; try discriminate.
  destruct (printable_ok _ (printable_length fs)) as [s3 E3].
  rewrite (bind_to_string _ _ _ _ E3).
  destruct (printable_ok _ Hl) as [s4 E4]. rewrite (bind_to_string _ _ _ _ E4).
  cbn [opt_forEach]. apply forEachIndexed_ok.
  intros f j Hf. apply debugField_ok; [eapply forallb_In; eassumption | apply Hd].
Qed.

Lemma debug_r_ok (now : MetadataAdapter.dates) (w : value) (ts ats : list value) :
  nullish w = false ->
  prop w "tabs" = VArr ts ->
  forallb valid_tab ts = true ->
  Forall2 tab_rel ts ats ->
  debug_r w (windowObject now w (VArr ats)) = Ok tt.
Proof.
  intros Hn Ht Hv HF. unfold debug_r, debugConversion. monad_simpl.
  rewrite Ht. cbn [opt_forEach]. rewrite forEachIndexed_ok; [reflexivity|].
  intros t i Hin. apply debugTab_ok; [eapply forallb_In; eassumption|].
  change (opt_prop (windowObject now w (VArr ats)) "tabs") with (VArr ats).
  cbn [opt_index]. apply nth_cases; [apply printable_tab_undefined|].
  intros at' Hat. destruct (Forall2_In_r _ _ _ _ HF Hat) as (t' & Ht' & Hr).
  eapply tab_rel_printable; [|eassumption]. eapply forallb_In; eassumption.
Qed.

Lemma valid_doc_ok (now : MetadataAdapter.dates) (w : value) :
  valid_doc w = true ->
  exists out ws, adaptWindow_w now w = (Ok out, ws).
Proof.
  unfold valid_doc. intros H. apply andb_prop in H as [Hn H].
  apply negb_true_iff in Hn.
  destruct (prop w "tabs") as [| | | | |ts| |] eqn:Ht; try discriminate.
  destruct (mapW_total adaptTab_w ts) as (ats & ws & Hm).
  { intros t Hin. apply valid_tab_ok. eapply forallb_In; eassumption. }
  unfold adaptWindow_w. rewrite Ht. cbn [array_map_w]. rewrite Hm.
  apply mapW_ok in Hm as [HF _].
  rewrite (debug_r_ok now w ts ats Hn Ht H HF). eauto.
Qed.
End Adapter.

(* ===================================================================== *)
(** * Properties of the schema adapter                                    *)
(* ===================================================================== *)

Section AdapterProperties.
Import MetadataAdapter.

Lemma lookup_In {A} (l : list A) (i : nat) (x : A) : l !! i = Some x -> In x l.
Proof.
  revert i. induction l as [|y l IH]; intros [|i] H; try discriminate.
  - inversion H. left; reflexivity.
  - right. eapply IH. exact H.
Qed.

(** What a successful call returns and leaves in the store. *)
Lemma adaptWindowDefinition_ok (now : MetadataAdapter.dates) (w out : value) (m m' : store) :
  adaptWindowDefinition now w m = (Ok out, m') ->
  nullish w = false
  /\ exists ts ats, prop w "tabs" = VArr ts
                    /\ out = windowObject now w (VArr ats)
                    /\ Forall2 tab_rel ts ats
                    /\ m' = apply_writes (flat_map (fun t => snd (adaptTab_w t)) ts) ∅.
Proof.
  rewrite adaptWindowDefinition_eq. destruct (nullish w); [discriminate|].
  unfold run_w. destruct (adaptWindow_w now w) as [r ws] eqn:E. cbn [fst snd].
  intros H; inversion H; subst. split; [reflexivity|].
  apply adaptWindow_w_ok in E as (ts & ats & Ht & Ho & HF & Hw).
  exists ts, ats. subst ws. auto.
Qed.

Lemma order_preserved (now : MetadataAdapter.dates) (w : value) (ts ats : list value) :
  prop w "tabs" = VArr ts ->
  Forall2 tab_rel ts ats ->
  tabs_and_order_preserved w (windowObject now w (VArr ats)).
Proof.
  intros Ht HF. unfold tabs_and_order_preserved, doc_tabs.
  change (prop (windowObject now w (VArr ats)) "tabs") with (VArr ats).
  rewrite Ht. cbn [array_items isArray].
  split; [reflexivity|]. split; [symmetry; eapply Forall2_length; exact HF|].
  intros i t Hi.
  destruct (Forall2_lookup_l _ _ _ _ _ HF Hi) as (at' & Hat & [ws Hr]).
  exists at'. split; [exact Hat|].
  apply adaptTab_w_ok in Hr as (_ & fs & afs & Hf & -> & HFf & _).
  unfold tab_fields. change (prop (tabObject t (VArr afs)) "fields") with (VArr afs).
  rewrite Hf. cbn [array_items].
  split; [symmetry; eapply Forall2_length; exact HFf|].
  intros j f Hj.
  destruct (Forall2_lookup_l _ _ _ _ _ HFf Hj) as (af & Haf & Hrel).
  exists af. split; [exact Haf|]. split; [exact Hrel|].
  destruct Hrel as [wsf Hrel].
  apply adaptField_w_ok in Hrel as (_ & key & r & -> & _).
  repeat split.
Qed.

(** C1. For every field adapted by [adaptWindowDefinition] that carries
    inline reference values and no explicit reference id, the generated
    reference id is [<fieldId>_EMBEDDED_REF] (the field id printed as the
    template literal prints it), the adapter's store has an entry under that
    id, and [isEmbeddedReference] is true exactly on the ids of that form,
    false on every other id. *)
Theorem C1_generated_reference_id
    (now : MetadataAdapter.dates) (w out : value) (m m' : store) (i j : nat) (t f : value) :
  adaptWindowDefinition now w m = (Ok out, m') ->
  doc_tabs w !! i = Some t ->
  tab_fields t !! j = Some f ->
  embedded_field f = true ->
  (exists fid at' af,
      to_string_r (field_id f) = Ok fid
      /\ doc_tabs out !! i = Some at'
      /\ tab_fields at' !! j = Some af
      /\ prop af "id" = field_id f
      /\ prop (prop af "reference") "id" = VStr (fid +:+ "_EMBEDDED_REF")
      /\ isEmbeddedReference (fid +:+ "_EMBEDDED_REF") = true
      /\ is_Some (getEmbeddedReferenceValues (fid +:+ "_EMBEDDED_REF") m'))
  /\ (forall id, isEmbeddedReference id = true
                 <-> exists fieldId, id = fieldId +:+ "_EMBEDDED_REF").
Proof.
  intros H Hi Hj He. split; [|intros id; apply endsWith_iff].
  apply adaptWindowDefinition_ok in H as (Hn & ts & ats & Ht & -> & HF & ->).
  unfold doc_tabs in Hi. rewrite Ht in Hi. cbn [array_items] in Hi.
  destruct (Forall2_lookup_l _ _ _ _ _ HF Hi) as (at' & Hat & [wst Hrt]).
  pose proof Hrt as Hrt'.
  apply adaptTab_w_ok in Hrt' as (_ & fs & afs & Hf & -> & HFf & Hwst).
  unfold tab_fields in Hj. rewrite Hf in Hj. cbn [array_items] in Hj.
  destruct (Forall2_lookup_l _ _ _ _ _ HFf Hj) as (af & Haf & [wsf Hrf]).
  pose proof Hrf as Hrf'.
  apply adaptField_w_ok in Hrf' as (_ & key & r & -> & Hr).
  unfold embedded_field, inline_values in He. apply andb_prop in He as [Ha Hno].
  apply negb_true_iff in Hno.
  destruct (adaptReference_w_embedded _ _ _ _ Hr Ha Hno) as (fid & conv & Hs & Hc & -> & ->).
  exists fid, (tabObject t (VArr afs)),
    (fieldObject f key
       (referenceObject (prop f "reference") (VStr (fid +:+ EMBEDDED_SUFFIX)) conv)).
  split; [exact Hs|]. split; [exact Hat|]. split; [exact Haf|].
  split; [reflexivity|]. split; [reflexivity|].
  split; [apply endsWith_iff; exists fid; reflexivity|].
  unfold getEmbeddedReferenceValues. apply apply_writes_present. right.
  apply in_map_iff. exists (fid +:+ EMBEDDED_SUFFIX, conv). split; [reflexivity|].
  apply in_flat_map. exists t. split; [eapply lookup_In; exact Hi|].
  rewrite Hrt. cbn [snd]. rewrite Hwst.
  apply in_flat_map. exists f. split; [eapply lookup_In; exact Hj|].
  rewrite Hrf. left; reflexivity.
Qed.

(** C1, at a document with one embedded and one external select field. *)
Lemma C1_generated_reference_id_witness :
  exists out t,
    adaptWindowDefinition sample_dates sample_doc ∅ = (Ok out, snd sample_run)
    /\ doc_tabs sample_doc !! 0%nat = Some t
    /\ tab_fields t !! 0%nat = Some sample_embedded_field
    /\ embedded_field sample_embedded_field = true
    /\ (exists fid at' af,
          to_string_r (field_id sample_embedded_field) = Ok fid
          /\ doc_tabs out !! 0%nat = Some at'
          /\ tab_fields at' !! 0%nat = Some af
          /\ prop af "id" = field_id sample_embedded_field
          /\ prop (prop af "reference") "id" = VStr (fid +:+ "_EMBEDDED_REF")
          /\ isEmbeddedReference (fid +:+ "_EMBEDDED_REF") = true
          /\ is_Some (getEmbeddedReferenceValues (fid +:+ "_EMBEDDED_REF") (snd sample_run))).
Proof.
  destruct (fst sample_run) as [out|e] eqn:E; [|vm_compute in E; discriminate].
  assert (Hrun : adaptWindowDefinition sample_dates sample_doc ∅
                 = (Ok out, snd sample_run)).
  { rewrite <- E. apply surjective_pairing. }
  eexists out, _. split; [exact Hrun|].
  split; [reflexivity|]. split; [reflexivity|]. split; [reflexivity|].
  exact (proj1 (C1_generated_reference_id _ _ _ _ _ 0%nat 0%nat _ _
                  Hrun eq_refl eq_refl eq_refl)).
Defined.

(** C7. Every call of [adaptWindowDefinition] (on a document, i.e. anything
    but [undefined]/[null]) clears the embedded-reference store before
    processing: the store it leaves does not depend on the store it found;
    every entry of it is the embedded reference of a field of the document
    just adapted; and after [clearEmbeddedReferences()] every id resolves to
    not-found. *)
Theorem C7_adapter_keeps_no_state (now : MetadataAdapter.dates) (w : value) (m : store) :
  nullish w = false ->
  snd (adaptWindowDefinition now w m) = snd (adaptWindowDefinition now w ∅)
  /\ (forall id values,
        getEmbeddedReferenceValues id (snd (adaptWindowDefinition now w m)) = Some values ->
        exists f fid,
          In f (doc_fields w)
          /\ embedded_field f = true
          /\ to_string_r (field_id f) = Ok fid
          /\ id = fid +:+ "_EMBEDDED_REF"
          /\ convert_values (inline_values f) = Ok values)
  /\ (forall (m0 : store) id,
        getEmbeddedReferenceValues id (snd (clearEmbeddedReferences m0)) = None).
Proof.
  intros Hn. rewrite !adaptWindowDefinition_eq, Hn.
  split; [reflexivity|]. split.
  - intros id values H. unfold getEmbeddedReferenceValues, run_w in H. cbn [snd] in H.
    apply apply_writes_lookup in H as [H|H].
    + apply adaptWindow_w_writes in H as (f & Hf & He & fid & Hs & Hk & Hc).
      exists f, fid. auto.
    + rewrite lookup_empty in H. discriminate.
  - intros m0 id. apply lookup_empty.
Qed.

(** C7, at a store left behind by another document. *)
Lemma C7_adapter_keeps_no_state_witness :
  nullish sample_doc = false
  /\ is_Some (getEmbeddedReferenceValues "SHAPE_EMBEDDED_REF" stale_store)
  /\ snd (adaptWindowDefinition sample_dates sample_doc stale_store)
     = snd (adaptWindowDefinition sample_dates sample_doc ∅)
  /\ getEmbeddedReferenceValues "SHAPE_EMBEDDED_REF"
       (snd (adaptWindowDefinition sample_dates sample_doc stale_store)) = None.
Proof.
  split; [reflexivity|]. split; [vm_compute; eauto|].
  destruct (C7_adapter_keeps_no_state sample_dates sample_doc stale_store eq_refl) as (H1 & _ & _).
  split; [exact H1|]. rewrite H1. vm_compute. reflexivity.
Defined.

(** A document of the expected shape is adapted, tab by tab and field by
    field. *)
Lemma valid_doc_adapted (now : MetadataAdapter.dates) (w : value) (m : store) :
  valid_doc w = true ->
  exists out m',
    adaptWindowDefinition now w m = (Ok out, m')
    /\ tabs_and_order_preserved w out.
Proof.
  intros Hv. destruct (valid_doc_ok now w Hv) as (out & ws & E).
  assert (Hn : nullish w = false).
  { unfold valid_doc in Hv. apply andb_prop in Hv as [Hn _].
    apply negb_true_iff in Hn. exact Hn. }
  exists out, (apply_writes ws ∅). split.
  - rewrite adaptWindowDefinition_eq, Hn. unfold run_w. rewrite E. reflexivity.
  - apply adaptWindow_w_ok in E as (ts & ats & Ht & -> & HF & _).
    exact (order_preserved now w ts ats Ht HF).
Qed.

(** C9. For every valid external document, [adaptWindowDefinition] returns
    a window with exactly as many tabs as the document, and in each adapted
    tab the fields stand in the order of the corresponding external tab. *)
Theorem C9_tab_count_and_field_order (now : MetadataAdapter.dates) (w : value) (m : store) :
  valid_doc w = true ->
  exists out m',
    adaptWindowDefinition now w m = (Ok out, m')
    /\ tabs_and_order_preserved w out.
Proof. apply valid_doc_adapted. Qed.

Lemma C9_tab_count_and_field_order_witness :
  valid_doc sample_doc = true
  /\ exists out m',
       adaptWindowDefinition sample_dates sample_doc ∅ = (Ok out, m')
       /\ tabs_and_order_preserved sample_doc out.
Proof.
  split; [reflexivity|].
  exact (C9_tab_count_and_field_order _ sample_doc ∅ eq_refl).
Defined.

(** C2, refuted as stated: a document with a field that has no id is not
    rejected.  The adapter returns normally and the adapted field carries
    the id [undefined]. *)
Lemma C2_no_validation_counterexample :
  field_id sample_anonymous_field = VUndef
  /\ exists out m',
       adaptWindowDefinition sample_dates anonymous_doc ∅ = (Ok out, m')
       /\ prop (adapted_field out 0 0) "name" = VStr "Notes"
       /\ prop (adapted_field out 0 0) "id" = VUndef.
Proof.
  split; [reflexivity|].
  destruct (valid_doc_adapted sample_dates anonymous_doc ∅ eq_refl)
    as (out & m' & H & _).
  exists out, m'. split; [exact H|].
  apply adaptWindowDefinition_ok in H as (_ & ts & ats & Ht & -> & HF & _).
  cbn in Ht. inversion Ht; subst ts; clear Ht.
  inversion HF as [|t at' ? ats' [ws Hr] HF']; subst. inversion HF'; subst.
  vm_compute in Hr. inversion Hr; subst. split; reflexivity.
Qed.

(** C2, amended.  The adapter does no validation of its own.  On a document
    without [tabs] it throws the engine's TypeError for calling [map] on
    [undefined], an error that names no tab or field index, after clearing
    the store.  A field without [fieldId]/[id] is no error: in a document
    that is otherwise of the expected shape it is adapted, with the id
    [undefined].  Tabs are never dropped: whenever the adapter returns, the
    adapted window has as many tabs as the document. *)
Theorem C2_adapter_does_not_validate (now : MetadataAdapter.dates) (w : value) (m : store) :
  nullish w = false ->
  (prop w "tabs" = VUndef ->
     adaptWindowDefinition now w m = (Throw (TypeError_read VUndef "map"), ∅)
     /\ message (TypeError_read VUndef "map")
        = "Cannot read properties of undefined (reading 'map')")
  /\ (valid_doc w = true ->
      exists out m',
        adaptWindowDefinition now w m = (Ok out, m')
        /\ forall i j t f,
             doc_tabs w !! i = Some t -> tab_fields t !! j = Some f ->
             prop f "fieldId" = VUndef -> prop f "id" = VUndef ->
             exists at' af, doc_tabs out !! i = Some at'
                            /\ tab_fields at' !! j = Some af
                            /\ prop af "name" = prop f "name"
                            /\ prop af "id" = VUndef)
  /\ (forall out m',
        adaptWindowDefinition now w m = (Ok out, m') ->
        List.length (doc_tabs out) = List.length (doc_tabs w)).
Proof.
  intros Hn. split; [|split].
  - intros Ht. split; [|reflexivity].
    rewrite adaptWindowDefinition_eq, Hn. unfold run_w, adaptWindow_w.
    rewrite Ht. reflexivity.
  - intros Hv.
    destruct (valid_doc_adapted now w m Hv) as (out & m' & H & _ & _ & Hord).
    exists out, m'. split; [exact H|].
    intros i j t f Hi Hj Hf1 Hf2.
    destruct (Hord i t Hi) as (at' & Hat & _ & Hfs).
    destruct (Hfs j f Hj) as (af & Haf & _ & Hid & Hname & _).
    exists at', af. repeat split; try assumption.
    rewrite Hid. unfold field_id. rewrite Hf1, Hf2. reflexivity.
  - intros out m' H.
    apply adaptWindowDefinition_ok in H as (_ & ts & ats & Ht & -> & HF & _).
    destruct (order_preserved now w ts ats Ht HF) as (_ & Hlen & _). exact Hlen.
Qed.

Lemma C2_adapter_does_not_validate_witness :
  nullish tabless_doc = false
  /\ prop tabless_doc "tabs" = VUndef
  /\ adaptWindowDefinition sample_dates tabless_doc stale_store
     = (Throw (TypeError_read VUndef "map"), ∅).
Proof.
  split; [reflexivity|]. split; [reflexivity|].
  exact (proj1 (proj1 (C2_adapter_does_not_validate
                         sample_dates tabless_doc stale_store eq_refl)
                      eq_refl)).
Defined.

(** A reference that carries both an id and inline values keeps its id. *)
Lemma adaptReference_external (reference fieldId r : value) (ws : writes) :
  adaptReference_w reference fieldId = (Ok r, ws) ->
  truthy (prop reference "values") = true ->
  truthy (prop reference "id") = true ->
  prop r "id" = prop reference "id" /\ ws = [].
Proof.
  unfold adaptReference_w. intros H Hv Hi.
  destruct (truthy reference) eqn:Hr; cbn [negb] in H.
  - rewrite Hv, Hi in H. cbn [negb] in H.
    destruct (convert_values _); inversion H; subst. split; reflexivity.
  - destruct reference; cbn in Hr, Hv; discriminate.
Qed.

(** C8, on the code: a field whose reference carries its own id but no
    inline values ([reference: { id: "RISK_LEVELS" }]) loses its reference.
    The adapter returns a field whose [reference] is [undefined]; the id
    [RISK_LEVELS] appears nowhere in the adapted field. *)
Theorem C8_id_only_reference_is_dropped :
  prop (prop sample_idonly_field "reference") "id" = VStr "RISK_LEVELS"
  /\ exists out m',
       adaptWindowDefinition sample_dates idonly_doc ∅ = (Ok out, m')
       /\ prop (adapted_field out 0 0) "id" = VStr "HAZARD_LEVEL"
       /\ prop (adapted_field out 0 0) "reference" = VUndef.
Proof.
  split; [reflexivity|].
  destruct (valid_doc_adapted sample_dates idonly_doc ∅ eq_refl)
    as (out & m' & H & _).
  exists out, m'. split; [exact H|].
  apply adaptWindowDefinition_ok in H as (_ & ts & ats & Ht & -> & HF & _).
  cbn in Ht. inversion Ht; subst ts; clear Ht.
  inversion HF as [|t at' ? ats' [ws Hr] HF']; subst. inversion HF'; subst.
  vm_compute in Hr. inversion Hr; subst. split; reflexivity.
Qed.
End AdapterProperties.

(* ===================================================================== *)
(** * The import pipeline                                                 *)
(* ===================================================================== *)

Section ImportFacts.
Import JSONFileDataProvider ImportProps.

Lemma bind_eq {S A B} (c : M S A) (k : A -> M S B) (s s' : S) (a : A) :
  c s = (Ok a, s') -> bind c k s = k a s'.
Proof. intros H. unfold bind. rewrite H. reflexivity. Qed.

Lemma bind_throw_eq {S A B} (c : M S A) (k : A -> M S B) (s s' : S) (e : js_error) :
  c s = (Throw e, s') -> bind c k s = (Throw e, s').
Proof. intros H. unfold bind. rewrite H. reflexivity. Qed.

Lemma logDiagnostic_eq (st : string) (b : bool) (d : string) (p : process) :
  logDiagnostic st b d p = (Ok tt, log_append [diag st b d] p).
Proof. reflexivity. Qed.

Lemma log_append_append (a b : list ImportDiagnostics) (p : process) :
  log_append b (log_append a p) = log_append (a ++ b) p.
Proof.
  unfold log_append, with_diagnostics. cbn. rewrite <- app_assoc. reflexivity.
Qed.

Lemma log_append_reset (a : list ImportDiagnostics) (p : process) :
  importDiagnostics (this (log_append a (reset_log p))) = a.
Proof. reflexivity. Qed.

Lemma stored_mark_append (es : list ImportDiagnostics) (p : process) :
  stored_mark (log_append es p) = stored_mark p || existsb is_storage_mark es.
Proof. unfold stored_mark, log_append, with_diagnostics. cbn. apply existsb_app. Qed.

(** ** Computations that leave [windowData] and the storage mark alone *)

Lemma quiet_ret {A} (a : A) : quiet (ret a).
Proof. intros p. split; reflexivity. Qed.

Lemma quiet_throw {A} (e : js_error) : quiet (A := A) (throw e).
Proof. intros p. split; reflexivity. Qed.

Lemma quiet_lift {A} (r : result A) : quiet (lift r).
Proof. intros p. split; reflexivity. Qed.

Lemma quiet_bind {A B} (c : M process A) (k : A -> M process B) :
  quiet c -> (forall a, quiet (k a)) -> quiet (bind c k).
Proof.
  intros Hc Hk p. unfold bind. destruct (Hc p) as [H1 H2].
  destruct (c p) as [[a|e] p1]; cbn [snd] in *.
  - destruct (Hk a p1) as [H3 H4]. split; congruence.
  - split; assumption.
Qed.

Lemma quiet_try_catch {A} (c : M process A) (h : js_error -> M process A) :
  quiet c -> (forall e, quiet (h e)) -> quiet (try_catch c h).
Proof.
  intros Hc Hh p. unfold try_catch. destruct (Hc p) as [H1 H2].
  destruct (c p) as [[a|e] p1]; cbn [snd] in *.
  - split; assumption.
  - destruct (Hh e p1) as [H3 H4]. split; congruence.
Qed.

Lemma quiet_get_or (v : value) (p q : string) : quiet (get_or v p q).
Proof.
  unfold get_or. apply quiet_bind; [apply quiet_lift|].
  intros a. destruct (truthy a); [apply quiet_ret | apply quiet_lift].
Qed.

Lemma quiet_logDiagnostic (st : string) (b : bool) (d : string) :
  is_storage_mark (diag st b d) = false -> quiet (logDiagnostic st b d).
Proof.
  intros H p. rewrite logDiagnostic_eq. cbn [snd]. split; [reflexivity|].
  rewrite stored_mark_append. cbn [existsb]. rewrite H.
  rewrite !orb_false_r. reflexivity.
Qed.

Lemma quiet_logError (st : string) (e : js_error) : quiet (logError st e).
Proof.
  unfold logError. apply quiet_logDiagnostic.
  unfold is_storage_mark. cbn [success]. cbn [andb]. apply andb_false_r.
Qed.

Lemma quiet_forEach {A} (f : A -> M process unit) (xs : list A) :
  (forall x, quiet (f x)) -> quiet (forEach f xs).
Proof.
  intros Hf. induction xs as [|x xs IH]; cbn [forEach].
  - apply quiet_ret.
  - apply quiet_bind; [apply Hf | intros _; exact IH].
Qed.

Lemma quiet_call_adapter (now : MetadataAdapter.dates) (template : value) :
  quiet (call_adapter now template).
Proof.
  intros p. unfold call_adapter.
  destruct (MetadataAdapter.adaptWindowDefinition _ _ _) as [r m]. split; reflexivity.
Qed.

Lemma quiet_storeReference (refId values : value) : quiet (storeReference refId values).
Proof. intros p. split; reflexivity. Qed.

Ltac quiet_tac :=
  repeat first
    [ apply quiet_ret
    | apply quiet_throw
    | apply quiet_get_or
    | apply quiet_logError
    | apply quiet_logDiagnostic; reflexivity
    | apply quiet_storeReference
    | apply quiet_call_adapter
    | apply quiet_lift
    | apply quiet_bind; [|intros ?]
    | apply quiet_try_catch; [|intros ?]
    | match goal with
      | |- quiet (if ?b then _ else _) => destruct b
      | |- quiet (match ?x with _ => _ end) => destruct x
      end ].

Lemma quiet_validateTabs (tabs : list value) (i : nat) : quiet (validateTabs i tabs).
Proof.
  revert i. induction tabs as [|tab tabs IH]; intros i; cbn [validateTabs].
  - apply quiet_ret.
  - apply quiet_bind; [apply quiet_get_or | intros id].
    apply quiet_bind; [apply quiet_lift | intros fields].
    apply quiet_bind; [apply IH | intros invalid]. apply quiet_ret.
Qed.

Lemma quiet_validateFileAccess (fileUri : string) : quiet (validateFileAccess fileUri).
Proof. unfold validateFileAccess. quiet_tac. Qed.

Lemma quiet_readFileContent (env : io) (fileUri : string) (c : option string) :
  quiet (readFileContent env fileUri c).
Proof. unfold readFileContent, readFromFileSystem. quiet_tac. Qed.

Lemma quiet_parseJSONContent (env : io) (rawJson : string) :
  quiet (parseJSONContent env rawJson).
Proof. unfold parseJSONContent, Object_keys_check. quiet_tac. Qed.

Lemma quiet_validateTemplateStructure (template : value) :
  quiet (validateTemplateStructure template).
Proof.
  unfold validateTemplateStructure.
  apply quiet_bind; [apply quiet_logDiagnostic; reflexivity | intros _].
  apply quiet_bind; [apply quiet_get_or | intros id].
  apply quiet_bind; [apply quiet_lift | intros name].
  apply quiet_bind; [apply quiet_lift | intros tabs].
  destruct (negb (truthy id)); [quiet_tac|].
  destruct (negb (truthy name)); [quiet_tac|].
  destruct (negb (truthy tabs && isArray tabs)); [quiet_tac|].
  apply quiet_bind; [apply quiet_validateTabs | intros invalid]. quiet_tac.
Qed.

Lemma quiet_extractAndAnalyzeWindowId (env : io) (template : value) :
  quiet (extractAndAnalyzeWindowId env template).
Proof. unfold extractAndAnalyzeWindowId, call_toUpperCase, get. quiet_tac. Qed.

Lemma quiet_adaptTemplateToADFormat (env : io) (template windowId : value) :
  quiet (adaptTemplateToADFormat env template windowId).
Proof. unfold adaptTemplateToADFormat. quiet_tac. Qed.

Lemma quiet_extractFieldReference (field : value) : quiet (extractFieldReference field).
Proof. unfold extractFieldReference, get, to_string. quiet_tac. Qed.

Lemma quiet_extractReferenceData (template : value) : quiet (extractReferenceData template).
Proof.
  unfold extractReferenceData, iterate, get.
  apply quiet_bind; [apply quiet_logDiagnostic; reflexivity | intros _].
  apply quiet_bind; [apply quiet_lift | intros tabsv].
  apply quiet_bind; [quiet_tac | intros tabs].
  apply quiet_bind; [|intros _; apply quiet_logDiagnostic; reflexivity].
  apply quiet_forEach. intros tab.
  apply quiet_bind; [apply quiet_lift | intros fieldsv].
  apply quiet_bind; [quiet_tac | intros fields].
  apply quiet_forEach. intros field. apply quiet_extractFieldReference.
Qed.

(** ** Exactly one stage writes [windowData] *)

Lemma quiet_tracked {A} (c : M process A) : quiet c -> tracked c.
Proof. intros Hc p Hp. left. destruct (Hc p) as [H1 H2]. split; congruence. Qed.

Lemma tracked_bind_l {A B} (c : M process A) (k : A -> M process B) :
  quiet c -> (forall a, tracked (k a)) -> tracked (bind c k).
Proof.
  intros Hc Hk p Hp. unfold bind. destruct (Hc p) as [H1 H2].
  destruct (c p) as [[a|e] p1]; cbn [snd] in *.
  - rewrite <- H1. apply Hk. congruence.
  - left. split; congruence.
Qed.

Lemma tracked_bind_r {A B} (c : M process A) (k : A -> M process B) :
  tracked c -> (forall a, quiet (k a)) -> tracked (bind c k).
Proof.
  intros Hc Hk p Hp. unfold bind. specialize (Hc p Hp).
  destruct (c p) as [[a|e] p1]; cbn [snd] in *; [|exact Hc].
  destruct (Hk a p1) as [H1 H2]. rewrite H1, H2. exact Hc.
Qed.

Lemma tracked_try_catch {A} (c : M process A) (h : js_error -> M process A) :
  tracked c -> (forall e, quiet (h e)) -> tracked (try_catch c h).
Proof.
  intros Hc Hh p Hp. unfold try_catch. specialize (Hc p Hp).
  destruct (c p) as [[a|e] p1]; cbn [snd] in *; [exact Hc|].
  destruct (Hh e p1) as [H1 H2]. rewrite H1, H2. exact Hc.
Qed.

Lemma tracked_storeImportedData (env : io) (template adaptedWindow : value) :
  tracked (storeImportedData env template adaptedWindow).
Proof.
  intros p Hp. unfold storeImportedData.
  rewrite (bind_eq _ _ _ _ _ (logDiagnostic_eq _ _ _ p)).
  destruct (nullish adaptedWindow) eqn:Hn.
  - left. rewrite bind_get_nullish by assumption. cbn [snd]. split; [reflexivity|].
    rewrite stored_mark_append, Hp. reflexivity.
  - right. monad_simpl. exists (prop adaptedWindow "id"), adaptedWindow.
    rewrite logDiagnostic_eq. cbn [snd]. split; [reflexivity|].
    rewrite stored_mark_append. cbn. apply orb_true_r.
Qed.

Lemma tracked_stages (env : io) (fileUri : string) (jsonContent : option string) :
  tracked (stages env fileUri jsonContent).
Proof.
  unfold stages.
  apply tracked_bind_l; [apply quiet_validateFileAccess | intros _].
  apply tracked_bind_l; [apply quiet_readFileContent | intros rawJson].
  apply tracked_bind_l; [apply quiet_parseJSONContent | intros templateData].
  apply tracked_bind_l; [apply quiet_validateTemplateStructure | intros _].
  apply tracked_bind_l; [apply quiet_extractAndAnalyzeWindowId | intros windowId].
  apply tracked_bind_l; [apply quiet_adaptTemplateToADFormat | intros adaptedWindow].
  apply tracked_bind_r; [apply tracked_storeImportedData | intros _].
  apply quiet_bind; [apply quiet_extractReferenceData | intros _].
  unfold to_string. quiet_tac.
Qed.

(** What one import does to [windowData]: nothing, and then its log has no
    storage entry; or it stores one window, and its log says so. *)
Lemma import_windowData (env : io) (fileUri : string) (jsonContent : option string)
      (p : process) :
  (windowData (this (snd (importJSONTemplate env fileUri jsonContent p)))
     = windowData (this p)
   /\ stored_mark (snd (importJSONTemplate env fileUri jsonContent p)) = false)
  \/ (exists id w,
        windowData (this (snd (importJSONTemplate env fileUri jsonContent p)))
          = map_set id w (windowData (this p))
        /\ stored_mark (snd (importJSONTemplate env fileUri jsonContent p)) = true).
Proof.
  unfold importJSONTemplate. rewrite bind_modify.
  rewrite (bind_eq _ _ _ _ _ (logDiagnostic_eq _ _ _ _)).
  fold (reset_log p).
  assert (Ht : tracked (try_catch (stages env fileUri jsonContent)
             (fun error =>
                run logError "import_failed" error;
                throw (Error ("Failed to import JSON template: " +:+ message error))))).
  { apply tracked_try_catch; [apply tracked_stages | intros e; quiet_tac]. }
  apply (Ht (log_append
               [diag "import_start" true
                  ("Starting JSON template import from: " +:+ fileUri)] (reset_log p))).
  reflexivity.
Qed.

(** ** A document rejected by structural validation *)

Lemma readFileContent_ok (env : io) (fileUri : string) (c : option string)
      (raw : string) (p : process) :
  raw_content env fileUri c = Ok raw ->
  exists read,
    readFileContent env fileUri c p = (Ok raw, log_append read p)
    /\ Forall (fun e => stage e = "content_reading" /\ success e = true) read.
Proof.
  unfold raw_content, readFileContent. intros H.
  assert (Hfs : readAsStringAsync env fileUri = Ok raw ->
          exists read,
            readFromFileSystem env fileUri p = (Ok raw, log_append read p)
            /\ Forall (fun e => stage e = "content_reading" /\ success e = true) read).
  { intros Hr. eexists. split.
    - unfold readFromFileSystem.
      rewrite (bind_eq _ _ _ _ _ (logDiagnostic_eq _ _ _ _)).
      unfold try_catch. rewrite bind_lift, Hr.
      rewrite (bind_eq _ _ _ _ _ (logDiagnostic_eq _ _ _ _)).
      cbn [ret]. rewrite log_append_append. reflexivity.
    - repeat constructor. }
  destruct c as [content|]; [|exact (Hfs H)].
  destruct (String.eqb content ""); cbn [negb] in *; [exact (Hfs H)|].
  inversion H; subst. eexists. split.
  - rewrite (bind_eq _ _ _ _ _ (logDiagnostic_eq _ _ _ _)). reflexivity.
  - repeat constructor.
Qed.

Lemma parseJSONContent_ok (env : io) (raw : string) (doc : value) (p : process) :
  JSON_parse env raw = Ok doc -> nullish doc = false ->
  parseJSONContent env raw p =
  (Ok doc, log_append [diag "json_parsing" true "Starting JSON parsing";
                       diag "json_parsing" true "JSON parsing successful"] p).
Proof.
  intros Hp Hn. unfold parseJSONContent.
  rewrite (bind_eq _ _ _ _ _ (logDiagnostic_eq _ _ _ _)).
  unfold try_catch. rewrite bind_lift, Hp. unfold Object_keys_check. rewrite Hn.
  monad_simpl. rewrite (bind_eq _ _ _ _ _ (logDiagnostic_eq _ _ _ _)).
  cbn [ret]. rewrite log_append_append. reflexivity.
Qed.

Lemma validateTemplateStructure_rejects (doc : value) (p : process) :
  nullish doc = false ->
  truthy (or_else (prop doc "windowId") (prop doc "id")) = false
  \/ truthy (prop doc "name") = false
  \/ isArray (prop doc "tabs") = false ->
  validateTemplateStructure doc p =
  (Throw (Error (snd (rejection doc))),
   log_append [diag "structure_validation" true "Starting template structure validation";
               diag "structure_validation" false (fst (rejection doc))] p).
Proof.
  intros Hn H. unfold validateTemplateStructure, rejection.
  rewrite (bind_eq _ _ _ _ _ (logDiagnostic_eq _ _ _ _)). monad_simpl.
  destruct (truthy (or_else (prop doc "windowId") (prop doc "id"))); cbn [negb].
  - destruct (truthy (prop doc "name")); cbn [negb].
    + destruct H as [H|[H|H]]; try discriminate. rewrite H, andb_false_r. cbn [negb].
      rewrite (bind_eq _ _ _ _ _ (logDiagnostic_eq _ _ _ _)).
      cbn [throw fst snd]. rewrite log_append_append. reflexivity.
    + rewrite (bind_eq _ _ _ _ _ (logDiagnostic_eq _ _ _ _)).
      cbn [throw fst snd]. rewrite log_append_append. reflexivity.
  - rewrite (bind_eq _ _ _ _ _ (logDiagnostic_eq _ _ _ _)).
    cbn [throw fst snd]. rewrite log_append_append. reflexivity.
Qed.

Lemma rejection_message (doc : value) :
  (if String.eqb (snd (rejection doc)) "" then "Unknown error" else snd (rejection doc))
  = snd (rejection doc).
Proof. unfold rejection. repeat destruct (negb _); reflexivity. Qed.

(** The whole import of a document that structural validation rejects. *)
Lemma import_rejected (env : io) (fileUri : string) (c : option string)
      (raw : string) (doc : value) (p : process) :
  raw_content env fileUri c = Ok raw ->
  JSON_parse env raw = Ok doc ->
  nullish doc = false ->
  truthy (or_else (prop doc "windowId") (prop doc "id")) = false
  \/ truthy (prop doc "name") = false
  \/ isArray (prop doc "tabs") = false ->
  exists read,
    Forall (fun e => stage e = "content_reading" /\ success e = true) read
    /\ importJSONTemplate env fileUri c p =
       (Throw (Error ("Failed to import JSON template: " +:+ snd (rejection doc))),
        log_append (rejected_log read fileUri doc) (reset_log p)).
Proof.
  intros Hraw Hparse Hn Hrej.
  destruct (readFileContent_ok env fileUri c raw
              (log_append
                 [diag "import_start" true ("Starting JSON template import from: " +:+ fileUri);
                  diag "file_access_check" true ("Checking file accessibility: " +:+ fileUri)]
                 (reset_log p)) Hraw) as (read & Hread & HF).
  exists read. split; [exact HF|].
  unfold importJSONTemplate. rewrite bind_modify. fold (reset_log p).
  rewrite (bind_eq _ _ _ _ _ (logDiagnostic_eq _ _ _ _)).
  unfold try_catch, stages, validateFileAccess.
  rewrite (bind_eq _ _ _ _ _ (logDiagnostic_eq _ _ _ _)).
  rewrite log_append_append. cbn [app].
  rewrite (bind_eq _ _ _ _ _ Hread). rewrite log_append_append.
  rewrite (bind_eq _ _ _ _ _ (parseJSONContent_ok env raw doc _ Hparse Hn)).
  rewrite log_append_append.
  rewrite (bind_throw_eq _ _ _ _ _ (validateTemplateStructure_rejects doc _ Hn Hrej)).
  rewrite log_append_append.
  unfold logError. rewrite (bind_eq _ _ _ _ _ (logDiagnostic_eq _ _ _ _)).
  rewrite log_append_append. cbn [message throw].
  rewrite rejection_message. unfold rejected_log.
  repeat (rewrite <- app_assoc; cbn [app]). reflexivity.
Qed.

Lemma later_entry_read (read : list ImportDiagnostics) :
  Forall (fun e => stage e = "content_reading" /\ success e = true) read ->
  existsb later_entry read = false.
Proof.
  induction 1 as [|e read [He _] _ IH]; [reflexivity|].
  cbn [existsb]. rewrite IH. unfold later_entry. rewrite He. reflexivity.
Qed.

(** C5, refuted as stated: the error thrown by a failed import is a plain
    [Error] that carries a message and nothing else.  Two imports of the
    same document from different URIs throw the same error although their
    diagnostic logs differ, so the log is not attached to what is thrown. *)
Lemma C5_log_not_attached_counterexample :
  fst (import_of no_tabs_doc "file:///a.json")
    = Throw (Error "Failed to import JSON template: Template missing required tabs array")
  /\ fst (import_of no_tabs_doc "file:///b.json") = fst (import_of no_tabs_doc "file:///a.json")
  /\ getImportDiagnostics (this (snd (import_of no_tabs_doc "file:///a.json")))
     <> getImportDiagnostics (this (snd (import_of no_tabs_doc "file:///b.json"))).
Proof.
  split; [vm_compute; reflexivity|]. split; [vm_compute; reflexivity|].
  vm_compute. discriminate.
Qed.

(** C5, amended.  For every parsed document other than [null] that lacks a
    tabs array, [importJSONTemplate] fails at the structural-validation
    stage: the session log consists of the entries of the stages before it
    (all successful), the two structure_validation entries and, last, the
    [import_failed] entry with [success: false]; no later stage leaves an
    entry and nothing is stored.  The stage reports the failure by throwing;
    the one [catch] of [importJSONTemplate] completes the log and throws
    once, an [Error] made of the message ["Failed to import JSON template: "]
    followed by the stage's message.  The log is not attached to that error:
    it stays on the provider, where [getImportDiagnostics] returns it. *)
Theorem C5_import_without_tabs
    (env : io) (fileUri : string) (jsonContent : option string)
    (raw : string) (doc : value) (p : process) :
  raw_content env fileUri jsonContent = Ok raw ->
  JSON_parse env raw = Ok doc ->
  nullish doc = false ->
  isArray (prop doc "tabs") = false ->
  exists read p',
    Forall (fun e => stage e = "content_reading" /\ success e = true) read
    /\ importJSONTemplate env fileUri jsonContent p =
       (Throw (Error ("Failed to import JSON template: " +:+ snd (rejection doc))), p')
    /\ getImportDiagnostics (this p') = rejected_log read fileUri doc
    /\ last (getImportDiagnostics (this p'))
       = Some (diag "import_failed" false ("Error: " +:+ snd (rejection doc)))
    /\ existsb later_entry (getImportDiagnostics (this p')) = false
    /\ windowData (this p') = windowData (this p)
    /\ referenceData (this p') = referenceData (this p)
    /\ importedTemplate (this p') = importedTemplate (this p)
    /\ embeddedReferences p' = embeddedReferences p.
Proof.
  intros Hraw Hparse Hn Htabs.
  destruct (import_rejected env fileUri jsonContent raw doc p Hraw Hparse Hn)
    as (read & HF & H); [right; right; exact Htabs|].
  exists read, (log_append (rejected_log read fileUri doc) (reset_log p)).
  split; [exact HF|]. split; [exact H|].
  unfold getImportDiagnostics. rewrite log_append_reset.
  split; [reflexivity|]. split.
  - unfold rejected_log.
    change (?a ++ read ++ [?b; ?c; ?d; ?e; ?f]) with (a ++ read ++ [b; c; d; e] ++ [f]).
    rewrite !app_assoc. apply last_snoc.
  - split; [|repeat split].
    unfold rejected_log. rewrite !existsb_app, (later_entry_read read HF). reflexivity.
Qed.

Lemma C5_import_without_tabs_witness :
  raw_content (env_of no_tabs_doc) "file:///a.json" (Some "{...}") = Ok "{...}"
  /\ JSON_parse (env_of no_tabs_doc) "{...}" = Ok no_tabs_doc
  /\ nullish no_tabs_doc = false
  /\ isArray (prop no_tabs_doc "tabs") = false
  /\ exists read p',
       Forall (fun e => stage e = "content_reading" /\ success e = true) read
       /\ importJSONTemplate (env_of no_tabs_doc) "file:///a.json" (Some "{...}")
            (fresh_process ∅) =
          (Throw (Error ("Failed to import JSON template: " +:+ snd (rejection no_tabs_doc))), p')
       /\ getImportDiagnostics (this p') = rejected_log read "file:///a.json" no_tabs_doc
       /\ last (getImportDiagnostics (this p'))
          = Some (diag "import_failed" false ("Error: " +:+ snd (rejection no_tabs_doc)))
       /\ existsb later_entry (getImportDiagnostics (this p')) = false
       /\ windowData (this p') = windowData (this (fresh_process ∅))
       /\ referenceData (this p') = referenceData (this (fresh_process ∅))
       /\ importedTemplate (this p') = importedTemplate (this (fresh_process ∅))
       /\ embeddedReferences p' = embeddedReferences (fresh_process ∅).
Proof.
  split; [reflexivity|]. split; [reflexivity|]. split; [reflexivity|].
  split; [reflexivity|].
  exact (C5_import_without_tabs (env_of no_tabs_doc) "file:///a.json" (Some "{...}")
           "{...}" no_tabs_doc (fresh_process ∅) eq_refl eq_refl eq_refl eq_refl).
Defined.

(** The document [null] never reaches structural validation: building the
    log payload of the parsing stage calls [Object.keys(null)], which throws
    inside that stage's [try]. *)
Lemma import_null_document :
  fst (import_of VNull "file:///null.json")
    = Throw (Error "Failed to import JSON template: Invalid JSON format: Cannot convert undefined or null to object")
  /\ List.map stage (getImportDiagnostics (this (snd (import_of VNull "file:///null.json"))))
     = ["import_start"; "file_access_check"; "content_reading"; "json_parsing";
        "json_parsing"; "import_failed"].
Proof. split; vm_compute; reflexivity. Qed.

(** ** Window-id extraction *)

Lemma slug_char_eq (c : ascii) : keep_upper_digit (upper_char c) = slug_char c.
Proof. destruct c as [[] [] [] [] [] [] [] []]; reflexivity. Qed.

Lemma slug_eq (unicode : string -> string) (s : string) :
  ascii_only s = true ->
  replace_non_upper_digit (toUpperCase unicode s) = slug_spec s.
Proof.
  unfold replace_non_upper_digit, toUpperCase, slug_spec. intros ->.
  induction s as [|c s IH]; [reflexivity|].
  cbn [map_string]. rewrite slug_char_eq, IH. reflexivity.
Qed.

Lemma slug_nonempty (s : string) : s <> "" -> truthy (VStr (slug_spec s)) = true.
Proof. destruct s; [congruence|]. reflexivity. Qed.

Lemma extract_from_name (env : io) (template : value) (name : string) (p : process) :
  truthy (prop template "windowId") = false ->
  truthy (prop template "id") = false ->
  prop template "name" = VStr name ->
  name <> "" ->
  fst (extractAndAnalyzeWindowId env template p)
  = if String.eqb (replace_non_upper_digit (toUpperCase (String_toUpperCase env) name)) ""
    then Throw (Error "Cannot determine windowId from template")
    else Ok (VStr (replace_non_upper_digit (toUpperCase (String_toUpperCase env) name))).
Proof.
  intros Hw Hi Hname Hne.
  assert (Hn : nullish template = false).
  { destruct template; try reflexivity; cbn in Hname; discriminate. }
  unfold extractAndAnalyzeWindowId.
  rewrite (bind_eq _ _ _ _ _ (logDiagnostic_eq _ _ _ _)). monad_simpl.
  rewrite Hw, Hi, Hname.
  assert (Ht : truthy (VStr name) = true).
  { destruct name; [congruence|reflexivity]. }
  rewrite Ht. cbn [call_toUpperCase]. rewrite bind_assoc. monad_simpl.
  cbn [truthy].
  destruct (String.eqb (replace_non_upper_digit
                          (toUpperCase (String_toUpperCase env) name)) ""); cbn [negb].
  - rewrite (bind_eq _ _ _ _ _ (logDiagnostic_eq _ _ _ _)). reflexivity.
  - rewrite (bind_eq _ _ _ _ _ (logDiagnostic_eq _ _ _ _)).
    rewrite (bind_eq _ _ _ _ _ (logDiagnostic_eq _ _ _ _)). reflexivity.
Qed.

Lemma extract_from_ascii_name (env : io) (template : value) (name : string)
      (p : process) :
  truthy (prop template "windowId") = false ->
  truthy (prop template "id") = false ->
  prop template "name" = VStr name ->
  name <> "" ->
  ascii_only name = true ->
  fst (extractAndAnalyzeWindowId env template p) = Ok (VStr (slug_spec name)).
Proof.
  intros Hw Hi Hname Hne Ha.
  rewrite (extract_from_name env template name p Hw Hi Hname Hne).
  rewrite (slug_eq _ _ Ha).
  pose proof (slug_nonempty name Hne) as Ht. cbn [truthy] in Ht.
  apply negb_true_iff in Ht. rewrite Ht. reflexivity.
Qed.

(** C3, refuted as stated: importing [{ name: "Site Audit" }] resolves no
    window id.  Structural validation rejects the document because it has
    neither [windowId] nor [id]; the extraction stage is never entered and
    nothing is stored. *)
Lemma C3_name_only_import_counterexample :
  fst (import_of name_only_doc "file:///site-audit.json")
    = Throw (Error "Failed to import JSON template: Template missing required windowId or id field")
  /\ existsb later_entry
       (getImportDiagnostics (this (snd (import_of name_only_doc "file:///site-audit.json"))))
     = false
  /\ windowData (this (snd (import_of name_only_doc "file:///site-audit.json"))) = [].
Proof. split; [|split]; vm_compute; reflexivity. Qed.

(** C3, amended.  [extractAndAnalyzeWindowId], applied to a template that
    has a non-empty string [name] and neither [windowId] nor [id], returns
    [name.toUpperCase()] with every code unit outside [A]-[Z] and [0]-[9]
    replaced by an underscore (and throws if that is empty).  For a name of
    code units below 128 this is the slug of the name, code unit by code
    unit: a letter is uppercased, a capital or a digit is kept, anything
    else becomes an underscore; for ["Site Audit"] this is [SITE_AUDIT].
    For other names the result follows the engine's case tables, which is
    not a code unit by code unit mapping.  The JSON-Import pipeline never
    gets there with such a document: [importJSONTemplate] rejects it at
    structural validation with "Template missing required windowId or id
    field" and stores nothing. *)
Theorem C3_window_id_from_name
    (env : io) (fileUri : string) (jsonContent : option string)
    (raw : string) (template : value) (name : string) (p : process) :
  raw_content env fileUri jsonContent = Ok raw ->
  JSON_parse env raw = Ok template ->
  truthy (prop template "windowId") = false ->
  truthy (prop template "id") = false ->
  prop template "name" = VStr name ->
  name <> "" ->
  fst (extractAndAnalyzeWindowId env template p)
  = (if String.eqb (replace_non_upper_digit (toUpperCase (String_toUpperCase env) name)) ""
     then Throw (Error "Cannot determine windowId from template")
     else Ok (VStr (replace_non_upper_digit (toUpperCase (String_toUpperCase env) name))))
  /\ (ascii_only name = true ->
      fst (extractAndAnalyzeWindowId env template p) = Ok (VStr (slug_spec name)))
  /\ slug_spec "Site Audit" = "SITE_AUDIT"
  /\ fst (importJSONTemplate env fileUri jsonContent p)
     = Throw (Error "Failed to import JSON template: Template missing required windowId or id field")
  /\ windowData (this (snd (importJSONTemplate env fileUri jsonContent p)))
     = windowData (this p).
Proof.
  intros Hraw Hparse Hw Hi Hname Hne.
  split; [apply extract_from_name; assumption|].
  split; [intros Ha; apply extract_from_ascii_name; assumption|].
  split; [reflexivity|].
  assert (Hn : nullish template = false).
  { destruct template; try reflexivity; cbn in Hname; discriminate. }
  assert (Hid : truthy (or_else (prop template "windowId") (prop template "id")) = false).
  { unfold or_else. rewrite Hw. exact Hi. }
  destruct (import_rejected env fileUri jsonContent raw template p Hraw Hparse Hn)
    as (read & _ & H); [left; exact Hid|].
  rewrite H. unfold rejection. rewrite Hid. split; reflexivity.
Qed.

Lemma C3_window_id_from_name_witness :
  raw_content (env_of name_only_doc) "file:///site-audit.json" (Some "{...}") = Ok "{...}"
  /\ JSON_parse (env_of name_only_doc) "{...}" = Ok name_only_doc
  /\ truthy (prop name_only_doc "windowId") = false
  /\ truthy (prop name_only_doc "id") = false
  /\ prop name_only_doc "name" = VStr "Site Audit"
  /\ "Site Audit" <> ""
  /\ ascii_only "Site Audit" = true
  /\ fst (extractAndAnalyzeWindowId (env_of name_only_doc) name_only_doc (fresh_process ∅))
     = Ok (VStr (slug_spec "Site Audit")).
Proof.
  assert (Hne : "Site Audit" <> "") by discriminate.
  repeat (split; [first [reflexivity | exact Hne]|]).
  exact (proj1 (proj2 (C3_window_id_from_name (env_of name_only_doc)
                         "file:///site-audit.json"
                         (Some "{...}") "{...}" name_only_doc "Site Audit" (fresh_process ∅)
                         eq_refl eq_refl eq_refl eq_refl eq_refl Hne)) eq_refl).
Defined.

(** ** The connection flag of the import provider *)

Lemma map_set_nonempty {V} (k : value) (v : V) (m : list (value * V)) :
  (0 <? List.length (map_set k v m))%nat = true.
Proof. destruct m as [|[k' v'] m]; cbn; [reflexivity|]. destruct (same_value_zero k' k); reflexivity. Qed.

Lemma connected_after_import (env : io) (fileUri : string) (c : option string)
      (p : process) :
  (0 <? List.length (windowData (this (snd (importJSONTemplate env fileUri c p)))))%nat
  = (0 <? List.length (windowData (this p)))%nat
    || stored_mark (snd (importJSONTemplate env fileUri c p)).
Proof.
  destruct (import_windowData env fileUri c p) as [[H1 H2]|(id & w & H1 & H2)];
    rewrite H1, H2.
  - rewrite orb_false_r. reflexivity.
  - rewrite map_set_nonempty, orb_true_r. reflexivity.
Qed.

Lemma connected_history (ops : list op) (q : process) (flag : bool) :
  (0 <? List.length (windowData (this q)))%nat = flag ->
  (0 <? List.length (windowData (this (run_ops ops q))))%nat
  = snd (foldl (fun acc o =>
                  let '(q, flag) := acc in
                  let q' := step o q in
                  (q', match o with
                       | Import _ _ _ => flag || stored_mark q'
                       | Clear => false
                       | Save _ _ _ => flag
                       end))
               (q, flag) ops).
Proof.
  revert q flag. induction ops as [|o ops IH]; intros q flag H; [exact H|].
  cbn [foldl]. unfold run_ops. cbn [foldl]. apply IH.
  destruct o as [env fileUri c| |windowId record now]; cbn [step].
  - rewrite connected_after_import, H. reflexivity.
  - reflexivity.
  - exact H.
Qed.

(** C10. [JSONFileDataProvider.isConnected()] never throws and returns true
    exactly when [windowData] holds at least one window definition, that
    is, exactly when an import has stored one and the data has not been
    cleared since; on a freshly constructed provider and after
    [clearImportedData()] it returns false. *)
Theorem C10_import_provider_connected :
  (forall t : provider,
      exists b, isConnected t = Ok b /\ (b = true <-> windowData t <> []))
  /\ isConnected constructor = Ok false
  /\ (forall t : provider, isConnected (clearImportedData t) = Ok false)
  /\ (forall (ops : list op) (m : MetadataAdapter.store),
        isConnected (this (run_ops ops (fresh_process m)))
        = Ok (stored_since_clear ops (fresh_process m))).
Proof.
  split; [|split; [reflexivity|split; [reflexivity|]]].
  - intros t. eexists. split; [reflexivity|].
    destruct (windowData t); cbn; split; congruence.
  - intros ops m. unfold isConnected, stored_since_clear. f_equal.
    apply connected_history. reflexivity.
Qed.
End ImportFacts.

(* ===================================================================== *)
(** * The cache of the external provider                                  *)
(* ===================================================================== *)

Section CacheFacts.
Import ExternalMetadataProvider CacheProps.


Lemma getWindowDefinition_hit (env : io) (windowId : string) (p : process) (e : cacheEntry) :
  cache (this p) !! window_key windowId = Some e ->
  fresh env (this p) e = true ->
  getWindowDefinition env windowId p = (Ok (data e), p).
Proof.
  intros Hc Hf. unfold getWindowDefinition, window_key in *.
  unfold bind, gets. rewrite Hc, Hf. reflexivity.
Qed.

Lemma getReferenceValues_hit (env : io) (referenceId : string) (p : process) (e : cacheEntry) :
  cache (this p) !! reference_key referenceId = Some e ->
  fresh env (this p) e = true ->
  getReferenceValues env referenceId p = (Ok (data e), p).
Proof.
  intros Hc Hf. unfold getReferenceValues, reference_key in *.
  unfold bind, gets. rewrite Hc, Hf. reflexivity.
Qed.

(** The adapter and the cache never touch the list of requests. *)
Lemma call_adapter_requests (iso : MetadataAdapter.dates) (w : value) (p : process) :
  requests (snd (call_adapter iso w p)) = requests p
  /\ this (snd (call_adapter iso w p)) = this p.
Proof.
  unfold call_adapter.
  destruct (MetadataAdapter.adaptWindowDefinition _ _ _) as [r m]. split; reflexivity.
Qed.

Lemma fetchWindow_requests (env : io) (windowId cacheKey : string) (p : process) :
  requests (snd (fetchWindow env windowId cacheKey p))
  = requests p ++ [window_url (this p) windowId].
Proof.
  unfold fetchWindow, try_catch, window_url.
  unfold bind at 1. unfold gets at 1. unfold bind at 1.
  unfold do_fetch. rewrite bind_modify. unfold lift at 1.
  destruct (fetch env _) as [response|e]; [|reflexivity].
  destruct (ok response); cbn [negb]; [|reflexivity].
  rewrite bind_lift. destruct (json response) as [w|e]; [|reflexivity].
  destruct (nullish w) eqn:Hn.
  { rewrite bind_get_nullish by assumption. reflexivity. }
  monad_simpl. unfold bind at 1.
  pose proof (call_adapter_requests (iso env) w
                {| this := this p; embeddedReferences := embeddedReferences p;
                   requests := requests p ++ [baseUrl (this p) +:+ "/windows/" +:+ windowId] |})
    as [Hr _].
  destruct (call_adapter _ _ _) as [[aw|e] p1]; cbn [snd] in Hr; [|exact Hr].
  unfold bind at 1. rewrite debugConversion_eq.
  destruct (debug_r _ _) as [[]|e]; [|exact Hr].
  unfold cache_set. rewrite bind_modify.
  destruct (nullish aw) eqn:Ha.
  { rewrite bind_get_nullish by assumption. exact Hr. }
  monad_simpl. unfold to_string. rewrite bind_lift.
  destruct (to_string_r _); exact Hr.
Qed.

Lemma getWindowDefinition_expired (env : io) (windowId : string) (p : process)
      (e : cacheEntry) :
  cache (this p) !! window_key windowId = Some e ->
  fresh env (this p) e = false ->
  requests (snd (getWindowDefinition env windowId p))
  = requests p ++ [window_url (this p) windowId].
Proof.
  intros Hc Hf. unfold getWindowDefinition, window_key in *.
  unfold bind at 1, gets at 1. rewrite Hc, Hf. apply fetchWindow_requests.
Qed.



(** What a fetch that returns has done: the request was answered with a
    document, the adapter succeeded on it, and the adapted window is in the
    cache under the key, stamped with the time at which it was stored. *)
Lemma fetchWindow_returns (env : io) (windowId cacheKey : string) (p p1 : process)
      (out : value) :
  fetchWindow env windowId cacheKey p = (Ok out, p1) ->
  exists r doc,
    fetch env (window_url (this p) windowId) = Ok r
    /\ ok r = true
    /\ json r = Ok doc
    /\ MetadataAdapter.adaptWindowDefinition (iso env) doc (embeddedReferences p)
       = (Ok out, embeddedReferences p1)
    /\ cache (this p1) = <[cacheKey := mkEntry out (later env)]> (cache (this p))
    /\ cacheTimeout (this p1) = cacheTimeout (this p)
    /\ baseUrl (this p1) = baseUrl (this p).
Proof.
  unfold fetchWindow, try_catch, window_url.
  unfold bind at 1. unfold gets at 1. unfold bind at 1.
  unfold do_fetch. rewrite bind_modify. unfold lift at 1.
  destruct (fetch env _) as [response|e]; [|discriminate].
  destruct (ok response) eqn:Hok; cbn [negb]; [|discriminate].
  rewrite bind_lift. destruct (json response) as [w|e] eqn:Hj; [|discriminate].
  destruct (nullish w) eqn:Hn.
  { rewrite bind_get_nullish by assumption. discriminate. }
  monad_simpl. unfold bind at 1. unfold call_adapter. cbn [embeddedReferences].
  destruct (MetadataAdapter.adaptWindowDefinition (iso env) w (embeddedReferences p))
    as [[aw|e] m'] eqn:Had; [|discriminate].
  unfold bind at 1. rewrite debugConversion_eq.
  destruct (debug_r _ _) as [[]|e]; [|discriminate].
  unfold cache_set. rewrite bind_modify.
  destruct (nullish aw) eqn:Ha.
  { rewrite bind_get_nullish by assumption. discriminate. }
  monad_simpl. unfold to_string. rewrite bind_lift.
  destruct (to_string_r _); [|discriminate].
  cbn. intros H. inversion H; subst. cbn. exists response, w. repeat split; auto.
Qed.


(** What [resolveReference] has done when it returns something other than
    the empty list: the value is in the cache under the key, stamped with
    the time at which it was stored. *)
Lemma resolveReference_stores (env : io) (referenceId cacheKey : string)
      (p p1 : process) (v : value) :
  resolveReference env referenceId cacheKey p = (Ok v, p1) ->
  v <> VArr [] ->
  cache (this p1) = <[cacheKey := mkEntry v (later env)]> (cache (this p))
  /\ cacheTimeout (this p1) = cacheTimeout (this p).
Proof.
  unfold resolveReference.
  destruct (MetadataAdapter.isEmbeddedReference referenceId).
  - unfold bind at 1, gets at 1.
    destruct (MetadataAdapter.getEmbeddedReferenceValues _ _) as [vs|].
    + unfold cache_set. rewrite bind_modify. cbn [ret].
      intros H _. inversion H; subst. split; reflexivity.
    + cbn [ret]. intros H Hv. inversion H; subst. contradiction.
  - unfold try_catch.
    unfold bind at 1. unfold gets at 1. unfold bind at 1.
    unfold do_fetch. rewrite bind_modify. unfold lift at 1.
    assert (Hempty : forall q : process, (Ok (VArr []), q) = (Ok v, p1) -> v <> VArr [] ->
              cache (this p1) = <[cacheKey := mkEntry v (later env)]> (cache (this p))
              /\ cacheTimeout (this p1) = cacheTimeout (this p)).
    { intros q H Hv. inversion H; subst. contradiction. }
    destruct (fetch env _) as [response|e]; [|cbn [ret]; apply Hempty].
    destruct (ok response); cbn [negb]; [|cbn [ret]; apply Hempty].
    rewrite bind_lift. destruct (json response) as [w|e]; [|cbn [ret]; apply Hempty].
    destruct (nullish w) eqn:Hn.
    { rewrite bind_get_nullish by assumption. cbn [ret]. apply Hempty. }
    monad_simpl. unfold cache_set. rewrite bind_modify.
    destruct (nullish (or_else (prop w "values") (VArr []))) eqn:Hv.
    { rewrite bind_get_nullish by assumption. cbn [ret]. apply Hempty. }
    monad_simpl. unfold to_string. rewrite bind_lift.
    destruct (to_string_r _); [|cbn [ret]; apply Hempty].
    cbn [ret]. intros H _. inversion H; subst. split; reflexivity.
Qed.


(** The same for [getReferenceValues], whenever the first call returned
    something other than the empty list. *)
Lemma getReferenceValues_twice (env1 env2 : io) (referenceId : string)
      (p p1 : process) (v : value) :
  getReferenceValues env1 referenceId p = (Ok v, p1) ->
  v <> VArr [] ->
  exists e,
    cache (this p1) !! reference_key referenceId = Some e
    /\ data e = v
    /\ (no_valid_entry env1 (this p) (reference_key referenceId) = true ->
        timestamp e = later env1)
    /\ cacheTimeout (this p1) = cacheTimeout (this p)
    /\ (fresh env2 (this p1) e = true ->
        getReferenceValues env2 referenceId p1 = (Ok v, p1)).
Proof.
  intros H Hv.
  assert (Hc : exists e, cache (this p1) !! reference_key referenceId = Some e /\ data e = v
                 /\ (no_valid_entry env1 (this p) (reference_key referenceId) = true ->
                     timestamp e = later env1)
                 /\ cacheTimeout (this p1) = cacheTimeout (this p)).
  { unfold getReferenceValues in H. unfold bind at 1, gets at 1 in H.
    fold (reference_key referenceId) in H. unfold no_valid_entry.
    destruct (cache (this p) !! reference_key referenceId) as [cached|] eqn:Hl.
    - destruct (fresh env1 (this p) cached).
      + inversion H; subst. exists cached. rewrite Hl. repeat split; auto. discriminate.
      + apply resolveReference_stores in H as [Hs Ht]; [|exact Hv].
        rewrite Hs, lookup_insert_eq. eexists. repeat split; auto.
    - apply resolveReference_stores in H as [Hs Ht]; [|exact Hv].
      rewrite Hs, lookup_insert_eq. eexists. repeat split; auto. }
  destruct Hc as (e & He & Hd & Hts & Ht). exists e.
  split; [exact He|]. split; [exact Hd|]. split; [exact Hts|]. split; [exact Ht|].
  intros Hf. rewrite <- Hd. apply getReferenceValues_hit; assumption.
Qed.

Lemma getWindowDefinition_fetches (env : io) (windowId : string) (p : process) :
  no_valid_entry env (this p) (window_key windowId) = true ->
  getWindowDefinition env windowId p = fetchWindow env windowId (window_key windowId) p.
Proof.
  unfold no_valid_entry, getWindowDefinition. fold (window_key windowId).
  unfold bind at 1, gets at 1.
  destruct (cache (this p) !! window_key windowId) as [e|]; [|reflexivity].
  destruct (fresh env (this p) e); [discriminate|reflexivity].
Qed.

Lemma getReferenceValues_resolves (env : io) (referenceId : string) (p : process) :
  no_valid_entry env (this p) (reference_key referenceId) = true ->
  getReferenceValues env referenceId p
  = resolveReference env referenceId (reference_key referenceId) p.
Proof.
  unfold no_valid_entry, getReferenceValues. fold (reference_key referenceId).
  unfold bind at 1, gets at 1.
  destruct (cache (this p) !! reference_key referenceId) as [e|]; [|reflexivity].
  destruct (fresh env (this p) e); [discriminate|reflexivity].
Qed.

(** A lookup that finds no reference document returns the empty list and
    leaves the cache as it was. *)
Lemma getReferenceValues_unavailable (env : io) (referenceId : string) (p : process) :
  no_valid_entry env (this p) (reference_key referenceId) = true ->
  MetadataAdapter.isEmbeddedReference referenceId = false ->
  reference_unavailable env (reference_url (this p) referenceId) = true ->
  getReferenceValues env referenceId p
  = (Ok (VArr []), sent (reference_url (this p) referenceId) p).
Proof.
  intros Hc He Hu. rewrite (getReferenceValues_resolves _ _ _ Hc).
  unfold resolveReference. rewrite He.
  unfold reference_unavailable, reference_url in Hu.
  unfold try_catch, reference_url, sent.
  unfold bind at 1. unfold gets at 1. unfold bind at 1.
  unfold do_fetch. rewrite bind_modify. unfold lift at 1.
  destruct (fetch env _) as [response|e]; [|reflexivity].
  destruct (ok response); cbn [negb orb] in *; [|reflexivity].
  rewrite bind_lift. destruct (json response) as [d|e]; [|reflexivity].
  rewrite bind_get_nullish by exact Hu. reflexivity.
Qed.




(** The reference getter on the same lines: the values of an embedded
    reference, looked up at time 300000 after the entry of time 0 has
    expired, are stored at time 300001 and served from the cache at time
    600000. *)
Lemma getReferenceValues_twice_example :
  exists v p1,
    getReferenceValues (offline_env 300000) "COLOR_EMBEDDED_REF" sample_cached = (Ok v, p1)
    /\ v <> VArr []
    /\ requests p1 = []
    /\ getReferenceValues (offline_env 600000) "COLOR_EMBEDDED_REF" p1 = (Ok v, p1).
Proof.
  destruct (fst (getReferenceValues (offline_env 300000) "COLOR_EMBEDDED_REF" sample_cached))
    as [v|e] eqn:E; [|vm_compute in E; discriminate].
  exists v, (snd (getReferenceValues (offline_env 300000) "COLOR_EMBEDDED_REF"
                    sample_cached)).
  assert (Hrun : getReferenceValues (offline_env 300000) "COLOR_EMBEDDED_REF" sample_cached
                 = (Ok v, snd (getReferenceValues (offline_env 300000)
                                 "COLOR_EMBEDDED_REF" sample_cached))).
  { rewrite <- E. apply surjective_pairing. }
  assert (Hv : v <> VArr []).
  { vm_compute in E. inversion E. discriminate. }
  destruct (getReferenceValues_twice (offline_env 300000) (offline_env 600000)
              "COLOR_EMBEDDED_REF" sample_cached _ v Hrun Hv)
    as (e & He & _ & Hts & Ht & Hagain).
  specialize (Hts eq_refl).
  split; [exact Hrun|]. split; [exact Hv|]. split; [reflexivity|].
  apply Hagain. unfold fresh. rewrite Hts, Ht. reflexivity.
Qed.
End CacheFacts.

(* ===================================================================== *)
(** * The connection monitor                                              *)
(* ===================================================================== *)

Section MonitorFacts.
Import ConnectionMonitor.

(** The health check of the external provider answers [true] exactly when
    [GET /health] is answered with an ok status, and [false] on every
    failure: it never rejects. *)
Lemma isConnected_eq (env : ExternalMetadataProvider.io)
      (p : ExternalMetadataProvider.process) :
  fst (ExternalMetadataProvider.isConnected env p)
  = Ok (match ExternalMetadataProvider.fetch env
                (ExternalMetadataProvider.baseUrl (ExternalMetadataProvider.this p)
                 +:+ "/health") with
        | Ok r => ExternalMetadataProvider.ok r
        | Throw _ => false
        end).
Proof.
  unfold ExternalMetadataProvider.isConnected, try_catch.
  unfold bind at 1. unfold gets at 1. unfold ExternalMetadataProvider.do_fetch.
  unfold bind at 1. rewrite bind_modify. unfold lift. cbn.
  destruct (ExternalMetadataProvider.fetch env _); reflexivity.
Qed.

Lemma isConnected_resolves (env : ExternalMetadataProvider.io)
      (p : ExternalMetadataProvider.process) :
  exists b, fst (ExternalMetadataProvider.isConnected env p) = Ok b.
Proof.
  unfold ExternalMetadataProvider.isConnected, try_catch.
  match goal with |- context [match ?c p with _ => _ end] =>
    destruct (c p) as [[b|e] q] end; cbn; eauto.
Qed.


End MonitorFacts.

(* ===================================================================== *)
(** * Further properties of the schema adapter                            *)
(* ===================================================================== *)

Section AdapterExtras.
Import MetadataAdapter ExtraProps.

Lemma adaptField_w_inv (f af : value) (ws : writes) :
  adaptField_w f = (Ok af, ws) ->
  nullish f = false
  /\ exists key r, to_string_r (prop f "component") = Ok key
                   /\ af = fieldObject f key r
                   /\ adaptReference_w (prop f "reference") (field_id f) = (Ok r, ws).
Proof.
  unfold adaptField_w. destruct (nullish f); [discriminate|].
  destruct (to_string_r (prop f "component")) as [key|e]; [|discriminate].
  destruct (adaptReference_w _ _) as [[r|e] ws'] eqn:E; [|discriminate].
  intros H; inversion H; subst. split; [reflexivity|]. exists key, r. auto.
Qed.

(** The adapted field at a position, in terms of the external field there. *)
Lemma adapted_field_at (now : MetadataAdapter.dates) (w out : value) (m m' : store)
      (i j : nat) (t f : value) :
  adaptWindowDefinition now w m = (Ok out, m') ->
  doc_tabs w !! i = Some t ->
  tab_fields t !! j = Some f ->
  exists key r ws,
    to_string_r (prop f "component") = Ok key
    /\ adapted_field out i j = fieldObject f key r
    /\ adaptReference_w (prop f "reference") (field_id f) = (Ok r, ws).
Proof.
  intros H Hi Hj.
  apply adaptWindowDefinition_ok in H as (Hn & ts & ats & Ht & -> & HF & _).
  unfold doc_tabs in Hi. rewrite Ht in Hi. cbn [array_items] in Hi.
  destruct (Forall2_lookup_l _ _ _ _ _ HF Hi) as (at' & Hat & [wst Hrt]).
  apply adaptTab_w_ok in Hrt as (_ & fs & afs & Hf & -> & HFf & _).
  unfold tab_fields in Hj. rewrite Hf in Hj. cbn [array_items] in Hj.
  destruct (Forall2_lookup_l _ _ _ _ _ HFf Hj) as (af & Haf & [wsf Hrf]).
  apply adaptField_w_inv in Hrf as (_ & key & r & Hk & -> & Hr).
  exists key, r, wsf. split; [exact Hk|]. split; [|exact Hr].
  unfold adapted_field.
  change (opt_prop (windowObject now w (VArr ats)) "tabs") with (VArr ats).
  cbn [opt_index]. rewrite (nth_lookup_Some _ _ _ _ Hat).
  change (opt_prop (tabObject t (VArr afs)) "fields") with (VArr afs).
  cbn [opt_index]. apply (nth_lookup_Some _ _ _ _ Haf).
Qed.

(** X1.  Display logic never reaches the adapted window: whatever
    [displayLogic] an external field carries, the adapted field has
    [displayLogic: undefined]. *)
Theorem displayLogic_is_dropped
    (now : MetadataAdapter.dates) (w out : value) (m m' : store) (i j : nat) (t f : value) :
  adaptWindowDefinition now w m = (Ok out, m') ->
  doc_tabs w !! i = Some t ->
  tab_fields t !! j = Some f ->
  prop (adapted_field out i j) "displayLogic" = VUndef
  /\ prop (adapted_field out i j) "name" = prop f "name".
Proof.
  intros H Hi Hj.
  destruct (adapted_field_at now w out m m' i j t f H Hi Hj) as (key & r & ws & _ & -> & _).
  split; reflexivity.
Qed.

Lemma displayLogic_is_dropped_witness :
  exists out,
    adaptWindowDefinition sample_dates logic_doc ∅
      = (Ok out, snd (adaptWindowDefinition sample_dates logic_doc ∅))
    /\ truthy (prop sample_logic_field "displayLogic") = true
    /\ prop (adapted_field out 0 0) "displayLogic" = VUndef
    /\ prop (adapted_field out 0 0) "name" = VStr "Immediate Action Required".
Proof.
  destruct (fst (adaptWindowDefinition sample_dates logic_doc ∅))
    as [out|e] eqn:E; [|vm_compute in E; discriminate].
  assert (Hrun : adaptWindowDefinition sample_dates logic_doc ∅
                 = (Ok out, snd (adaptWindowDefinition sample_dates logic_doc ∅))).
  { rewrite <- E. apply surjective_pairing. }
  exists out. split; [exact Hrun|]. split; [reflexivity|].
  exact (displayLogic_is_dropped _ logic_doc out ∅ _ 0%nat 0%nat _ sample_logic_field
           Hrun eq_refl eq_refl).
Defined.

(** *** The component table *)

Lemma displayTypeOf_eq (c : string) :
  or_else (prop (VObj componentTypeMap) c) (VStr "String") = displayType_of c.
Proof.
  unfold displayType_of, prop.
  destruct (lookup_prop c componentTypeMap) as [v|] eqn:E.
  - unfold componentTypeMap, lookup_prop in E.
    repeat match type of E with
           | context [String.eqb ?a c] =>
               destruct (String.eqb a c); [inversion E; subst; reflexivity|]
           end.
    discriminate.
  - destruct (mem c object_prototype_members); reflexivity.
Qed.

(** X2.  The display type of an adapted field whose component is the string [c]:
    the table's entry when [c] is listed; the plain-text type ["String"]
    when [isComponentSupported(c)] is false; and, for the names the table
    inherits from [Object.prototype] ([constructor], [toString], ...), which
    [isComponentSupported] reports as supported, the inherited built-in
    itself rather than any display type.  [isComponentSupported(c)] holds
    exactly when the table lookup is not [undefined]. *)
Theorem component_mapping
    (now : MetadataAdapter.dates) (w out : value) (m m' : store) (i j : nat) (t f : value)
    (c : string) :
  adaptWindowDefinition now w m = (Ok out, m') ->
  doc_tabs w !! i = Some t ->
  tab_fields t !! j = Some f ->
  prop f "component" = VStr c ->
  (forall v, lookup_prop c componentTypeMap = Some v ->
             prop (adapted_field out i j) "displayType" = v)
  /\ (isComponentSupported c = false ->
      prop (adapted_field out i j) "displayType" = VStr "String")
  /\ (lookup_prop c componentTypeMap = None -> isComponentSupported c = true ->
      prop (adapted_field out i j) "displayType" = VFun c)
  /\ isComponentSupported c = negb (nullish (prop (VObj componentTypeMap) c)).
Proof.
  intros H Hi Hj Hc.
  destruct (adapted_field_at now w out m m' i j t f H Hi Hj) as (key & r & ws & Hk & -> & _).
  rewrite Hc in Hk. cbn in Hk. inversion Hk; subst key.
  change (prop (fieldObject f c r) "displayType")
    with (or_else (prop (VObj componentTypeMap) c) (VStr "String")).
  rewrite displayTypeOf_eq.
  unfold displayType_of, isComponentSupported, prop.
  split; [intros v Hv; rewrite Hv; reflexivity|].
  split; [|split].
  - destruct (lookup_prop c componentTypeMap); [discriminate|]. intros ->. reflexivity.
  - intros -> ->. reflexivity.
  - destruct (lookup_prop c componentTypeMap) as [v|] eqn:E.
    + unfold componentTypeMap, lookup_prop in E.
      repeat match type of E with
             | context [String.eqb ?a c] =>
                 destruct (String.eqb a c); [inversion E; subst; reflexivity|]
             end.
      discriminate.
    + destruct (mem c object_prototype_members); reflexivity.
Qed.

Lemma component_mapping_witness :
  exists out,
    adaptWindowDefinition sample_dates sample_doc ∅ = (Ok out, snd sample_run)
    /\ prop sample_embedded_field "component" = VStr "SelectField"
    /\ prop (adapted_field out 0 0) "displayType" = VStr "List".
Proof.
  destruct (fst sample_run) as [out|e] eqn:E; [|vm_compute in E; discriminate].
  assert (Hrun : adaptWindowDefinition sample_dates sample_doc ∅
                 = (Ok out, snd sample_run)).
  { rewrite <- E. apply surjective_pairing. }
  exists out. split; [exact Hrun|]. split; [reflexivity|].
  exact (proj1 (component_mapping _ sample_doc out ∅ _ 0%nat 0%nat _ sample_embedded_field
                  "SelectField" Hrun eq_refl eq_refl eq_refl) (VStr "List") eq_refl).
Defined.

(** *** Component payloads *)

Lemma or_else_idem (a b : value) : or_else (or_else a b) b = or_else a b.
Proof.
  unfold or_else. destruct (truthy a) eqn:Ha; [rewrite Ha; reflexivity|].
  destruct (truthy b); reflexivity.
Qed.





(** X4.  Adapting an already adapted payload or UI configuration changes
    nothing: [adaptFieldData] and [adaptUIConfig] are idempotent for every
    component, whatever the payload. *)
Theorem payload_adaptation_idempotent (x c : value) :
  adaptFieldData (adaptFieldData x c) c = adaptFieldData x c
  /\ adaptUIConfig (adaptUIConfig x c) c = adaptUIConfig x c.
Proof.
  split.
  - unfold adaptFieldData.
    destruct (truthy x) eqn:Hx; cbn [negb]; [|reflexivity].
    destruct (is_str c "TaskListField").
    { cbn -[or_else]. rewrite ?or_else_idem.
      repeat match goal with |- context [not_false ?v] => destruct (not_false v) end;
      reflexivity. }
    destruct (is_str c "QRChecklistField" || is_str c "FlippableQRChecklistField").
    { cbn -[or_else]. rewrite ?or_else_idem.
      repeat match goal with |- context [not_false ?v] => destruct (not_false v) end;
      reflexivity. }
    destruct (is_str c "QRCollectorField").
    { cbn -[or_else]. rewrite ?or_else_idem.
      repeat match goal with |- context [not_false ?v] => destruct (not_false v) end;
      reflexivity. }
    destruct (is_str c "MultiPhotoField").
    { cbn -[or_else]. rewrite ?or_else_idem.
      repeat match goal with |- context [not_false ?v] => destruct (not_false v) end;
      reflexivity. }
    rewrite Hx. reflexivity.
  - unfold adaptUIConfig.
    destruct (truthy x) eqn:Hx; cbn [negb]; [|reflexivity].
    destruct (is_str c "TaskListField").
    { cbn -[or_else]. rewrite ?or_else_idem.
      repeat match goal with |- context [not_false ?v] => destruct (not_false v) end;
      reflexivity. }
    rewrite Hx. reflexivity.
Qed.

(** *** Inline reference values *)

Lemma convert_all_inv (items conv : list value) :
  convert_all items = Ok conv ->
  Forall2 (fun v c => convert_r v = Ok c) items conv.
Proof.
  revert conv. induction items as [|v r IH]; intros conv H; cbn in H.
  - inversion H. constructor.
  - destruct (convert_r v) as [c|e] eqn:Ec; [|discriminate].
    destruct (convert_all r) as [cs|e]; [|discriminate].
    inversion H; subst. constructor; auto.
Qed.

Lemma values_truthy_reference (reference : value) :
  truthy (prop reference "values") = true -> truthy reference = true.
Proof. destruct reference; cbn; intros H; try discriminate; reflexivity. Qed.

(** X5.  A reference with inline values: whenever [adaptReference] returns, the
    values are an array, the adapted reference lists one record per inline
    value in the same order, each with the value's [key] and with
    [display || value] as its [value]; with a reference id of its own the
    id is kept and the store is left alone, otherwise the very same list of
    records is stored under the generated id. *)
Theorem reference_values_converted (reference fieldId r : value) (m m' : store) :
  adaptReference reference fieldId m = (Ok r, m') ->
  truthy (prop reference "values") = true ->
  exists items conv,
    prop reference "values" = VArr items
    /\ prop r "values" = VArr conv
    /\ Forall2 (fun v c => prop c "key" = prop v "key"
                           /\ prop c "value" = or_else (prop v "display") (prop v "value"))
               items conv
    /\ (if truthy (prop reference "id")
        then prop r "id" = prop reference "id" /\ m' = m
        else exists fid, to_string_r fieldId = Ok fid
                         /\ prop r "id" = VStr (fid +:+ EMBEDDED_SUFFIX)
                         /\ m' = <[fid +:+ EMBEDDED_SUFFIX := conv]> m).
Proof.
  intros H Hv. rewrite adaptReference_eq in H. unfold run_w in H.
  pose proof (values_truthy_reference _ Hv) as Hr.
  destruct (adaptReference_w reference fieldId) as [res ws] eqn:E.
  cbn [fst snd] in H. inversion H; subst; clear H.
  assert (Hconv : forall items conv, convert_all items = Ok conv ->
            Forall2 (fun v c => prop c "key" = prop v "key"
                      /\ prop c "value" = or_else (prop v "display") (prop v "value"))
                    items conv).
  { intros items conv Hc. apply convert_all_inv in Hc.
    induction Hc as [|v c vs cs Hvc _ IH]; constructor; [|exact IH].
    unfold convert_r in Hvc. destruct (nullish v); [discriminate|].
    inversion Hvc; subst. split; reflexivity. }
  destruct (truthy (prop reference "id")) eqn:Hid.
  - destruct (adaptReference_external _ _ _ _ E Hv Hid) as [Hrid ->].
    unfold adaptReference_w in E. rewrite Hv, Hid in E.
    rewrite Hr in E. cbn [negb] in E.
    destruct (convert_values (prop reference "values")) as [conv|e] eqn:Ec; [|discriminate].
    pose proof (convert_values_array _ _ Ec) as Harr.
    destruct (prop reference "values") as [| | | | |items| |] eqn:Hvals; try discriminate.
    inversion E; subst. exists items, conv. repeat split; auto.
  - assert (Harr : isArray (prop reference "values") = true).
    { unfold adaptReference_w in E. rewrite Hv, Hid in E.
      rewrite Hr in E. cbn [negb] in E.
      destruct (to_string_r fieldId); [|discriminate].
      destruct (convert_values (prop reference "values")) as [conv|e] eqn:Ec; [|discriminate].
      exact (convert_values_array _ _ Ec). }
    destruct (adaptReference_w_embedded _ _ _ _ E Harr Hid)
      as (fid & conv & Hfid & Hc & -> & ->).
    destruct (prop reference "values") as [| | | | |items| |] eqn:Hvals; try discriminate.
    exists items, conv. split; [reflexivity|]. split; [reflexivity|].
    split; [apply Hconv; exact Hc|].
    exists fid. repeat split; auto.
Qed.

Lemma reference_values_converted_witness :
  exists r m',
    adaptReference sample_reference (VStr "HAZARD_LEVEL") ∅ = (Ok r, m')
    /\ truthy (prop sample_reference "values") = true
    /\ exists items conv,
         prop sample_reference "values" = VArr items
         /\ prop r "values" = VArr conv
         /\ Forall2 (fun v c => prop c "key" = prop v "key"
                                /\ prop c "value"
                                   = or_else (prop v "display") (prop v "value"))
                    items conv
         /\ (if truthy (prop sample_reference "id")
             then prop r "id" = prop sample_reference "id" /\ m' = ∅
             else exists fid, to_string_r (VStr "HAZARD_LEVEL") = Ok fid
                              /\ prop r "id" = VStr (fid +:+ EMBEDDED_SUFFIX)
                              /\ m' = <[fid +:+ EMBEDDED_SUFFIX := conv]> ∅).
Proof.
  destruct (fst (adaptReference sample_reference (VStr "HAZARD_LEVEL") ∅))
    as [r|e] eqn:E; [|vm_compute in E; discriminate].
  exists r, (snd (adaptReference sample_reference (VStr "HAZARD_LEVEL") ∅)).
  assert (Hrun : adaptReference sample_reference (VStr "HAZARD_LEVEL") ∅
                 = (Ok r, snd (adaptReference sample_reference (VStr "HAZARD_LEVEL") ∅))).
  { rewrite <- E. apply surjective_pairing. }
  split; [exact Hrun|]. split; [reflexivity|].
  exact (reference_values_converted _ _ _ _ _ Hrun eq_refl).
Defined.

(** *** Window metadata *)

Lemma lookup_set_prop (k : string) (v : value) (props : list (string * value)) :
  lookup_prop k (set_prop k v props) = Some v.
Proof.
  induction props as [|[k' v'] r IH]; cbn [set_prop lookup_prop].
  - rewrite String.eqb_refl. reflexivity.
  - destruct (String.eqb k' k) eqn:E; cbn [lookup_prop]; rewrite E; auto.
Qed.

Lemma lookup_set_prop_other (k k' : string) (v : value) (props : list (string * value)) :
  k <> k' -> lookup_prop k (set_prop k' v props) = lookup_prop k props.
Proof.
  intros Hk. induction props as [|[k0 v0] r IH]; cbn [set_prop lookup_prop].
  - destruct (String.eqb k' k) eqn:E; [|reflexivity].
    apply String.eqb_eq in E. congruence.
  - destruct (String.eqb k0 k') eqn:E; cbn [lookup_prop].
    + apply String.eqb_eq in E. subst k0.
      destruct (String.eqb k' k) eqn:E'; [|reflexivity].
      apply String.eqb_eq in E'. congruence.
    + destruct (String.eqb k0 k); [reflexivity|exact IH].
Qed.

Lemma adaptMetadata_props (now : dates) (metadata : value) :
  exists props,
    adaptMetadata now metadata = VObj props
    /\ lookup_prop "fetchedAt" props = Some (VStr (fetchedAt now))
    /\ lookup_prop "adaptedAt" props = Some (VStr (adaptedAt now))
    /\ lookup_prop "originalFormat" props = Some (VStr "external-json")
    /\ lookup_prop "internalFormat" props = Some (VStr "adui-v1.3")
    /\ lookup_prop "source" props
       = Some (or_else (opt_prop metadata "source") (VStr "external-metadata-server"))
    /\ (forall k, ~ In k stamped_keys ->
                  lookup_prop k props = lookup_prop k (spread metadata)).
Proof.
  unfold adaptMetadata. eexists. split; [reflexivity|].
  fold (opt_prop metadata "source").
  split; [|split; [|split; [|split; [|split]]]].
  - rewrite !(lookup_set_prop_other "fetchedAt") by discriminate. apply lookup_set_prop.
  - rewrite !(lookup_set_prop_other "adaptedAt") by discriminate. apply lookup_set_prop.
  - rewrite !(lookup_set_prop_other "originalFormat") by discriminate.
    apply lookup_set_prop.
  - apply lookup_set_prop.
  - rewrite !(lookup_set_prop_other "source") by discriminate. apply lookup_set_prop.
  - intros k Hk. unfold stamped_keys in Hk. cbn [In] in Hk.
    rewrite !lookup_set_prop_other; [reflexivity| | | | |]; intros ->; tauto.
Qed.

(** X6.  The metadata of an adapted window.  The adapter's stamps win over
    whatever the document's metadata says: [fetchedAt] and [adaptedAt] are
    the adapter's own clock readings, one reading each, [fetchedAt] read
    first (nothing makes the two equal), [originalFormat] is ["external-json"],
    [internalFormat] is ["adui-v1.3"], and [source] is the document's own
    when that is truthy and ["external-metadata-server"] otherwise; every
    other key of the document's metadata is carried over unchanged. *)
Theorem metadata_stamped
    (now : MetadataAdapter.dates) (w out : value) (m m' : store) :
  adaptWindowDefinition now w m = (Ok out, m') ->
  prop (prop out "metadata") "fetchedAt" = VStr (fetchedAt now)
  /\ prop (prop out "metadata") "adaptedAt" = VStr (adaptedAt now)
  /\ prop (prop out "metadata") "originalFormat" = VStr "external-json"
  /\ prop (prop out "metadata") "internalFormat" = VStr "adui-v1.3"
  /\ prop (prop out "metadata") "source"
     = or_else (opt_prop (prop w "metadata") "source") (VStr "external-metadata-server")
  /\ (forall k, ~ In k stamped_keys ->
        exists props,
          prop out "metadata" = VObj props
          /\ lookup_prop k props = lookup_prop k (spread (prop w "metadata"))).
Proof.
  intros H. apply adaptWindowDefinition_ok in H as (_ & ts & ats & _ & -> & _).
  change (prop (windowObject now w (VArr ats)) "metadata")
    with (adaptMetadata now (prop w "metadata")).
  destruct (adaptMetadata_props now (prop w "metadata"))
    as (props & -> & H1 & H2 & H3 & H4 & H5 & H6).
  cbn [prop]. rewrite H1, H2, H3, H4, H5.
  repeat (split; [reflexivity|]).
  intros k Hk. exists props. split; [reflexivity|]. apply H6. exact Hk.
Qed.

Lemma metadata_stamped_witness :
  exists out,
    adaptWindowDefinition sample_dates stamped_doc ∅
      = (Ok out, snd (adaptWindowDefinition sample_dates stamped_doc ∅))
    /\ prop (prop out "metadata") "fetchedAt" = VStr "2025-01-01T00:00:00.000Z"
    /\ prop (prop out "metadata") "adaptedAt" = VStr "2025-01-01T00:00:00.001Z"
    /\ prop (prop out "metadata") "internalFormat" = VStr "adui-v1.3".
Proof.
  destruct (fst (adaptWindowDefinition sample_dates stamped_doc ∅))
    as [out|e] eqn:E; [|vm_compute in E; discriminate].
  assert (Hrun : adaptWindowDefinition sample_dates stamped_doc ∅
                 = (Ok out, snd (adaptWindowDefinition sample_dates
                                   stamped_doc ∅))).
  { rewrite <- E. apply surjective_pairing. }
  exists out. split; [exact Hrun|].
  destruct (metadata_stamped _ _ _ _ _ Hrun) as (H1 & H2 & _ & H4 & _).
  repeat split; assumption.
Defined.
End AdapterExtras.

(* ===================================================================== *)
(** * Further properties of the JSON import provider                      *)
(* ===================================================================== *)

Section ImportExtras.
Import JSONFileDataProvider ImportProps ExtraProps.

Lemma bind_ok_inv {S A B} (c : M S A) (k : A -> M S B) (s s' : S) (b : B) :
  bind c k s = (Ok b, s') -> exists a s1, c s = (Ok a, s1) /\ k a s1 = (Ok b, s').
Proof. unfold bind. destruct (c s) as [[a|e] s1]; [eauto|discriminate]. Qed.

Lemma last_log_append (e : ImportDiagnostics) (p : process) :
  last (importDiagnostics (this (log_append [e] p))) = Some e.
Proof. cbn. apply last_snoc. Qed.

Lemma stages_ok (env : io) (fileUri : string) (c : option string) (p p' : process)
      (b : bool) :
  stages env fileUri c p = (Ok b, p') ->
  b = true /\ exists d q, p' = log_append [diag "import_complete" true d] q.
Proof.
  unfold stages. intros H.
  do 9 (apply bind_ok_inv in H as (? & ? & _ & H)).
  apply bind_ok_inv in H as (? & q & Hlog & H).
  rewrite logDiagnostic_eq in Hlog. inversion Hlog; subst.
  inversion H; subst. split; [reflexivity|]. eauto.
Qed.

(** X7.  The outcome of an import and the session log agree.  An import that
    returns returns [true] and leaves [import_complete] as the last log
    entry; one that throws throws a plain [Error] whose message is
    "Failed to import JSON template: " followed by the message of the
    failing stage, and leaves an [import_failed] entry with that message
    (or "Unknown error" for an empty one) last.  So [lastImportSuccess] of
    [getProviderStatus] is true exactly when the import returned. *)
Theorem import_outcome_logged
    (env : io) (fileUri : string) (jsonContent : option string) (p : process) :
  match fst (importJSONTemplate env fileUri jsonContent p) with
  | Ok b =>
      b = true
      /\ exists d,
           last (getImportDiagnostics
                   (this (snd (importJSONTemplate env fileUri jsonContent p))))
           = Some (diag "import_complete" true d)
  | Throw e =>
      exists cause,
        e = Error ("Failed to import JSON template: " +:+ message cause)
        /\ last (getImportDiagnostics
                   (this (snd (importJSONTemplate env fileUri jsonContent p))))
           = Some (diag "import_failed" false
                     ("Error: " +:+ (if String.eqb (message cause) ""
                                     then "Unknown error" else message cause)))
  end
  /\ lastImportSuccess
       (getProviderStatus (this (snd (importJSONTemplate env fileUri jsonContent p))))
     = is_ok (fst (importJSONTemplate env fileUri jsonContent p)).
Proof.
  unfold importJSONTemplate. rewrite bind_modify. fold (reset_log p).
  rewrite (bind_eq _ _ _ _ _ (logDiagnostic_eq _ _ _ _)).
  unfold try_catch, getImportDiagnostics, getProviderStatus. cbn [lastImportSuccess].
  destruct (stages env fileUri jsonContent _) as [[b|e] p1] eqn:E.
  - cbn [fst snd is_ok]. apply stages_ok in E as (-> & d & q & ->).
    rewrite (last_log_append _ q). cbn [success]. split; [|reflexivity].
    split; [reflexivity|]. eauto.
  - unfold logError. rewrite (bind_eq _ _ _ _ _ (logDiagnostic_eq _ _ _ _)).
    cbn [throw fst snd is_ok]. rewrite (last_log_append _ p1). cbn [success].
    split; [|reflexivity]. exists e. split; reflexivity.
Qed.

(** *** Structural validation of the tabs *)

Lemma validateTabs_count (tabs : list value) (i : nat) (p : process) :
  forallb (fun t => negb (nullish t)) tabs = true ->
  exists invalid,
    validateTabs i tabs p = (Ok invalid, p)
    /\ List.length invalid = invalid_count tabs.
Proof.
  revert i. induction tabs as [|t r IH]; intros i H.
  - exists []. split; reflexivity.
  - cbn [forallb] in H. apply andb_prop in H as [Ht Hr].
    apply negb_true_iff in Ht.
    destruct (IH (S i) Hr) as (invalid & Hrun & Hlen).
    cbn [validateTabs]. monad_simpl. rewrite (bind_eq _ _ _ _ _ Hrun).
    unfold invalid_count, tab_ok in *. cbn [List.filter hasId hasFields ret].
    destruct (truthy (or_else (prop t "tabId") (prop t "id"))),
             (truthy (prop t "fields")), (isArray (prop t "fields"));
      cbn [negb andb orb]; eexists; (split; [reflexivity|]);
      cbn [List.length]; congruence.
Qed.

Lemma validateTemplateStructure_outcome (doc : value) (tabs : list value) (p : process) :
  truthy (or_else (prop doc "windowId") (prop doc "id")) = true ->
  truthy (prop doc "name") = true ->
  prop doc "tabs" = VArr tabs ->
  forallb (fun t => negb (nullish t)) tabs = true ->
  fst (validateTemplateStructure doc p)
  = (if (0 <? invalid_count tabs)%nat
     then Throw (Error (pretty (invalid_count tabs) +:+ " tabs have invalid structure"))
     else Ok tt).
Proof.
  intros Hid Hname Htabs Hobj.
  assert (Hn : nullish doc = false).
  { destruct doc; try reflexivity; cbn in Hname; discriminate. }
  unfold validateTemplateStructure.
  rewrite (bind_eq _ _ _ _ _ (logDiagnostic_eq _ _ _ _)).
  monad_simpl. rewrite Hid, Hname, Htabs. cbn [negb truthy isArray andb].
  cbn [MetadataAdapter.array_items].
  destruct (validateTabs_count tabs 0 (log_append
     [diag "structure_validation" true "Starting template structure validation"] p) Hobj)
    as (invalid & Hrun & Hlen).
  rewrite (bind_eq _ _ _ _ _ Hrun). rewrite Hlen.
  destruct (0 <? invalid_count tabs)%nat.
  - rewrite (bind_eq _ _ _ _ _ (logDiagnostic_eq _ _ _ _)). reflexivity.
  - rewrite logDiagnostic_eq. reflexivity.
Qed.

Lemma invalid_count_zero (tabs : list value) :
  invalid_count tabs = 0%nat <-> forallb tab_ok tabs = true.
Proof.
  unfold invalid_count. induction tabs as [|t r IH]; [split; reflexivity|].
  cbn [List.filter forallb]. destruct (tab_ok t); cbn [negb andb List.length].
  - exact IH.
  - split; discriminate.
Qed.

(** *** What each stage leaves alone *)

Section Preserves.
Variable R : process -> process -> Prop.
Hypothesis R_refl : forall p, R p p.
Hypothesis R_trans : forall p q r, R p q -> R q r -> R p r.

Lemma preserves_ret {A} (a : A) : preserves R (ret a).
Proof. intros p. apply R_refl. Qed.

Lemma preserves_throw {A} (e : js_error) : preserves R (A := A) (throw e).
Proof. intros p. apply R_refl. Qed.

Lemma preserves_lift {A} (r : result A) : preserves R (lift r).
Proof. intros p. apply R_refl. Qed.

Lemma preserves_bind {A B} (c : M process A) (k : A -> M process B) :
  preserves R c -> (forall a, preserves R (k a)) -> preserves R (bind c k).
Proof.
  intros Hc Hk p. unfold bind. specialize (Hc p).
  destruct (c p) as [[a|e] p1]; cbn [snd] in *; [|exact Hc].
  eapply R_trans; [exact Hc | apply Hk].
Qed.

Lemma preserves_try_catch {A} (c : M process A) (h : js_error -> M process A) :
  preserves R c -> (forall e, preserves R (h e)) -> preserves R (try_catch c h).
Proof.
  intros Hc Hh p. unfold try_catch. specialize (Hc p).
  destruct (c p) as [[a|e] p1]; cbn [snd] in *; [exact Hc|].
  eapply R_trans; [exact Hc | apply Hh].
Qed.

Lemma preserves_get_or (v : value) (p q : string) : preserves R (get_or v p q).
Proof.
  unfold get_or. apply preserves_bind; [apply preserves_lift|].
  intros a. destruct (truthy a); [apply preserves_ret | apply preserves_lift].
Qed.

Lemma preserves_forEach {A} (f : A -> M process unit) (xs : list A) :
  (forall x, preserves R (f x)) -> preserves R (forEach f xs).
Proof.
  intros Hf. induction xs as [|x r IH]; cbn [forEach]; [apply preserves_ret|].
  apply preserves_bind; [apply Hf | intros _; exact IH].
Qed.
End Preserves.

Lemma log_grows_refl (p : process) : log_grows p p.
Proof.
  exists []. destruct p as [[w r f t ts log] m]. unfold log_append, with_diagnostics.
  cbn. rewrite app_nil_r. reflexivity.
Qed.

Lemma log_grows_trans (p q r : process) : log_grows p q -> log_grows q r -> log_grows p r.
Proof. intros [a ->] [b ->]. exists (a ++ b). apply log_append_append. Qed.

Lemma same_stored_refl (p : process) : same_stored p p.
Proof. repeat split. Qed.

Lemma same_stored_trans (p q r : process) :
  same_stored p q -> same_stored q r -> same_stored p r.
Proof. unfold same_stored. intros (?&?&?&?&?) (?&?&?&?&?). repeat split; congruence. Qed.

Lemma log_grows_stored (p q : process) : log_grows p q -> same_stored p q.
Proof. intros [es ->]. repeat split. Qed.

Lemma grows_logDiagnostic (st : string) (b : bool) (d : string) :
  preserves log_grows (logDiagnostic st b d).
Proof. intros p. rewrite logDiagnostic_eq. eexists; reflexivity. Qed.

Lemma grows_logError (st : string) (e : js_error) : preserves log_grows (logError st e).
Proof. apply grows_logDiagnostic. Qed.

Lemma stored_logDiagnostic (st : string) (b : bool) (d : string) :
  preserves same_stored (logDiagnostic st b d).
Proof. intros p. apply log_grows_stored, grows_logDiagnostic. Qed.

Lemma stored_storeReference (refId values : value) :
  preserves same_stored (storeReference refId values).
Proof. intros p. repeat split. Qed.

Ltac grows_tac :=
  repeat first
    [ apply (preserves_ret _ log_grows_refl)
    | apply (preserves_throw _ log_grows_refl)
    | apply (preserves_get_or _ log_grows_refl log_grows_trans)
    | apply grows_logError
    | apply grows_logDiagnostic
    | apply (preserves_lift _ log_grows_refl)
    | apply (preserves_bind _ log_grows_trans); [|intros ?]
    | apply (preserves_try_catch _ log_grows_trans); [|intros ?]
    | match goal with
      | |- preserves _ (if ?b then _ else _) => destruct b
      | |- preserves _ (match ?x with _ => _ end) => destruct x
      end ].

Ltac stored_tac :=
  repeat first
    [ apply (preserves_ret _ same_stored_refl)
    | apply (preserves_throw _ same_stored_refl)
    | apply stored_logDiagnostic
    | apply stored_storeReference
    | apply (preserves_lift _ same_stored_refl)
    | apply (preserves_bind _ same_stored_trans); [|intros ?]
    | apply (preserves_forEach _ same_stored_refl same_stored_trans); intros ?
    | match goal with
      | |- preserves _ (if ?b then _ else _) => destruct b
      | |- preserves _ (match ?x with _ => _ end) => destruct x
      end ].

Lemma grows_validateTabs (tabs : list value) (i : nat) :
  preserves log_grows (validateTabs i tabs).
Proof.
  revert i. induction tabs as [|t r IH]; intros i; cbn [validateTabs]; unfold get.
  - grows_tac.
  - apply (preserves_bind _ log_grows_trans); [grows_tac|intros ?].
    apply (preserves_bind _ log_grows_trans); [grows_tac|intros ?].
    apply (preserves_bind _ log_grows_trans); [apply IH|intros ?]. grows_tac.
Qed.

Lemma grows_validateFileAccess (fileUri : string) :
  preserves log_grows (validateFileAccess fileUri).
Proof. apply grows_logDiagnostic. Qed.

Lemma grows_readFileContent (env : io) (fileUri : string) (c : option string) :
  preserves log_grows (readFileContent env fileUri c).
Proof. unfold readFileContent, readFromFileSystem. grows_tac. Qed.

Lemma grows_parseJSONContent (env : io) (rawJson : string) :
  preserves log_grows (parseJSONContent env rawJson).
Proof. unfold parseJSONContent, Object_keys_check. grows_tac. Qed.

Lemma grows_validateTemplateStructure (template : value) :
  preserves log_grows (validateTemplateStructure template).
Proof.
  unfold validateTemplateStructure, get.
  do 4 (apply (preserves_bind _ log_grows_trans); [grows_tac|intros ?]).
  destruct (negb _); [grows_tac|]. destruct (negb _); [grows_tac|].
  destruct (negb _); [grows_tac|].
  apply (preserves_bind _ log_grows_trans); [apply grows_validateTabs|intros ?].
  grows_tac.
Qed.

Lemma grows_extractAndAnalyzeWindowId (env : io) (template : value) :
  preserves log_grows (extractAndAnalyzeWindowId env template).
Proof. unfold extractAndAnalyzeWindowId, get, call_toUpperCase. grows_tac. Qed.

Lemma stored_extractReferenceData (template : value) :
  preserves same_stored (extractReferenceData template).
Proof.
  unfold extractReferenceData, extractFieldReference, iterate, get, to_string.
  stored_tac.
Qed.

(** X8.  Structural validation of a document that has an id, a name and a tabs
    array of objects: it fails exactly when some tab lacks an id or a
    [fields] array, and the message gives the number of such tabs; in
    particular a document with an empty tabs array passes.  Either way the
    stage only writes to the session log. *)
Theorem tabs_validation_counts
    (doc : value) (tabs : list value) (p : process) :
  truthy (or_else (prop doc "windowId") (prop doc "id")) = true ->
  truthy (prop doc "name") = true ->
  prop doc "tabs" = VArr tabs ->
  forallb (fun t => negb (nullish t)) tabs = true ->
  fst (validateTemplateStructure doc p)
  = (if (0 <? invalid_count tabs)%nat
     then Throw (Error (pretty (invalid_count tabs) +:+ " tabs have invalid structure"))
     else Ok tt)
  /\ (invalid_count tabs = 0%nat <-> forallb tab_ok tabs = true)
  /\ log_grows p (snd (validateTemplateStructure doc p)).
Proof.
  intros Hid Hname Htabs Hobj.
  split; [apply validateTemplateStructure_outcome; assumption|].
  split; [apply invalid_count_zero | apply grows_validateTemplateStructure].
Qed.

Lemma tabs_validation_counts_witness :
  fst (validateTemplateStructure
         (VObj [("id", VStr "W"); ("name", VStr "W");
                ("tabs", VArr [VObj [("tabId", VStr "A"); ("fields", VArr [])];
                               VObj [("tabId", VStr "B")];
                               VObj [("fields", VArr [])]])])
         (fresh_process ∅))
  = Throw (Error "2 tabs have invalid structure").
Proof.
  exact (proj1 (tabs_validation_counts
                  (VObj [("id", VStr "W"); ("name", VStr "W");
                         ("tabs", VArr [VObj [("tabId", VStr "A"); ("fields", VArr [])];
                                        VObj [("tabId", VStr "B")];
                                        VObj [("fields", VArr [])]])])
                  _ (fresh_process ∅) eq_refl eq_refl eq_refl eq_refl)).
Defined.

(** *** What a successful import has done *)

Lemma readFileContent_inv (env : io) (fileUri : string) (c : option string)
      (p p' : process) (raw : string) :
  readFileContent env fileUri c p = (Ok raw, p') -> raw_content env fileUri c = Ok raw.
Proof.
  unfold readFileContent, raw_content.
  assert (Hfs : readFromFileSystem env fileUri p = (Ok raw, p') ->
                readAsStringAsync env fileUri = Ok raw).
  { unfold readFromFileSystem. rewrite (bind_eq _ _ _ _ _ (logDiagnostic_eq _ _ _ _)).
    unfold try_catch. rewrite bind_lift.
    destruct (readAsStringAsync env fileUri) as [x|e].
    - rewrite (bind_eq _ _ _ _ _ (logDiagnostic_eq _ _ _ _)). cbn [ret].
      intros H; inversion H; reflexivity.
    - unfold logError. rewrite (bind_eq _ _ _ _ _ (logDiagnostic_eq _ _ _ _)).
      cbn [throw]. discriminate. }
  destruct c as [content|]; [|exact Hfs].
  destruct (String.eqb content ""); cbn [negb]; [exact Hfs|].
  rewrite (bind_eq _ _ _ _ _ (logDiagnostic_eq _ _ _ _)). cbn [ret].
  intros H; inversion H; reflexivity.
Qed.

Lemma parseJSONContent_inv (env : io) (raw : string) (p p' : process) (doc : value) :
  parseJSONContent env raw p = (Ok doc, p') ->
  JSON_parse env raw = Ok doc /\ nullish doc = false.
Proof.
  unfold parseJSONContent. rewrite (bind_eq _ _ _ _ _ (logDiagnostic_eq _ _ _ _)).
  unfold try_catch. rewrite bind_lift.
  destruct (JSON_parse env raw) as [x|e].
  - unfold Object_keys_check. destruct (nullish x) eqn:Hn.
    + rewrite bind_throw. unfold logError.
      rewrite (bind_eq _ _ _ _ _ (logDiagnostic_eq _ _ _ _)). cbn [throw]. discriminate.
    + rewrite bind_ret. rewrite (bind_eq _ _ _ _ _ (logDiagnostic_eq _ _ _ _)). cbn [ret].
      intros H; inversion H; subst. auto.
  - unfold logError. rewrite (bind_eq _ _ _ _ _ (logDiagnostic_eq _ _ _ _)).
    cbn [throw]. discriminate.
Qed.

Lemma adaptTemplateToADFormat_inv (env : io) (doc wid : value) (p p' : process)
      (out : value) :
  adaptTemplateToADFormat env doc wid p = (Ok out, p') ->
  MetadataAdapter.adaptWindowDefinition (adapterDates env) doc (embeddedReferences p)
    = (Ok out, embeddedReferences p')
  /\ windowData (this p') = windowData (this p)
  /\ formData (this p') = formData (this p).
Proof.
  unfold adaptTemplateToADFormat. rewrite (bind_eq _ _ _ _ _ (logDiagnostic_eq _ _ _ _)).
  unfold try_catch. unfold call_adapter at 1. unfold bind at 1.
  cbn [log_append with_diagnostics embeddedReferences this].
  destruct (MetadataAdapter.adaptWindowDefinition (adapterDates env) doc (embeddedReferences p))
    as [[x|e] m'].
  - rewrite (bind_eq _ _ _ _ _ (logDiagnostic_eq _ _ _ _)). cbn [ret].
    intros H; inversion H; subst. repeat split.
  - unfold logError. rewrite (bind_eq _ _ _ _ _ (logDiagnostic_eq _ _ _ _)).
    cbn [throw]. discriminate.
Qed.

Lemma storeImportedData_inv (env : io) (doc out : value) (p p' : process) :
  storeImportedData env doc out p = (Ok tt, p') ->
  windowData (this p') = map_set (prop out "id") out (windowData (this p))
  /\ formData (this p') = formData (this p)
  /\ importedTemplate (this p') = doc
  /\ importTimestamp (this p') = Some (clock env)
  /\ embeddedReferences p' = embeddedReferences p.
Proof.
  unfold storeImportedData. rewrite (bind_eq _ _ _ _ _ (logDiagnostic_eq _ _ _ _)).
  destruct (nullish out) eqn:Hn.
  - rewrite bind_get_nullish by assumption. discriminate.
  - monad_simpl. rewrite logDiagnostic_eq. intros H; inversion H; subst. repeat split.
Qed.

Lemma import_success_inv (env : io) (fileUri : string) (c : option string)
      (p p' : process) (b : bool) :
  importJSONTemplate env fileUri c p = (Ok b, p') ->
  exists raw doc out,
    raw_content env fileUri c = Ok raw
    /\ JSON_parse env raw = Ok doc
    /\ MetadataAdapter.adaptWindowDefinition (adapterDates env) doc (embeddedReferences p)
       = (Ok out, embeddedReferences p')
    /\ windowData (this p') = map_set (prop out "id") out (windowData (this p))
    /\ formData (this p') = formData (this p)
    /\ importedTemplate (this p') = doc
    /\ importTimestamp (this p') = Some (clock env).
Proof.
  unfold importJSONTemplate. rewrite bind_modify. fold (reset_log p).
  rewrite (bind_eq _ _ _ _ _ (logDiagnostic_eq _ _ _ _)).
  unfold try_catch.
  set (p0 := log_append _ (reset_log p)).
  assert (G0 : same_stored p p0) by (repeat split).
  clearbody p0.
  destruct (stages env fileUri c p0) as [[b'|e] q] eqn:E.
  2:{ unfold logError. rewrite (bind_eq _ _ _ _ _ (logDiagnostic_eq _ _ _ _)).
      cbn [throw]. discriminate. }
  intros H; inversion H; subst b' q; clear H.
  unfold stages in E.
  apply bind_ok_inv in E as (? & s1 & H1 & E).
  apply bind_ok_inv in E as (raw & s2 & H2 & E).
  apply bind_ok_inv in E as (doc & s3 & H3 & E).
  apply bind_ok_inv in E as (? & s4 & H4 & E).
  apply bind_ok_inv in E as (wid & s5 & H5 & E).
  apply bind_ok_inv in E as (out & s6 & H6 & E).
  apply bind_ok_inv in E as ([] & s7 & H7 & E).
  apply bind_ok_inv in E as (? & s8 & H8 & E).
  apply bind_ok_inv in E as (shown & s9 & H9 & E).
  apply bind_ok_inv in E as (? & s10 & H10 & E).
  inversion E; subst; clear E.
  exists raw, doc, out.
  pose proof (grows_validateFileAccess fileUri p0) as G1. rewrite H1 in G1.
  pose proof (grows_readFileContent env fileUri c s1) as G2. rewrite H2 in G2.
  pose proof (grows_parseJSONContent env raw s2) as G3. rewrite H3 in G3.
  pose proof (grows_validateTemplateStructure doc s3) as G4. rewrite H4 in G4.
  pose proof (grows_extractAndAnalyzeWindowId env doc s4) as G5. rewrite H5 in G5.
  pose proof (stored_extractReferenceData doc s7) as G8. rewrite H8 in G8.
  assert (G10 : same_stored s9 p').
  { rewrite logDiagnostic_eq in H10. inversion H10. repeat split. }
  cbn [snd] in *.
  apply log_grows_stored in G1 as (A1 & B1 & C1 & D1 & F1).
  apply log_grows_stored in G2 as (A2 & B2 & C2 & D2 & F2).
  apply log_grows_stored in G3 as (A3 & B3 & C3 & D3 & F3).
  apply log_grows_stored in G4 as (A4 & B4 & C4 & D4 & F4).
  apply log_grows_stored in G5 as (A5 & B5 & C5 & D5 & F5).
  destruct G8 as (A8 & B8 & C8 & D8 & F8).
  destruct G10 as (A10 & B10 & C10 & D10 & F10).
  apply adaptTemplateToADFormat_inv in H6 as (Had & A6 & B6).
  apply storeImportedData_inv in H7 as (A7 & B7 & C7 & D7 & F7).
  assert (s9 = s8) as -> by (unfold to_string, lift in H9; inversion H9; reflexivity).
  destruct G0 as (A0 & B0 & C0 & D0 & F0).
  split; [eapply readFileContent_inv; exact H2|].
  split; [exact (proj1 (parseJSONContent_inv _ _ _ _ _ H3))|].
  split.
  { rewrite F10, F8, F7. rewrite F5, F4, F3, F2, F1, F0 in Had. exact Had. }
  split; [rewrite A10, A8, A7, A6, A5, A4, A3, A2, A1, A0; reflexivity|].
  split; [rewrite B10, B8, B7, B6, B5, B4, B3, B2, B1, B0; reflexivity|].
  split; [rewrite C10, C8, C7; reflexivity|].
  rewrite D10, D8, D7; reflexivity.
Qed.

Lemma adapted_window_id (now : MetadataAdapter.dates) (w out : value) (m m' : MetadataAdapter.store) :
  MetadataAdapter.adaptWindowDefinition now w m = (Ok out, m') ->
  nullish w = false
  /\ nullish out = false
  /\ prop out "id" = or_else (prop w "windowId") (prop w "id").
Proof.
  intros H. apply adaptWindowDefinition_ok in H as (Hn & ts & ats & _ & -> & _).
  repeat split. exact Hn.
Qed.

(** X9.  What an import that returns has done: the content it read parsed to a
    document, the adapter ran on that document from the store the process
    had and left its own store behind, and the adapted window was filed in
    the window table under its own id, [windowId || id] of the document,
    replacing an earlier window with that id and leaving the saved forms
    alone.  After it the provider is connected and reports imported data
    with the import's timestamp. *)
Theorem import_success_stores
    (env : io) (fileUri : string) (jsonContent : option string)
    (p p' : process) (b : bool) :
  importJSONTemplate env fileUri jsonContent p = (Ok b, p') ->
  exists raw doc out,
    raw_content env fileUri jsonContent = Ok raw
    /\ JSON_parse env raw = Ok doc
    /\ MetadataAdapter.adaptWindowDefinition (adapterDates env) doc (embeddedReferences p)
       = (Ok out, embeddedReferences p')
    /\ windowData (this p')
       = map_set (or_else (prop doc "windowId") (prop doc "id")) out (windowData (this p))
    /\ formData (this p') = formData (this p)
    /\ isConnected (this p') = Ok true
    /\ hasImportedData (getProviderStatus (this p')) = true
    /\ statusTimestamp (getProviderStatus (this p')) = Some (clock env).
Proof.
  intros H.
  apply import_success_inv in H as (raw & doc & out & Hr & Hp & Had & Hw & Hf & Ht & Hts).
  exists raw, doc, out.
  destruct (adapted_window_id _ _ _ _ _ Had) as (Hn & _ & Hid).
  rewrite Hid in Hw.
  split; [exact Hr|]. split; [exact Hp|]. split; [exact Had|]. split; [exact Hw|].
  split; [exact Hf|].
  split; [unfold isConnected; rewrite Hw, map_set_nonempty; reflexivity|].
  unfold getProviderStatus. cbn [hasImportedData statusTimestamp].
  rewrite Ht, Hts. split; [|reflexivity].
  destruct doc; try reflexivity; discriminate.
Qed.

(** *** Importing a well-formed document *)

Lemma bind_fst {S A B} (c : M S A) (k : A -> M S B) (s : S) (a : A) :
  fst (c s) = Ok a -> bind c k s = k a (snd (c s)).
Proof. unfold bind. destruct (c s) as [r s1]. cbn. intros ->. reflexivity. Qed.

Lemma forEach_ok {A} (f : A -> M process unit) (xs : list A) :
  (forall x s, In x xs -> fst (f x s) = Ok tt) ->
  forall s, fst (forEach f xs s) = Ok tt.
Proof.
  induction xs as [|x r IH]; intros Hf s; cbn [forEach]; [reflexivity|].
  rewrite (bind_fst _ _ _ tt) by (apply Hf; left; reflexivity).
  apply IH. intros y s' Hy. apply Hf. right; exact Hy.
Qed.

Lemma extractFieldReference_ok (f : value) (s : process) :
  valid_field f = true -> fst (extractFieldReference f s) = Ok tt.
Proof.
  unfold valid_field. intros H.
  repeat (apply andb_prop in H as [H ?]).
  apply negb_true_iff in H.
  unfold extractFieldReference. monad_simpl.
  destruct (truthy (prop f "reference")) eqn:Hr; cbn [negb]; [|reflexivity].
  pose proof (truthy_not_nullish _ Hr) as Hrn.
  unfold valid_reference in *. rewrite Hr in *.
  match goal with Hv : _ && _ = true |- _ => apply andb_prop in Hv as [Hid Hv] end.
  monad_simpl.
  destruct (truthy (prop (prop f "reference") "values")) eqn:Hvals; cbn [negb];
    [|reflexivity].
  destruct (prop (prop f "reference") "values") as [| | | | |items| |] eqn:Hitems;
    try discriminate.
  monad_simpl.
  destruct (truthy (prop (prop f "reference") "id")).
  - monad_simpl. unfold storeReference. monad_simpl.
    destruct (printable_ok _ (scalar_printable _ Hid)) as [sid Hsid].
    rewrite (bind_to_string _ _ _ _ Hsid).
    rewrite (bind_to_string _ _ _ (pretty (List.length items))) by reflexivity.
    reflexivity.
  - rewrite bind_assoc. monad_simpl.
    match goal with Hf : scalar (prop f "fieldId") = true |- _ =>
      destruct (printable_ok _ (scalar_printable _ Hf)) as [fid Hfid] end.
    rewrite bind_assoc. rewrite (bind_to_string _ _ _ _ Hfid).
    monad_simpl. unfold storeReference. monad_simpl.
    rewrite (bind_to_string _ _ _ ("REF_" +:+ fid)) by reflexivity.
    rewrite (bind_to_string _ _ _ (pretty (List.length items))) by reflexivity.
    reflexivity.
Qed.

Lemma extractReferenceData_ok (doc : value) (s : process) :
  valid_doc doc = true -> fst (extractReferenceData doc s) = Ok tt.
Proof.
  unfold valid_doc. intros H. apply andb_prop in H as [Hn H].
  apply negb_true_iff in Hn.
  destruct (prop doc "tabs") as [| | | | |tabs| |] eqn:Ht; try discriminate.
  unfold extractReferenceData.
  rewrite (bind_eq _ _ _ _ _ (logDiagnostic_eq _ _ _ _)). monad_simpl.
  rewrite Ht. cbn [iterate]. monad_simpl.
  rewrite (bind_fst _ _ _ tt).
  - rewrite logDiagnostic_eq. reflexivity.
  - apply forEach_ok. intros t s' Hin.
    pose proof (forallb_In _ _ _ H Hin) as Hvt. unfold valid_tab in Hvt.
    apply andb_prop in Hvt as [Hvt Hfs]. apply andb_prop in Hvt as [Htn _].
    apply negb_true_iff in Htn.
    destruct (prop t "fields") as [| | | | |fields| |] eqn:Hf; try discriminate.
    monad_simpl. rewrite Hf. cbn [iterate]. monad_simpl.
    apply forEach_ok. intros f s'' Hfin. apply extractFieldReference_ok.
    eapply forallb_In; eassumption.
Qed.

Lemma extractAndAnalyzeWindowId_ok (env : io) (doc : value) (wid : string)
      (s : process) :
  nullish doc = false ->
  or_else (prop doc "windowId") (prop doc "id") = VStr wid ->
  wid <> "" ->
  fst (extractAndAnalyzeWindowId env doc s) = Ok (VStr wid).
Proof.
  intros Hn Hid Hne.
  assert (Ht : truthy (VStr wid) = true) by (destruct wid; [congruence|reflexivity]).
  unfold extractAndAnalyzeWindowId.
  rewrite (bind_eq _ _ _ _ _ (logDiagnostic_eq _ _ _ _)). monad_simpl.
  unfold or_else in Hid.
  destruct (truthy (prop doc "windowId")) eqn:Hw.
  - rewrite Hid. monad_simpl. rewrite Ht. cbn [negb].
    rewrite (bind_eq _ _ _ _ _ (logDiagnostic_eq _ _ _ _)).
    rewrite (bind_eq _ _ _ _ _ (logDiagnostic_eq _ _ _ _)). reflexivity.
  - rewrite Hid, Ht. monad_simpl. rewrite Ht. cbn [negb].
    rewrite (bind_eq _ _ _ _ _ (logDiagnostic_eq _ _ _ _)).
    rewrite (bind_eq _ _ _ _ _ (logDiagnostic_eq _ _ _ _)). reflexivity.
Qed.

Lemma adaptTemplateToADFormat_ok (env : io) (doc wid : value) (s : process) :
  valid_doc doc = true ->
  exists out, fst (adaptTemplateToADFormat env doc wid s) = Ok out
              /\ nullish out = false.
Proof.
  intros Hv.
  destruct (valid_doc_adapted (adapterDates env) doc
              (embeddedReferences (log_append
                 [diag "metadata_adaptation" true "Starting MetadataAdapter conversion"] s))
              Hv) as (out & m' & Had & _).
  exists out. split; [|exact (proj1 (proj2 (adapted_window_id _ _ _ _ _ Had)))].
  unfold adaptTemplateToADFormat. rewrite (bind_eq _ _ _ _ _ (logDiagnostic_eq _ _ _ _)).
  unfold try_catch. unfold call_adapter at 1. unfold bind at 1. rewrite Had.
  rewrite (bind_eq _ _ _ _ _ (logDiagnostic_eq _ _ _ _)). reflexivity.
Qed.

Lemma tab_ok_object (t : value) : tab_ok t = true -> negb (nullish t) = true.
Proof.
  unfold tab_ok. intros H. apply andb_prop in H as [_ H]. apply andb_prop in H as [H _].
  destruct t; try reflexivity; cbn in H; discriminate.
Qed.

Lemma import_succeeds (env : io) (fileUri : string) (c : option string) (p : process)
      (raw : string) (doc : value) (wid : string) :
  raw_content env fileUri c = Ok raw ->
  JSON_parse env raw = Ok doc ->
  valid_doc doc = true ->
  or_else (prop doc "windowId") (prop doc "id") = VStr wid ->
  wid <> "" ->
  truthy (prop doc "name") = true ->
  forallb tab_ok (doc_tabs doc) = true ->
  fst (importJSONTemplate env fileUri c p) = Ok true.
Proof.
  intros Hraw Hparse Hv Hid Hne Hname Htabs.
  assert (Hn : nullish doc = false).
  { unfold valid_doc in Hv. apply andb_prop in Hv as [Hv _].
    apply negb_true_iff in Hv. exact Hv. }
  assert (Ht : truthy (VStr wid) = true) by (destruct wid; [congruence|reflexivity]).
  unfold importJSONTemplate. rewrite bind_modify.
  rewrite (bind_eq _ _ _ _ _ (logDiagnostic_eq _ _ _ _)).
  unfold try_catch.
  match goal with |- context [stages env fileUri c ?q] => set (p0 := q) end.
  clearbody p0.
  assert (Hs : fst (stages env fileUri c p0) = Ok true).
  { unfold stages, validateFileAccess.
    rewrite (bind_eq _ _ _ _ _ (logDiagnostic_eq _ _ _ _)).
    match goal with |- fst (bind _ _ ?q) = _ =>
      destruct (readFileContent_ok env fileUri c raw q Hraw) as (read & Hread & _) end.
    rewrite (bind_eq _ _ _ _ _ Hread).
    rewrite (bind_eq _ _ _ _ _ (parseJSONContent_ok env raw doc _ Hparse Hn)).
    rewrite (bind_fst _ _ _ tt).
    2:{ unfold doc_tabs in Htabs.
        destruct (prop doc "tabs") as [| | | | |tabs| |] eqn:Etabs;
          try (unfold valid_doc in Hv; rewrite Etabs in Hv;
               apply andb_prop in Hv as [_ Hv]; discriminate).
        cbn [MetadataAdapter.array_items] in Htabs.
        rewrite (validateTemplateStructure_outcome doc tabs); auto.
        - rewrite (proj2 (invalid_count_zero tabs) Htabs). reflexivity.
        - rewrite Hid. exact Ht.
        - apply forallb_forall. intros t Hin. apply tab_ok_object.
          eapply forallb_In; eassumption. }
    rewrite (bind_fst _ _ _ (VStr wid))
      by (apply extractAndAnalyzeWindowId_ok; assumption).
    match goal with |- fst (bind _ _ ?q) = _ =>
      destruct (adaptTemplateToADFormat_ok env doc (VStr wid) q Hv) as (out & Hout & Hon) end.
    rewrite (bind_fst _ _ _ out) by exact Hout.
    rewrite (bind_fst _ _ _ tt).
    2:{ unfold storeImportedData.
        rewrite (bind_eq _ _ _ _ _ (logDiagnostic_eq _ _ _ _)). monad_simpl.
        rewrite logDiagnostic_eq. reflexivity. }
    rewrite (bind_fst _ _ _ tt) by (apply extractReferenceData_ok; exact Hv).
    rewrite (bind_to_string _ _ _ wid) by reflexivity.
    rewrite (bind_eq _ _ _ _ _ (logDiagnostic_eq _ _ _ _)). reflexivity. }
  destruct (stages env fileUri c p0) as [[b|e] q]; cbn [fst] in Hs; [|discriminate].
  inversion Hs; subst. reflexivity.
Qed.

Lemma same_value_zero_string (a b : string) :
  same_value_zero (VStr a) (VStr b) = String.eqb a b.
Proof. reflexivity. Qed.

Lemma map_get_set {V} (k : value) (v : V) (m : list (value * V)) :
  same_value_zero k k = true -> map_get k (map_set k v m) = Some v.
Proof.
  intros Hk. induction m as [|[k' v'] r IH]; cbn [map_set map_get].
  - rewrite Hk. reflexivity.
  - destruct (same_value_zero k' k) eqn:E; cbn [map_get]; rewrite E; auto.
Qed.

Lemma map_set_keys {V} (k : value) (v : V) (m : list (value * V)) (P : value -> Prop) :
  P k -> Forall (fun kv => P (fst kv)) m -> Forall (fun kv => P (fst kv)) (map_set k v m).
Proof.
  intros Hk. induction 1 as [|[k' v'] r Hx Hr IH]; cbn [map_set].
  - repeat constructor. exact Hk.
  - destruct (same_value_zero k' k); constructor; cbn in *; auto.
Qed.

Lemma join_strings (sep : string) (xs : list value) :
  Forall (fun x => exists s, x = VStr s) xs -> exists shown, join_r sep xs = Ok shown.
Proof.
  induction 1 as [|x r [sx ->] _ [sr IH]]; cbn [join_r]; [eauto|].
  cbn [to_string_r]. destruct r; [eauto|]. rewrite IH. eauto.
Qed.

Lemma store_keys_embedded (now : MetadataAdapter.dates) (w out : value) (m m' : MetadataAdapter.store)
      (k : string) (vs : list value) :
  MetadataAdapter.adaptWindowDefinition now w m = (Ok out, m') ->
  m' !! k = Some vs -> MetadataAdapter.isEmbeddedReference k = true.
Proof.
  intros H Hk. pose proof (adapted_window_id _ _ _ _ _ H) as (Hn & _).
  rewrite adaptWindowDefinition_eq, Hn in H. unfold run_w in H.
  inversion H; subst. apply apply_writes_lookup in Hk as [Hk|Hk].
  - apply adaptWindow_w_writes in Hk as (f & _ & _ & fid & _ & -> & _).
    apply endsWith_iff. exists fid. reflexivity.
  - rewrite lookup_empty in Hk. discriminate.
Qed.

(** X10.  Import followed by the interface getters.  A document of the wire
    shape with a non-empty string [windowId || id], a truthy name and tabs
    that each have an id and a fields array is imported (the call returns
    [true]), and afterwards, on a provider whose window table is keyed by
    strings, [getWindowDefinition] of that id returns exactly the window
    the adapter makes of the document, and [getReferenceValues] of every id
    in the adapter's store returns the list stored there. *)
Theorem import_round_trip
    (env : io) (fileUri : string) (jsonContent : option string) (p : process)
    (raw : string) (doc : value) (wid : string) :
  raw_content env fileUri jsonContent = Ok raw ->
  JSON_parse env raw = Ok doc ->
  valid_doc doc = true ->
  or_else (prop doc "windowId") (prop doc "id") = VStr wid ->
  wid <> "" ->
  truthy (prop doc "name") = true ->
  forallb tab_ok (doc_tabs doc) = true ->
  Forall string_key (windowData (this p)) ->
  exists out p',
    importJSONTemplate env fileUri jsonContent p = (Ok true, p')
    /\ MetadataAdapter.adaptWindowDefinition (adapterDates env) doc (embeddedReferences p)
       = (Ok out, embeddedReferences p')
    /\ getWindowDefinition wid (this p') = Ok out
    /\ (forall rid vs, embeddedReferences p' !! rid = Some vs ->
                       getReferenceValues rid p' = Ok (VArr vs)).
Proof.
  intros Hraw Hparse Hv Hid Hne Hname Htabs Hkeys.
  pose proof (import_succeeds env fileUri jsonContent p raw doc wid
                Hraw Hparse Hv Hid Hne Hname Htabs) as Hok.
  destruct (importJSONTemplate env fileUri jsonContent p) as [r p'] eqn:E.
  cbn [fst] in Hok. subst r.
  destruct (import_success_inv _ _ _ _ _ _ E)
    as (raw' & doc' & out & Hr' & Hp' & Had & Hw & _).
  assert (raw' = raw) as -> by congruence.
  assert (doc' = doc) as -> by congruence.
  exists out, p'. split; [reflexivity|]. split; [exact Had|].
  destruct (adapted_window_id _ _ _ _ _ Had) as (_ & Hon & Hoid).
  rewrite Hid in Hoid. rewrite Hoid in Hw.
  split.
  - unfold getWindowDefinition. rewrite Hw.
    destruct (join_strings ", " (List.map fst (map_set (VStr wid) out (windowData (this p)))))
      as [shown ->].
    { apply Forall_map.
      apply (map_set_keys (VStr wid) out _ (fun k => exists s, k = VStr s)); [eauto|].
      exact Hkeys. }
    rewrite map_get_set by (cbn; apply String.eqb_refl).
    destruct out; try reflexivity; discriminate.
  - intros rid vs Hrid. unfold getReferenceValues.
    rewrite (store_keys_embedded _ _ _ _ _ _ _ Had Hrid).
    unfold MetadataAdapter.getEmbeddedReferenceValues. rewrite Hrid. reflexivity.
Qed.

Lemma import_round_trip_witness :
  exists out p',
    importJSONTemplate (env_of sample_doc) "file:///site-audit.json" (Some "{...}")
      (fresh_process ∅) = (Ok true, p')
    /\ MetadataAdapter.adaptWindowDefinition (adapterDates (env_of sample_doc)) sample_doc
         (embeddedReferences (fresh_process ∅)) = (Ok out, embeddedReferences p')
    /\ getWindowDefinition "SITE_AUDIT" (this p') = Ok out
    /\ (forall rid vs, embeddedReferences p' !! rid = Some vs ->
                       getReferenceValues rid p' = Ok (VArr vs)).
Proof.
  apply (import_round_trip (env_of sample_doc) "file:///site-audit.json" (Some "{...}")
           (fresh_process ∅) "{...}" sample_doc "SITE_AUDIT"); try reflexivity.
  - discriminate.
  - constructor.
Defined.

Lemma import_success_stores_witness :
  exists p',
    import_of sample_doc "file:///site-audit.json" = (Ok true, p')
    /\ isConnected (this p') = Ok true
    /\ hasImportedData (getProviderStatus (this p')) = true.
Proof.
  assert (Hf : fst (import_of sample_doc "file:///site-audit.json") = Ok true)
    by (vm_compute; reflexivity).
  assert (Hrun : import_of sample_doc "file:///site-audit.json"
                 = (Ok true, snd (import_of sample_doc "file:///site-audit.json"))).
  { rewrite <- Hf. apply surjective_pairing. }
  exists (snd (import_of sample_doc "file:///site-audit.json")).
  split; [exact Hrun|].
  destruct (import_success_stores _ _ _ _ _ _ Hrun)
    as (raw & doc & out & _ & _ & _ & _ & _ & Hc & Hh & _).
  split; assumption.
Defined.

(** *** The provider's own copy of the inline values *)

Lemma snd_to_string {B} (v : value) (k : string -> M process B) (s : process) :
  (forall x s', snd (k x s') = s') -> snd (bind (to_string v) k s) = s.
Proof.
  intros Hk. unfold to_string. rewrite bind_lift.
  destruct (to_string_r v); [apply Hk | reflexivity].
Qed.

(** X11.  Reference extraction files the inline values of a field, unconverted,
    in the provider's reference table: under the reference's own id when it
    has one, otherwise under ["REF_" + fieldId].  Only [fieldId] is read for
    that key, so a field identified by [id] alone is filed under
    [REF_undefined].  Nothing else of the provider changes. *)
Theorem local_reference_key (f key : value) (p : process) :
  truthy (inline_values f) = true ->
  local_key f = Ok key ->
  referenceData (this (snd (extractFieldReference f p)))
    = map_set key (inline_values f) (referenceData (this p))
  /\ same_stored p (snd (extractFieldReference f p))
  /\ (truthy (prop (prop f "reference") "id") = false ->
      prop f "fieldId" = VUndef -> key = VStr "REF_undefined").
Proof.
  unfold inline_values, local_key. intros Hv Hkey.
  pose proof (values_truthy_reference _ Hv) as Hr.
  pose proof (truthy_not_nullish _ Hr) as Hrn.
  assert (Hn : nullish f = false).
  { destruct f; try reflexivity; cbn in Hr; discriminate. }
  assert (Hrun : snd (extractFieldReference f p)
                 = snd (storeReference key (prop (prop f "reference") "values") p)).
  { unfold extractFieldReference. monad_simpl. rewrite Hr. cbn [negb]. monad_simpl.
    rewrite Hv. cbn [negb]. monad_simpl.
    destruct (truthy (prop (prop f "reference") "id")).
    - inversion Hkey; subst key. monad_simpl. unfold storeReference. monad_simpl.
      rewrite snd_to_string; [reflexivity|]. intros x s'.
      rewrite snd_to_string; [reflexivity|]. reflexivity.
    - rewrite bind_assoc. monad_simpl. rewrite bind_assoc.
      destruct (to_string_r (prop f "fieldId")) as [fid|e] eqn:Hfid; [|discriminate].
      inversion Hkey; subst key.
      rewrite (bind_to_string _ _ _ _ Hfid). monad_simpl.
      unfold storeReference. monad_simpl.
      rewrite snd_to_string; [reflexivity|]. intros x s'.
      rewrite snd_to_string; [reflexivity|]. reflexivity. }
  rewrite Hrun. split; [reflexivity|]. split; [repeat split|].
  intros Hid Hf. rewrite Hid, Hf in Hkey. cbn in Hkey. inversion Hkey. reflexivity.
Qed.

Lemma local_reference_key_witness :
  truthy (inline_values sample_id_field) = true
  /\ local_key sample_id_field = Ok (VStr "REF_undefined")
  /\ referenceData (this (snd (extractFieldReference sample_id_field (fresh_process ∅))))
     = map_set (VStr "REF_undefined") (inline_values sample_id_field) [].
Proof.
  split; [reflexivity|]. split; [reflexivity|].
  exact (proj1 (local_reference_key sample_id_field (VStr "REF_undefined")
                  (fresh_process ∅) eq_refl eq_refl)).
Defined.

(** *** Clearing, saving and reading back *)

(** X12.  [clearImportedData] does not reach the adapter's store.  After a clear
    the provider is empty (every window lookup fails with the not-found
    message listing no windows, every saved form reads as [{}]), but an
    embedded reference id the adapter still holds keeps resolving to the
    adapter's values; every other id resolves to the empty list. *)
Theorem clear_keeps_embedded_references
    (p : process) (referenceId windowId : string) (recordId : option string) :
  getReferenceValues referenceId (step Clear p)
  = Ok (VArr (if MetadataAdapter.isEmbeddedReference referenceId
              then default [] (embeddedReferences p !! referenceId)
              else []))
  /\ getWindowDefinition windowId (this (step Clear p))
     = Throw (Error ("Window definition not found: " +:+ windowId
                     +:+ ". Available: []. Import a JSON template first."))
  /\ getFormData windowId recordId (this (step Clear p)) = VObj []
  /\ embeddedReferences (step Clear p) = embeddedReferences p.
Proof.
  split; [|split; [|split]].
  - unfold getReferenceValues, MetadataAdapter.getEmbeddedReferenceValues.
    cbn [step embeddedReferences this].
    destruct (MetadataAdapter.isEmbeddedReference referenceId); [|reflexivity].
    destruct (embeddedReferences p !! referenceId); reflexivity.
  - reflexivity.
  - destruct recordId as [r|]; [|reflexivity].
    unfold getFormData. destruct (negb (String.eqb r "")); reflexivity.
  - reflexivity.
Qed.

Lemma map_get_set_other {V} (a b : string) (v : V) (m : list (value * V)) :
  a <> b -> map_get (VStr a) (map_set (VStr b) v m) = map_get (VStr a) m.
Proof.
  intros Hab.
  assert (Hba : String.eqb b a = false) by (apply String.eqb_neq; congruence).
  induction m as [|[k' v'] r IH]; cbn [map_set map_get].
  - cbn [same_value_zero]. rewrite Hba. reflexivity.
  - destruct (same_value_zero k' (VStr b)) eqn:E; cbn [map_get].
    + destruct k' as [| | | |s| | |]; try discriminate.
      cbn [same_value_zero] in E |- *. apply String.eqb_eq in E. subst s.
      rewrite Hba. reflexivity.
    + rewrite IH. reflexivity.
Qed.

(** X13.  Saving a form and reading it back.  [getFormData] with the record id
    that [saveFormData] returned gives the saved record (or [{}] if the
    record was falsy); every other window/record pair reads as before the
    save unless it concatenates to the same storage key; the windows and
    references, and so [isConnected], are untouched. *)
Theorem form_data_round_trip
    (windowId now iso : string) (record : value) (t : provider) :
  prop (saveFormData_result now iso) "recordId" = VStr ("IMPORT_" +:+ now)
  /\ getFormData windowId (Some ("IMPORT_" +:+ now)) (saveFormData windowId record now t)
     = or_else record (VObj [])
  /\ (forall w r, form_key w r <> form_key windowId ("IMPORT_" +:+ now) ->
        getFormData w (Some r) (saveFormData windowId record now t)
        = getFormData w (Some r) t)
  /\ (forall w r, r <> "" -> form_key w r = form_key windowId ("IMPORT_" +:+ now) ->
        getFormData w (Some r) (saveFormData windowId record now t)
        = or_else record (VObj []))
  /\ isConnected (saveFormData windowId record now t) = isConnected t.
Proof.
  split; [reflexivity|].
  assert (Hsame : forall w r, r <> "" ->
            form_key w r = form_key windowId ("IMPORT_" +:+ now) ->
            getFormData w (Some r) (saveFormData windowId record now t)
            = or_else record (VObj [])).
  { intros w r Hr Hk. unfold getFormData, saveFormData. cbn [formData].
    apply String.eqb_neq in Hr. rewrite Hr. cbn [negb].
    unfold form_key in Hk. rewrite Hk.
    rewrite map_get_set by (cbn; apply String.eqb_refl). reflexivity. }
  split; [apply Hsame; [discriminate|reflexivity]|].
  split; [|split; [exact Hsame|reflexivity]].
  intros w r Hk. unfold getFormData, saveFormData. cbn [formData].
  destruct (negb (String.eqb r "")); [|reflexivity].
  unfold form_key in Hk. rewrite (map_get_set_other _ _ _ _ Hk). reflexivity.
Qed.

(** *** An import that fails in the adapter *)

Lemma validateTemplateStructure_passes (doc : value) (tabs : list value) (p : process) :
  truthy (or_else (prop doc "windowId") (prop doc "id")) = true ->
  truthy (prop doc "name") = true ->
  prop doc "tabs" = VArr tabs ->
  forallb tab_ok tabs = true ->
  validateTemplateStructure doc p
  = (Ok tt,
     log_append [diag "structure_validation" true "Starting template structure validation";
                 diag "structure_validation" true "Template structure validation successful"]
                p).
Proof.
  intros Hid Hname Htabs Hok.
  assert (Hn : nullish doc = false).
  { destruct doc; try reflexivity; cbn in Hname; discriminate. }
  assert (Hobj : forallb (fun t => negb (nullish t)) tabs = true).
  { apply forallb_forall. intros t Hin. apply tab_ok_object.
    eapply forallb_In; eassumption. }
  unfold validateTemplateStructure.
  rewrite (bind_eq _ _ _ _ _ (logDiagnostic_eq _ _ _ _)).
  monad_simpl. rewrite Hid, Hname, Htabs. cbn [negb truthy isArray andb].
  cbn [MetadataAdapter.array_items].
  destruct (validateTabs_count tabs 0 (log_append
     [diag "structure_validation" true "Starting template structure validation"] p) Hobj)
    as (invalid & Hrun & Hlen).
  rewrite (bind_eq _ _ _ _ _ Hrun). rewrite Hlen.
  rewrite (proj2 (invalid_count_zero tabs) Hok). cbn [Nat.ltb Nat.leb].
  rewrite logDiagnostic_eq, log_append_append. reflexivity.
Qed.

Lemma extractAndAnalyzeWindowId_passes (env : io) (doc : value) (p : process) :
  nullish doc = false ->
  truthy (or_else (prop doc "windowId") (prop doc "id")) = true ->
  exists es,
    extractAndAnalyzeWindowId env doc p
    = (Ok (or_else (prop doc "windowId") (prop doc "id")), log_append es p).
Proof.
  intros Hn Hid.
  pose proof (grows_extractAndAnalyzeWindowId env doc p) as [es Hes].
  exists es. rewrite <- Hes.
  rewrite (surjective_pairing (extractAndAnalyzeWindowId env doc p)) at 1. f_equal.
  unfold extractAndAnalyzeWindowId.
  rewrite (bind_eq _ _ _ _ _ (logDiagnostic_eq _ _ _ _)). monad_simpl.
  unfold or_else in Hid |- *.
  destruct (truthy (prop doc "windowId")) eqn:Hw.
  - monad_simpl. rewrite Hw. cbn [negb].
    rewrite (bind_eq _ _ _ _ _ (logDiagnostic_eq _ _ _ _)).
    rewrite (bind_eq _ _ _ _ _ (logDiagnostic_eq _ _ _ _)). reflexivity.
  - rewrite Hid. monad_simpl. rewrite Hid. cbn [negb].
    rewrite (bind_eq _ _ _ _ _ (logDiagnostic_eq _ _ _ _)).
    rewrite (bind_eq _ _ _ _ _ (logDiagnostic_eq _ _ _ _)). reflexivity.
Qed.

(** X22.  An import that fails in the adapter.  When a document passes
    structural validation and [MetadataAdapter.adaptWindowDefinition]
    throws on it, the import throws
    "Failed to import JSON template: MetadataAdapter failed: <cause>" and
    stores nothing in the provider; but the adapter has already run, so its
    store is no longer the one before the import: it is what the adapter
    left when it threw, starting from an empty store.  The hook that calls
    the import then switches no provider, and the provider in use finds
    the adapter's store replaced. *)
Theorem import_adapter_failure
    (env : io) (fileUri : string) (jsonContent : option string) (p : process)
    (raw : string) (doc : value) (tabs : list value)
    (cause : js_error) (m' : MetadataAdapter.store) :
  raw_content env fileUri jsonContent = Ok raw ->
  JSON_parse env raw = Ok doc ->
  truthy (or_else (prop doc "windowId") (prop doc "id")) = true ->
  truthy (prop doc "name") = true ->
  prop doc "tabs" = VArr tabs ->
  forallb tab_ok tabs = true ->
  MetadataAdapter.adaptWindowDefinition (adapterDates env) doc (embeddedReferences p)
    = (Throw cause, m') ->
  exists p',
    importJSONTemplate env fileUri jsonContent p
    = (Throw (Error ("Failed to import JSON template: MetadataAdapter failed: "
                     +:+ message cause)), p')
    /\ windowData (this p') = windowData (this p)
    /\ referenceData (this p') = referenceData (this p)
    /\ importedTemplate (this p') = importedTemplate (this p)
    /\ embeddedReferences p' = m'
    /\ m' = snd (MetadataAdapter.adaptWindowDefinition (adapterDates env) doc ∅)
    /\ (forall m0,
          p = fresh_process m0 -> jsonContent = Some raw -> raw <> "" ->
          JSONImport.switchedTo (JSONImport.handleJSONFileImport env fileUri jsonContent m0)
          = None
          /\ JSONImport.adapterStore
               (JSONImport.handleJSONFileImport env fileUri jsonContent m0) = m').
Proof.
  intros Hraw Hparse Hid Hname Htabs Hok Had.
  cut (exists p',
    importJSONTemplate env fileUri jsonContent p
    = (Throw (Error ("Failed to import JSON template: MetadataAdapter failed: "
                     +:+ message cause)), p')
    /\ windowData (this p') = windowData (this p)
    /\ referenceData (this p') = referenceData (this p)
    /\ importedTemplate (this p') = importedTemplate (this p)
    /\ embeddedReferences p' = m'
    /\ m' = snd (MetadataAdapter.adaptWindowDefinition (adapterDates env) doc ∅)).
  { intros (p' & Hrun & Hw & Hr & Ht & Hm & Hm0). exists p'.
    repeat (split; [assumption|]).
    intros m0 -> -> Hne. unfold JSONImport.handleJSONFileImport.
    apply String.eqb_neq in Hne. rewrite Hne. cbn [negb].
    unfold fresh_process in Hrun. rewrite Hrun. cbn. auto. }
  assert (Hn : nullish doc = false).
  { destruct doc; try reflexivity; cbn in Hname; discriminate. }
  assert (Hm : m' = snd (MetadataAdapter.adaptWindowDefinition (adapterDates env) doc ∅)).
  { rewrite adaptWindowDefinition_eq, Hn in Had. rewrite adaptWindowDefinition_eq, Hn.
    inversion Had. reflexivity. }
  unfold importJSONTemplate. rewrite bind_modify. fold (reset_log p).
  rewrite (bind_eq _ _ _ _ _ (logDiagnostic_eq _ _ _ _)).
  unfold try_catch, stages, validateFileAccess.
  rewrite (bind_eq _ _ _ _ _ (logDiagnostic_eq _ _ _ _)). rewrite log_append_append.
  match goal with |- context [bind (readFileContent env fileUri jsonContent) _ ?q] =>
    destruct (readFileContent_ok env fileUri jsonContent raw q Hraw) as (read & Hread & _) end.
  rewrite (bind_eq _ _ _ _ _ Hread). rewrite log_append_append.
  rewrite (bind_eq _ _ _ _ _ (parseJSONContent_ok env raw doc _ Hparse Hn)).
  rewrite log_append_append.
  rewrite (bind_eq _ _ _ _ _ (validateTemplateStructure_passes doc tabs _ Hid Hname Htabs Hok)).
  rewrite log_append_append.
  match goal with |- context [bind (extractAndAnalyzeWindowId env doc) _ ?q] =>
    destruct (extractAndAnalyzeWindowId_passes env doc q Hn Hid) as (es & Hex) end.
  rewrite (bind_eq _ _ _ _ _ Hex). rewrite log_append_append.
  unfold bind at 1. unfold adaptTemplateToADFormat.
  rewrite (bind_eq _ _ _ _ _ (logDiagnostic_eq _ _ _ _)). rewrite log_append_append.
  unfold try_catch. unfold call_adapter at 1. unfold bind at 1.
  cbn [log_append reset_log with_diagnostics embeddedReferences this].
  rewrite Had. unfold logError.
  rewrite (bind_eq _ _ _ _ _ (logDiagnostic_eq _ _ _ _)). cbn [throw].
  rewrite (bind_eq _ _ _ _ _ (logDiagnostic_eq _ _ _ _)). cbn [throw message].
  eexists. split; [reflexivity|]. cbn. repeat split. exact Hm.
Qed.

Lemma import_adapter_failure_witness :
  exists p',
    importJSONTemplate (env_of null_field_doc) "file:///broken.json" (Some "{...}")
      (fresh_process stale_store)
    = (Throw (Error ("Failed to import JSON template: MetadataAdapter failed: "
                     +:+ message (TypeError_read VNull "name"))), p')
    /\ is_Some (embeddedReferences (fresh_process stale_store) !! "SHAPE_EMBEDDED_REF")
    /\ embeddedReferences p' = ∅.
Proof.
  destruct (import_adapter_failure (env_of null_field_doc) "file:///broken.json"
              (Some "{...}") (fresh_process stale_store) "{...}" null_field_doc
              [VObj [("tabId", VStr "TAB_MAIN"); ("name", VStr "Main");
                     ("fields", VArr [VNull])]]
              (TypeError_read VNull "name") ∅
              eq_refl eq_refl eq_refl eq_refl eq_refl eq_refl
              ltac:(vm_compute; reflexivity))
    as (p' & Hrun & _ & _ & _ & Hm & _ & _).
  exists p'. split; [exact Hrun|]. split; [vm_compute; eauto | exact Hm].
Defined.

(** *** The import hook *)

Lemma import_returns_true (env : io) (fileUri : string) (c : option string)
      (p p' : process) (b : bool) :
  importJSONTemplate env fileUri c p = (Ok b, p') ->
  b = true /\ lastImportSuccess (getProviderStatus (this p')) = true.
Proof.
  unfold importJSONTemplate. rewrite bind_modify.
  rewrite (bind_eq _ _ _ _ _ (logDiagnostic_eq _ _ _ _)).
  unfold try_catch.
  match goal with |- context [stages env fileUri c ?q] =>
    destruct (stages env fileUri c q) as [[b'|e] p1] eqn:E end.
  - intros H; inversion H; subst b' p1.
    apply stages_ok in E as (-> & d & q' & ->).
    split; [reflexivity|]. unfold getProviderStatus. cbn [lastImportSuccess].
    rewrite last_log_append. reflexivity.
  - unfold logError. rewrite (bind_eq _ _ _ _ _ (logDiagnostic_eq _ _ _ _)).
    cbn [throw]. discriminate.
Qed.

(** X14.  [handleJSONFileImport], the caller of the import.  A provider is
    handed to [switchProvider] exactly when the content could be read and
    [importJSONTemplate] returned on it.  In that case the import returned
    [true], the provider switched in is the new one that ran the import,
    holding the imported window and nothing else (one window, no saved
    forms, connected, last import successful, that window first in the
    import info), the import info set is that provider's, and the alert is
    "Template Imported!" with one window (or "Import Failed" when the
    template's name cannot be printed).  When the content cannot be read,
    or the import throws, no provider is switched in, no import info is
    set and the alert is "Import Failed" with the message of the failure;
    a failed read leaves the adapter's store as it was.  A "Template
    Imported!" alert always reports one window and a switched provider. *)
Theorem import_hook_switches_provider
    (env : io) (fileUri : string) (jsonContent : option string)
    (m : MetadataAdapter.store) :
  (is_Some (JSONImport.switchedTo (JSONImport.handleJSONFileImport env fileUri jsonContent m))
   <-> exists raw,
         raw_content env fileUri jsonContent = Ok raw
         /\ is_ok (fst (importJSONTemplate env fileUri (Some raw) (fresh_process m))) = true)
  /\ (forall e,
        raw_content env fileUri jsonContent = Throw e ->
        JSONImport.handleJSONFileImport env fileUri jsonContent m
        = JSONImport.mkHandled None None
            (JSONImport.ImportFailed ("Cannot read JSON file: " +:+ message e)) m)
  /\ (forall raw e p',
        raw_content env fileUri jsonContent = Ok raw ->
        importJSONTemplate env fileUri (Some raw) (fresh_process m) = (Throw e, p') ->
        JSONImport.handleJSONFileImport env fileUri jsonContent m
        = JSONImport.mkHandled None None (JSONImport.ImportFailed (message e))
            (embeddedReferences p'))
  /\ (forall raw b p',
        raw_content env fileUri jsonContent = Ok raw ->
        importJSONTemplate env fileUri (Some raw) (fresh_process m) = (Ok b, p') ->
        b = true
        /\ JSONImport.handleJSONFileImport env fileUri jsonContent m
           = JSONImport.mkHandled (Some (this p')) (Some (getImportInfo (this p')))
               (match to_string_r
                        (or_else (MetadataAdapter.opt_prop (importedTemplate (this p')) "name")
                                 (VStr "Unknown")) with
                | Ok name => JSONImport.TemplateImported name 1
                | Throw e => JSONImport.ImportFailed (message e)
                end)
               (embeddedReferences p')
        /\ isConnected (this p') = Ok true
        /\ List.length (windowData (this p')) = 1%nat
        /\ formData (this p') = []
        /\ lastImportSuccess (getProviderStatus (this p')) = true
        /\ lastWindowId (getImportInfo (this p'))
           = Some (or_else (prop (importedTemplate (this p')) "windowId")
                           (prop (importedTemplate (this p')) "id")))
  /\ (forall name n,
        JSONImport.shown (JSONImport.handleJSONFileImport env fileUri jsonContent m)
        = JSONImport.TemplateImported name n ->
        n = 1%nat
        /\ is_Some (JSONImport.switchedTo
                      (JSONImport.handleJSONFileImport env fileUri jsonContent m))).
Proof.
  set (h := JSONImport.handleJSONFileImport env fileUri jsonContent m).
  destruct (raw_content env fileUri jsonContent) as [raw|e] eqn:Hraw.
  2:{ assert (Hh : h = JSONImport.mkHandled None None
                         (JSONImport.ImportFailed ("Cannot read JSON file: " +:+ message e)) m).
      { subst h. unfold JSONImport.handleJSONFileImport, raw_content in *.
        destruct jsonContent as [c|];
          [destruct (negb (String.eqb c "")); [discriminate|]|];
          rewrite Hraw; reflexivity. }
      rewrite Hh. cbn.
      split; [split; [intros [? ?]; discriminate|intros (? & ? & _); discriminate]|].
      split; [intros e' He'; inversion He'; reflexivity|].
      split; [intros; discriminate|]. split; intros; discriminate. }
  assert (Hh : h = match importJSONTemplate env fileUri (Some raw) (fresh_process m) with
                   | (Throw error, p) =>
                       JSONImport.mkHandled None None (JSONImport.ImportFailed (message error))
                         (embeddedReferences p)
                   | (Ok success, p) =>
                       if success then
                         match to_string_r
                                 (or_else (MetadataAdapter.opt_prop
                                             (infoTemplate (getImportInfo (this p))) "name")
                                          (VStr "Unknown")) with
                         | Ok name =>
                             JSONImport.mkHandled (Some (this p)) (Some (getImportInfo (this p)))
                               (JSONImport.TemplateImported name
                                  (infoWindowCount (getImportInfo (this p))))
                               (embeddedReferences p)
                         | Throw error =>
                             JSONImport.mkHandled (Some (this p)) (Some (getImportInfo (this p)))
                               (JSONImport.ImportFailed (message error)) (embeddedReferences p)
                         end
                       else
                         JSONImport.mkHandled None None
                           (JSONImport.ImportFailed "Failed to import JSON template")
                           (embeddedReferences p)
                   end).
  { subst h. unfold JSONImport.handleJSONFileImport, raw_content, fresh_process in *.
    destruct jsonContent as [c|];
      [destruct (negb (String.eqb c "")); [inversion Hraw; subst; reflexivity|]|];
      rewrite Hraw; reflexivity. }
  rewrite Hh. clear Hh h.
  destruct (importJSONTemplate env fileUri (Some raw) (fresh_process m))
    as [[b|e] p'] eqn:E.
  2:{ cbn [JSONImport.switchedTo JSONImport.shown].
      split; [split; [intros [? ?]; discriminate|]|].
      { intros (raw0 & Hr0 & Hok). inversion Hr0; subst raw0.
        rewrite E in Hok. discriminate. }
      split; [intros; discriminate|].
      split; [intros raw0 e0 p0 Hr0 H0; inversion Hr0; subst raw0;
              rewrite E in H0; inversion H0; reflexivity|].
      split; [intros raw0 b0 p0 Hr0 H0; inversion Hr0; subst raw0;
              rewrite E in H0; discriminate|].
      intros; discriminate. }
  destruct (import_returns_true _ _ _ _ _ _ E) as (-> & Hlast).
  destruct (import_success_inv _ _ _ _ _ _ E)
    as (raw' & doc & out & _ & _ & Had & Hw & Hf & Ht & _).
  destruct (adapted_window_id _ _ _ _ _ Had) as (_ & _ & Hid).
  cbn [windowData formData this constructor map_set fresh_process] in Hw, Hf.
  assert (Hn : List.length (windowData (this p')) = 1%nat) by (rewrite Hw; reflexivity).
  cbn [infoWindowCount infoTemplate getImportInfo]. rewrite Hn.
  assert (Hsw : forall a, is_Some (JSONImport.switchedTo
              (match to_string_r (or_else (MetadataAdapter.opt_prop
                                             (importedTemplate (this p')) "name")
                                          (VStr "Unknown")) with
               | Ok name =>
                   JSONImport.mkHandled (Some (this p')) (Some a)
                     (JSONImport.TemplateImported name 1) (embeddedReferences p')
               | Throw error =>
                   JSONImport.mkHandled (Some (this p')) (Some a)
                     (JSONImport.ImportFailed (message error)) (embeddedReferences p')
               end))).
  { intros a. destruct (to_string_r _); cbn; eauto. }
  split; [split; [intros _; exists raw; split; [reflexivity|]; rewrite E; reflexivity
                 |intros _; apply Hsw]|].
  split; [intros; discriminate|].
  split; [intros raw0 e0 p0 Hr0 H0; inversion Hr0; subst raw0;
          rewrite E in H0; discriminate|].
  split.
  - intros raw0 b0 p0 Hr0 H0. inversion Hr0; subst raw0.
    rewrite E in H0. inversion H0; subst b0 p0.
    split; [reflexivity|]. split.
    { destruct (to_string_r _); reflexivity. }
    unfold isConnected, getImportInfo. cbn [lastWindowId]. rewrite Hw, Ht, Hid.
    repeat split; assumption.
  - intros name n H. split; [|apply Hsw].
    destruct (to_string_r _); cbn in H; [|discriminate].
    inversion H; reflexivity.
Qed.

(** X14 on two imports: the sample window is switched in with a "Template
    Imported!" alert for one window; a document with only a name switches
    nothing in and shows the failure. *)
Lemma import_hook_switches_provider_witness :
  is_Some (JSONImport.switchedTo
             (JSONImport.handleJSONFileImport (env_of Props.sample_doc) "file:///a.json"
                (Some "{...}") ∅))
  /\ JSONImport.handleJSONFileImport (env_of name_only_doc) "file:///a.json" None ∅
     = JSONImport.mkHandled None None
         (JSONImport.ImportFailed "Cannot read JSON file: ENOENT") ∅.
Proof.
  split.
  - apply (proj1 (import_hook_switches_provider (env_of Props.sample_doc) "file:///a.json"
                    (Some "{...}") ∅)).
    exists "{...}". split; [reflexivity|vm_compute; reflexivity].
  - exact (proj1 (proj2 (import_hook_switches_provider (env_of name_only_doc)
                           "file:///a.json" None ∅))
             (Error "ENOENT") eq_refl).
Defined.
End ImportExtras.

(* ===================================================================== *)
(** * Further properties of the external provider's cache                 *)
(* ===================================================================== *)

Section CacheExtras.
Import ExternalMetadataProvider CacheProps CacheExtraProps.

(** X15.  A window request that fails on the network.  When the cache has no
    valid entry for the window and the request is rejected, answered with a
    non-ok status, or its body does not parse, [getWindowDefinition] throws
    [Error("Failed to load window <id>: <cause>")] after exactly one request
    to [<baseUrl>/windows/<id>]; the cache is left as it was, and an expired
    entry for the window is neither served nor removed. *)
Theorem window_fetch_failure
    (env : io) (windowId : string) (p : process) (cause : string) :
  no_valid_entry env (this p) (window_key windowId) = true ->
  network_failure env (window_url (this p) windowId) = Some cause ->
  getWindowDefinition env windowId p
  = (Throw (Error ("Failed to load window " +:+ windowId +:+ ": " +:+ cause)),
     sent (window_url (this p) windowId) p).
Proof.
  intros Hc Hf. rewrite (getWindowDefinition_fetches _ _ _ Hc).
  unfold network_failure, window_url in Hf.
  unfold fetchWindow, try_catch, window_url, sent.
  unfold bind at 1. unfold gets at 1. unfold bind at 1.
  unfold do_fetch. rewrite bind_modify. unfold lift at 1.
  destruct (fetch env _) as [response|e].
  - destruct (ok response); cbn [negb] in *.
    + rewrite bind_lift. destruct (json response) as [w|e]; [discriminate|].
      inversion Hf; subst. reflexivity.
    + inversion Hf; subst. reflexivity.
  - inversion Hf; subst. reflexivity.
Qed.

Lemma window_fetch_failure_witness :
  no_valid_entry (offline_env 300000) (this sample_cached) (window_key "SITE_AUDIT") = true
  /\ is_Some (cache (this sample_cached) !! window_key "SITE_AUDIT")
  /\ getWindowDefinition (offline_env 300000) "SITE_AUDIT" sample_cached
     = (Throw (Error "Failed to load window SITE_AUDIT: Network request failed"),
        sent "http://localhost:3001/windows/SITE_AUDIT" sample_cached).
Proof.
  split; [vm_compute; reflexivity|]. split; [vm_compute; eauto|].
  exact (window_fetch_failure (offline_env 300000) "SITE_AUDIT" sample_cached
           "Network request failed" ltac:(vm_compute; reflexivity) eq_refl).
Defined.

(** X16.  [getReferenceValues] never throws.  When the cache has no valid entry
    for a reference that is not embedded and the request yields no
    reference document (rejected, non-ok status, unparsable or [null] body),
    the call returns the empty list after one request to
    [<baseUrl>/references/<id>] and caches nothing, so the next call asks
    the server again. *)
Theorem reference_lookup_never_throws
    (env : io) (referenceId : string) (p : process) :
  (exists values, fst (getReferenceValues env referenceId p) = Ok values)
  /\ (no_valid_entry env (this p) (reference_key referenceId) = true ->
      MetadataAdapter.isEmbeddedReference referenceId = false ->
      reference_unavailable env (reference_url (this p) referenceId) = true ->
      getReferenceValues env referenceId p
      = (Ok (VArr []), sent (reference_url (this p) referenceId) p)).
Proof.
  assert (Hres : exists values,
            fst (resolveReference env referenceId (reference_key referenceId) p) = Ok values).
  { unfold resolveReference.
    destruct (MetadataAdapter.isEmbeddedReference referenceId).
    - unfold bind at 1, gets at 1.
      destruct (MetadataAdapter.getEmbeddedReferenceValues _ _); cbn; eauto.
    - unfold try_catch.
      match goal with |- context [match ?c p with _ => _ end] =>
        destruct (c p) as [[v|e] q] end; cbn; eauto. }
  split.
  - unfold getReferenceValues. fold (reference_key referenceId).
    unfold bind at 1, gets at 1.
    destruct (cache (this p) !! reference_key referenceId) as [e|]; [|exact Hres].
    destruct (fresh env (this p) e); [cbn; eauto|exact Hres].
  - apply getReferenceValues_unavailable.
Qed.

(** *** Cache management *)

(** X17.  Emptying the cache, evicting the window's entry (by its full key
    [window_<id>]), and changing the base URL each force the next
    [getWindowDefinition] onto the network: one request, to the current
    base URL, and for [setBaseUrl] to the new one.  Evicting any other key
    (the bare window id, for instance) leaves a valid entry in use, and a
    cache timeout not above the age of the entry makes it stale. *)
Theorem cache_management
    (env : io) (windowId : string) (p : process) :
  requests (snd (getWindowDefinition env windowId (on_provider clearCache p)))
  = requests p ++ [window_url (this p) windowId]
  /\ requests (snd (getWindowDefinition env windowId
                      (on_provider (clearCacheEntry (window_key windowId)) p)))
     = requests p ++ [window_url (this p) windowId]
  /\ (forall newBaseUrl,
        requests (snd (getWindowDefinition env windowId
                         (on_provider (setBaseUrl newBaseUrl) p)))
        = requests p ++ [newBaseUrl +:+ "/windows/" +:+ windowId])
  /\ (forall key e,
        key <> window_key windowId ->
        cache (this p) !! window_key windowId = Some e ->
        fresh env (this p) e = true ->
        getWindowDefinition env windowId (on_provider (clearCacheEntry key) p)
        = (Ok (data e), on_provider (clearCacheEntry key) p))
  /\ (forall timeoutMs e,
        cache (this p) !! window_key windowId = Some e ->
        (timeoutMs <= now env - timestamp e)%Z ->
        requests (snd (getWindowDefinition env windowId
                         (on_provider (setCacheTimeout timeoutMs) p)))
        = requests p ++ [window_url (this p) windowId]).
Proof.
  split; [|split; [|split; [|split]]].
  - rewrite getWindowDefinition_fetches by reflexivity.
    rewrite fetchWindow_requests. reflexivity.
  - rewrite getWindowDefinition_fetches.
    + rewrite fetchWindow_requests. reflexivity.
    + unfold no_valid_entry, on_provider, clearCacheEntry. cbn [this cache].
      rewrite lookup_delete_eq. reflexivity.
  - intros u. rewrite getWindowDefinition_fetches by reflexivity.
    rewrite fetchWindow_requests. reflexivity.
  - intros key e Hk Hc Hf. apply getWindowDefinition_hit.
    + unfold on_provider, clearCacheEntry. cbn [this cache].
      rewrite lookup_delete_ne by exact Hk. exact Hc.
    + exact Hf.
  - intros t e Hc Ht. rewrite getWindowDefinition_fetches.
    + rewrite fetchWindow_requests. reflexivity.
    + unfold no_valid_entry, on_provider, setCacheTimeout, fresh. cbn [this cache cacheTimeout].
      rewrite Hc. apply negb_true_iff, Z.ltb_ge. exact Ht.
Qed.

(** *** The adapter's store behind the provider *)

Lemma fetchWindow_inv (env : io) (windowId cacheKey : string) (p p1 : process)
      (out : value) :
  fetchWindow env windowId cacheKey p = (Ok out, p1) ->
  exists r doc,
    fetch env (window_url (this p) windowId) = Ok r
    /\ ok r = true
    /\ json r = Ok doc
    /\ MetadataAdapter.adaptWindowDefinition (iso env) doc (embeddedReferences p)
       = (Ok out, embeddedReferences p1).
Proof.
  intros H. apply fetchWindow_returns in H as (r & doc & H1 & H2 & H3 & H4 & _).
  exists r, doc. auto.
Qed.

(** X18.  Loading a window from the server replaces the adapter's store by the
    embedded references of that window alone.  Whenever
    [getWindowDefinition] returns a window it had to fetch, the store is
    the one the adapter builds for the received document from scratch; an
    embedded reference id that is not in it (one of a window loaded
    earlier, say) and has no valid cache entry then resolves to the empty
    list, without a request and without being cached. *)
Theorem window_load_replaces_embedded_references
    (env : io) (windowId : string) (p p1 : process) (out : value) :
  getWindowDefinition env windowId p = (Ok out, p1) ->
  no_valid_entry env (this p) (window_key windowId) = true ->
  exists r doc,
    fetch env (window_url (this p) windowId) = Ok r
    /\ json r = Ok doc
    /\ MetadataAdapter.adaptWindowDefinition (iso env) doc ∅
       = (Ok out, embeddedReferences p1)
    /\ (forall env2 referenceId,
          MetadataAdapter.isEmbeddedReference referenceId = true ->
          embeddedReferences p1 !! referenceId = None ->
          no_valid_entry env2 (this p1) (reference_key referenceId) = true ->
          getReferenceValues env2 referenceId p1 = (Ok (VArr []), p1)).
Proof.
  intros H Hc. rewrite (getWindowDefinition_fetches _ _ _ Hc) in H.
  apply fetchWindow_inv in H as (r & doc & Hf & _ & Hj & Had).
  exists r, doc. split; [exact Hf|]. split; [exact Hj|]. split.
  - rewrite adaptWindowDefinition_eq in Had |- *.
    destruct (nullish doc); [discriminate|exact Had].
  - intros env2 rid He Hm Hc2. rewrite (getReferenceValues_resolves _ _ _ Hc2).
    unfold resolveReference. rewrite He.
    unfold bind at 1, gets at 1.
    unfold MetadataAdapter.getEmbeddedReferenceValues. rewrite Hm. reflexivity.
Qed.

Lemma window_load_replaces_embedded_references_witness :
  exists out p1,
    getWindowDefinition (online_env Props.sample_doc 0) "SITE_AUDIT" sample_stale
      = (Ok out, p1)
    /\ no_valid_entry (online_env Props.sample_doc 0) (this sample_stale)
         (window_key "SITE_AUDIT") = true
    /\ is_Some (embeddedReferences sample_stale !! "SHAPE_EMBEDDED_REF")
    /\ getReferenceValues (offline_env 1) "SHAPE_EMBEDDED_REF" p1 = (Ok (VArr []), p1).
Proof.
  destruct (fst (getWindowDefinition (online_env Props.sample_doc 0) "SITE_AUDIT" sample_stale))
    as [out|e] eqn:E; [|vm_compute in E; discriminate].
  exists out, (snd (getWindowDefinition (online_env Props.sample_doc 0) "SITE_AUDIT"
                      sample_stale)).
  assert (Hrun : getWindowDefinition (online_env Props.sample_doc 0) "SITE_AUDIT" sample_stale
                 = (Ok out, snd (getWindowDefinition (online_env Props.sample_doc 0)
                                   "SITE_AUDIT" sample_stale))).
  { rewrite <- E. apply surjective_pairing. }
  split; [exact Hrun|]. split; [reflexivity|]. split; [vm_compute; eauto|].
  destruct (window_load_replaces_embedded_references _ _ _ _ _ Hrun eq_refl)
    as (r & doc & _ & _ & _ & Hall).
  apply Hall; vm_compute; reflexivity.
Defined.
End CacheExtras.

(* ===================================================================== *)
(** * The monitor on the providers the app constructs                     *)
(* ===================================================================== *)

Section AppExtras.
Import ConnectionMonitor DataConfig App.

Lemma run_poll_not_error (st : state) (e : poll) :
  connectionStatus (run_poll st e) <> error.
Proof.
  destruct e as [time|time|env time p]; unfold run_poll; cbn; try discriminate.
  destruct (isConnected_resolves env p) as [b Hb].
  unfold ExternalMetadataProvider.isConnected, try_catch in Hb |- *.
  match goal with |- context [match ?c p with _ => _ end] =>
    destruct (c p) as [[b'|e'] q] end; cbn in *.
  - destruct b'; [discriminate|].
    match goal with |- context [if ?c then _ else _] => destruct c end; discriminate.
  - match goal with |- context [if ?c then _ else _] => destruct c end; discriminate.
Qed.

(** X19.  The health check of the external provider swallows every failure, so
    the monitor never sees it reject; the mock and JSON-file providers are
    reported connected without being asked.  Hence, whatever sequence of
    checks runs against the three provider classes the app constructs, the
    monitor's status is never [error], and the condition of the automatic
    fallback to the mock provider never holds. *)
Theorem fallback_never_armed (events : list poll) :
  (forall env time p, health (externalProbe env time p) <> Rejects)
  /\ connectionStatus (run_polls events) <> error
  /\ (forall appError providerType,
        fallbackArmed appError providerType (run_polls events) = false).
Proof.
  assert (Hs : connectionStatus (run_polls events) <> error).
  { unfold run_polls. induction events as [|e events IH] using rev_ind.
    - discriminate.
    - rewrite foldl_app. cbn [foldl]. apply run_poll_not_error. }
  split; [|split; [exact Hs|]].
  - intros env time p. unfold externalProbe. cbn [health].
    destruct (isConnected_resolves env p) as [b ->]. discriminate.
  - intros appError providerType. unfold fallbackArmed.
    destruct (connectionStatus (run_polls events)); try contradiction;
      apply andb_false_r.
Qed.

Lemma run_poll_label (st : state) (e : poll) :
  lastSuccessfulFetch (run_poll st e)
  = match CacheExtraProps.success_label e with
    | Some l => Some l
    | None => lastSuccessfulFetch st
    end
  /\ (connectionStatus (run_poll st e) = connected
      <-> is_Some (CacheExtraProps.success_label e)).
Proof.
  destruct e as [time|time|env time p]; unfold run_poll; cbn.
  - split; [reflexivity|]. split; eauto.
  - split; [reflexivity|]. split; eauto.
  - rewrite isConnected_eq.
    destruct (ExternalMetadataProvider.fetch env _) as [r|err].
    + destruct (ExternalMetadataProvider.ok r); cbn.
      * split; [reflexivity|]. split; eauto.
      * match goal with |- context [if ?c then _ else _] => destruct c end; cbn;
          (split; [reflexivity|]); (split; [discriminate|]);
          intros [? ?]; discriminate.
    + match goal with |- context [if ?c then _ else _] => destruct c end; cbn;
        (split; [reflexivity|]); (split; [discriminate|]);
        intros [? ?]; discriminate.
Qed.

(** X20.  What the monitor shows as the last successful fetch, over any history
    of checks: the label of the most recent check that found its provider
    available ("Demo Data", "Imported Template", or the local time of a
    health check answered with an ok status), and nothing if there was
    none.  A check that fails leaves the label of the earlier success in
    place; the status is [connected] exactly after a check that
    succeeded. *)
Theorem last_successful_fetch_history (events : list poll) :
  lastSuccessfulFetch (run_polls events)
  = last (omap CacheExtraProps.success_label events)
  /\ (forall e, lastSuccessfulFetch (run_polls (events ++ [e]))
                = match CacheExtraProps.success_label e with
                  | Some l => Some l
                  | None => lastSuccessfulFetch (run_polls events)
                  end)
  /\ (forall e, connectionStatus (run_polls (events ++ [e])) = connected
                <-> is_Some (CacheExtraProps.success_label e)).
Proof.
  assert (Hstep : forall evs e, run_polls (evs ++ [e]) = run_poll (run_polls evs) e).
  { intros evs e. unfold run_polls. rewrite foldl_app. reflexivity. }
  split; [|split].
  - induction events as [|e events IH] using rev_ind; [reflexivity|].
    rewrite Hstep, (proj1 (run_poll_label _ e)), IH, omap_app.
    destruct (CacheExtraProps.success_label e) as [l|] eqn:El.
    + assert (omap CacheExtraProps.success_label [e] = [l]) as ->
        by (cbn; rewrite El; reflexivity).
      symmetry. apply last_snoc.
    + assert (omap CacheExtraProps.success_label [e] = []) as ->
        by (cbn; rewrite El; reflexivity).
      rewrite app_nil_r. reflexivity.
  - intros e. rewrite Hstep. apply run_poll_label.
  - intros e. rewrite Hstep. apply run_poll_label.
Qed.

(** X21.  The provider the data context starts with.  With a mock provider that
    can be constructed, the initializer always yields a provider;
    [createDataProvider] applied to [getDataConfig()] can only fail with
    "APIDataProvider not yet implemented", which happens exactly for the
    sources [remote] and [api] and is answered by the mock provider; the
    external provider is chosen only for the source [external] (the
    default of an unset source) and the JSON-file provider only for
    [json-file]. *)
Theorem configured_provider
    (construct : providerClass -> result unit) (metadataSource : value) :
  construct MockDataProvider = Ok tt ->
  (exists k, initialProviderClass construct None metadataSource = Ok k
             /\ (k = ExternalMetadataProvider ->
                 is_str (or_else metadataSource (VStr "external")) "external" = true)
             /\ (k = JSONFileDataProvider ->
                 is_str (or_else metadataSource (VStr "external")) "json-file" = true))
  /\ (forall e, createDataProvider construct (getDataConfig metadataSource) = Throw e ->
                e = Error "APIDataProvider not yet implemented")
  /\ (is_ok (createDataProvider construct (getDataConfig metadataSource)) = false
      <-> (is_str (or_else metadataSource (VStr "external")) "remote"
           || is_str (or_else metadataSource (VStr "external")) "api") = true
          /\ is_str (or_else metadataSource (VStr "external")) "external" = false
          /\ is_str (or_else metadataSource (VStr "external")) "json-file" = false)
  /\ (truthy metadataSource = false ->
      initialProviderClass construct None metadataSource
      = Ok (if is_ok (construct ExternalMetadataProvider)
            then ExternalMetadataProvider else MockDataProvider)).
Proof.
  intros Hm. unfold initialProviderClass, createDataProvider, getDataConfig.
  split; [|split; [|split]].
  - destruct (is_str _ "external") eqn:E1; cbn.
    { destruct (construct ExternalMetadataProvider); [|rewrite Hm];
        eexists; (split; [reflexivity|]); split; intros; congruence. }
    destruct (is_str _ "json-file") eqn:E2; cbn.
    { destruct (construct JSONFileDataProvider); [|rewrite Hm];
        eexists; (split; [reflexivity|]); split; intros; congruence. }
    destruct (is_str _ "remote" || is_str _ "api"); cbn; rewrite Hm;
      eexists; (split; [reflexivity|]); split; intros; congruence.
  - intros e. destruct (is_str _ "external") eqn:E1; cbn.
    { destruct (construct ExternalMetadataProvider); [|rewrite Hm]; discriminate. }
    destruct (is_str _ "json-file") eqn:E2; cbn.
    { destruct (construct JSONFileDataProvider); [|rewrite Hm]; discriminate. }
    destruct (is_str _ "remote" || is_str _ "api"); cbn; [|rewrite Hm; discriminate].
    intros H; inversion H; reflexivity.
  - destruct (is_str _ "external") eqn:E1; cbn.
    { destruct (construct ExternalMetadataProvider); [|rewrite Hm]; cbn;
        split; [discriminate | intros (_ & ? & _); discriminate
               | discriminate | intros (_ & ? & _); discriminate]. }
    destruct (is_str _ "json-file") eqn:E2; cbn.
    { destruct (construct JSONFileDataProvider); [|rewrite Hm]; cbn;
        split; [discriminate | intros (_ & _ & ?); discriminate
               | discriminate | intros (_ & _ & ?); discriminate]. }
    destruct (is_str _ "remote" || is_str _ "api"); cbn; [|rewrite Hm; cbn].
    + split; auto.
    + split; [discriminate | intros (? & _); discriminate].
  - intros Hf. unfold or_else. rewrite Hf. cbn.
    destruct (construct ExternalMetadataProvider); [reflexivity|].
    rewrite Hm. reflexivity.
Qed.

Lemma configured_provider_witness :
  (fun _ : providerClass => Ok tt) MockDataProvider = Ok tt
  /\ (exists k, initialProviderClass (fun _ => Ok tt) None (VStr "api") = Ok k)
  /\ (forall e, createDataProvider (fun _ => Ok tt) (getDataConfig (VStr "api")) = Throw e ->
                e = Error "APIDataProvider not yet implemented").
Proof.
  split; [reflexivity|].
  destruct (configured_provider (fun _ => Ok tt) (VStr "api") eq_refl)
    as ((k & Hk & _) & He & _).
  split; [exists k; exact Hk | exact He].
Defined.
End AppExtras.
